(** * rlgym_compat: the vehicle state estimator of [car.py]

    A shallow embedding of [rlgym_compat/car.py] (class [Car]) together with
    the records of [extra_info.py] and the parts of [rlbot.flat] that
    [car.py] reads.

    Numbers.  Python [int] is [Z].  Python [float] is modelled by exact
    rationals [Q]: timers, clock and rates are added, scaled and compared
    exactly as the source does, without binary rounding, NaN or infinities.
    Results of arithmetic are compared with Leibniz equality when the source
    assigns them and with [Qle]/[Qlt]/[Qeq] when it tests them. *)

From Stdlib Require Import ZArith QArith Qround Bool List Lia Lqa.
Import ListNotations.

Local Open Scope Z_scope.

(** ** Python built-ins used by [car.py] *)

(** [a < b] on floats. *)
Definition Qlt_bool (a b : Q) : bool := negb (Qle_bool b a).

(** [max(a, b)]: the first argument is kept unless the second is greater. *)
Definition py_max (a b : Q) : Q := if Qlt_bool a b then b else a.

(** [min(a, b)]: the first argument is kept unless the second is smaller. *)
Definition py_min (a b : Q) : Q := if Qlt_bool b a then b else a.

(** [round(x)] with one argument: nearest integer, ties to the even one. *)
Definition py_round (x : Q) : Z :=
  let f := Qfloor x in
  let r := (x - inject_Z f)%Q in
  if Qlt_bool r (1 # 2) then f
  else if Qlt_bool (1 # 2) r then f + 1
  else if Z.even f then f else f + 1.

(** [sum] of a tuple of four [bool]s. *)
Definition py_sum4 (w : bool * bool * bool * bool) : Z :=
  let '(fl, fr, bl, br) := w in Z.b2z fl + Z.b2z fr + Z.b2z bl + Z.b2z br.

(** Outcome of a Python call: it returns, or it raises. *)
Inductive exn : Type := IndexError.

Inductive outcome (A : Type) : Type :=
| Returned (a : A)
| Raised (e : exn).
Arguments Returned {A} a.
Arguments Raised {A} e.

(** [l[i]] on a Python list: negative indices count from the end. *)
Definition py_getitem {A : Type} (l : list A) (i : Z) : outcome A :=
  let n := Z.of_nat (List.length l) in
  let j := if i <? 0 then i + n else i in
  if (0 <=? j) && (j <? n)
  then match nth_error l (Z.to_nat j) with
       | Some a => Returned a
       | None => Raised IndexError
       end
  else Raised IndexError.

(** ** Collaborators that are not part of the sources *)

(** The constants [car.py] imports from [common_values.py]. *)
Class CommonValues : Type := {
  BLUE_TEAM : Z;
  ORANGE_TEAM : Z;
  OCTANE : Z;
  DOMINUS : Z;
  PLANK : Z;
  BREAKOUT : Z;
  HYBRID : Z;
  MERC : Z;
  DOUBLEJUMP_MAX_DELAY : Q;
  FLIP_TORQUE_TIME : Q;
  JUMP_RESET_TIME_PAD : Q;
  MIN_BOOST_TIME : Q;
  MIN_JUMP_TIME : Q;
  POWERSLIDE_FALL_RATE : Q;
  POWERSLIDE_RISE_RATE : Q;
  TICK_TIME : Q;
  TICKS_PER_SECOND : Z
}.

(** [physics_object.py] ([PhysicsObject]) and the raw [rlbot.flat.Physics]
    sample it decodes. *)
Class PhysicsModel : Type := {
  Physics : Type;
  PhysicsObject : Type;
  create_compat_physics_object : PhysicsObject;
  physics_update : PhysicsObject -> Physics -> PhysicsObject;
  physics_inverted : PhysicsObject -> PhysicsObject
}.

(** ** [rlbot.flat]: the telemetry records read by [car.py] *)

Module AirState.
Inductive t : Type := OnGround | Jumping | DoubleJumping | Dodging | InAir.

(** [int(air_state)]: the value of the enum member. *)
Definition to_int (a : t) : Z :=
  match a with
  | OnGround => 0
  | Jumping => 1
  | DoubleJumping => 2
  | Dodging => 3
  | InAir => 4
  end.
End AirState.

Module Vector2.
Record t : Type := mk { x : Q; y : Q }.
End Vector2.

Module Vector3.
Record t : Type := mk { x : Q; y : Q; z : Q }.
End Vector3.

Module BoxShape.
Record t : Type := mk { length : Q; width : Q; height : Q }.
End BoxShape.

(** [utils.py]: the shape test [detect_hitbox] calls with a measured box and
    the reference length, width and height. *)
Class Utils : Type := {
  compare_hitbox_shape : BoxShape.t -> Q -> Q -> Q -> bool
}.

(** Only the inputs [car.py] reads. *)
Module ControllerState.
Record t : Type := mk { jump : bool; boost : bool; handbrake : bool }.
End ControllerState.

Module Touch.
Record t : Type := mk { game_seconds : Q }.
End Touch.

Module PlayerInfo.
Record t {ph : PhysicsModel} : Type := mk {
  team : Z;
  hitbox : BoxShape.t;
  hitbox_offset : Vector3.t;
  air_state : AirState.t;
  boost : Q;
  has_jumped : bool;
  has_double_jumped : bool;
  has_dodged : bool;
  dodge_timeout : Q;
  dodge_elapsed : Q;
  dodge_dir : Vector2.t;
  demolished_timeout : Q;
  is_supersonic : bool;
  latest_touch : option Touch.t;
  last_input : ControllerState.t;
  physics : Physics
}.
End PlayerInfo.

Module MatchInfo.
Record t : Type := mk { seconds_elapsed : Q; frame_num : Z }.
End MatchInfo.

Module GamePacket.
Record t {ph : PhysicsModel} : Type := mk {
  players : list PlayerInfo.t;
  match_info : MatchInfo.t
}.
End GamePacket.

(** ** [extra_info.py] *)

Module ExtraPlayerInfo.
Record t : Type := mk {
  wheels_with_contact : option (bool * bool * bool * bool);
  handbrake : option Q;
  ball_touches : option Z;
  car_contact_id : option Z;
  car_contact_cooldown_timer : option Q;
  is_autoflipping : option bool;
  autoflip_timer : option Q;
  autoflip_direction : option Q
}.
End ExtraPlayerInfo.

(** ** [car.py]: class [Car] *)

Module Car.
Section Car.
Context {cv : CommonValues} {ph : PhysicsModel} {ut : Utils}.

(** The slots of the dataclass.  [_inverted_physics],
    [_next_action_tick_duration] and [_ball_touch_ticks] are still [None]
    after [create_compat_car], hence optional. *)
Record t : Type := mk {
  team_num : Z;
  hitbox_type : Z;
  ball_touches : Z;
  bump_victim_id : option Z;
  demo_respawn_timer : Q;
  wheels_with_contact : bool * bool * bool * bool;
  supersonic_time : Q;
  boost_amount : Q;
  boost_active_time : Q;
  handbrake : Q;
  is_jumping : bool;
  has_jumped : bool;
  is_holding_jump : bool;
  jump_time : Q;
  has_flipped : bool;
  has_double_jumped : bool;
  air_time_since_jump : Q;
  flip_time : Q;
  flip_torque : Q * Q * Q;
  is_autoflipping : bool;
  autoflip_timer : Q;
  autoflip_direction : Q;
  physics : PhysicsObject;
  _inverted_physics : option PhysicsObject;
  _next_action_tick_duration : option Z;
  _ball_touch_ticks : option (list bool);
  _prev_air_state : Z;
  _game_seconds : Q;
  _cur_tick : Z
}.

(** *** Properties *)

Definition is_blue (self : t) : bool := team_num self =? BLUE_TEAM.

Definition is_orange (self : t) : bool := team_num self =? ORANGE_TEAM.

Definition is_demoed (self : t) : bool := Qlt_bool 0 (demo_respawn_timer self).

Definition is_boosting (self : t) : bool := Qlt_bool 0 (boost_active_time self).

Definition is_supersonic (self : t) : bool := Qlt_bool 0 (supersonic_time self).

(** Getter: [sum(self.wheels_with_contact) >= 3]. *)
Definition on_ground (self : t) : bool := 3 <=? py_sum4 (wheels_with_contact self).

(** Setter: the tuple [self.on_ground = value] stores in
    [wheels_with_contact]. *)
Definition on_ground_setter (value : bool) : bool * bool * bool * bool :=
  (value, value, value, value).

Definition has_flip (self : t) : bool :=
  negb (has_double_jumped self) && negb (has_flipped self)
  && Qlt_bool (air_time_since_jump self) DOUBLEJUMP_MAX_DELAY.

Definition can_flip (self : t) : bool :=
  negb (on_ground self) && negb (is_holding_jump self) && has_flip self.

Definition is_flipping (self : t) : bool :=
  has_flipped self && Qlt_bool (flip_time self) FLIP_TORQUE_TIME.

Definition had_car_contact (self : t) : bool :=
  match bump_victim_id self with Some _ => true | None => false end.

(** *** [detect_hitbox] *)

Definition detect_hitbox (hitbox_shape : BoxShape.t) (hitbox_offset : Vector3.t) : Z :=
  if compare_hitbox_shape hitbox_shape 118.00738 84.19941 36.159073 then OCTANE
  else if compare_hitbox_shape hitbox_shape 127.92678 83.27995 31.3 then DOMINUS
  else if compare_hitbox_shape hitbox_shape 128.81978 84.670364 29.394402 then PLANK
  else if compare_hitbox_shape hitbox_shape 131.49236 80.521 30.3 then BREAKOUT
  else if compare_hitbox_shape hitbox_shape 127.01919 82.18787 34.159073 then HYBRID
  else if compare_hitbox_shape hitbox_shape 120.72023 76.71031 41.659073 then MERC
  else OCTANE.

(** *** [create_compat_car] *)

Definition create_compat_car (packet : GamePacket.t) (player_index : Z)
  (action_tick_duration : Z) : outcome t :=
  match py_getitem (GamePacket.players packet) player_index with
  | Raised e => Raised e
  | Returned player_info =>
    Returned {|
      team_num := if PlayerInfo.team player_info =? 0 then BLUE_TEAM else ORANGE_TEAM;
      hitbox_type := detect_hitbox (PlayerInfo.hitbox player_info)
                       (PlayerInfo.hitbox_offset player_info);
      ball_touches := 0;
      bump_victim_id := None;
      demo_respawn_timer := 0;
      wheels_with_contact :=
        on_ground_setter
          (AirState.to_int (PlayerInfo.air_state player_info)
           =? AirState.to_int AirState.OnGround);
      supersonic_time := 0;
      boost_amount := PlayerInfo.boost player_info / 100;
      boost_active_time := 0;
      handbrake := 0;
      has_jumped := PlayerInfo.has_jumped player_info;
      is_holding_jump := ControllerState.jump (PlayerInfo.last_input player_info);
      is_jumping := false;
      jump_time := 0;
      has_flipped := PlayerInfo.has_dodged player_info;
      has_double_jumped := PlayerInfo.has_double_jumped player_info;
      air_time_since_jump :=
        if Qeq_bool (PlayerInfo.dodge_timeout player_info) (-1) then 0
        else DOUBLEJUMP_MAX_DELAY - PlayerInfo.dodge_timeout player_info;
      flip_time := PlayerInfo.dodge_elapsed player_info;
      flip_torque :=
        (- Vector2.y (PlayerInfo.dodge_dir player_info),
         Vector2.x (PlayerInfo.dodge_dir player_info), 0)%Q;
      is_autoflipping := false;
      autoflip_timer := 0;
      autoflip_direction := 0;
      physics := create_compat_physics_object;
      _inverted_physics := None;
      _next_action_tick_duration := None;
      _ball_touch_ticks := None;
      _prev_air_state := AirState.to_int (PlayerInfo.air_state player_info);
      _game_seconds := MatchInfo.seconds_elapsed (GamePacket.match_info packet);
      _cur_tick := MatchInfo.frame_num (GamePacket.match_info packet)
    |}
  end.

(** *** [reset_ball_touches] *)

Definition reset_ball_touches (self : t) : t :=
  {| team_num := team_num self;
     hitbox_type := hitbox_type self;
     ball_touches := 0;
     bump_victim_id := bump_victim_id self;
     demo_respawn_timer := demo_respawn_timer self;
     wheels_with_contact := wheels_with_contact self;
     supersonic_time := supersonic_time self;
     boost_amount := boost_amount self;
     boost_active_time := boost_active_time self;
     handbrake := handbrake self;
     is_jumping := is_jumping self;
     has_jumped := has_jumped self;
     is_holding_jump := is_holding_jump self;
     jump_time := jump_time self;
     has_flipped := has_flipped self;
     has_double_jumped := has_double_jumped self;
     air_time_since_jump := air_time_since_jump self;
     flip_time := flip_time self;
     flip_torque := flip_torque self;
     is_autoflipping := is_autoflipping self;
     autoflip_timer := autoflip_timer self;
     autoflip_direction := autoflip_direction self;
     physics := physics self;
     _inverted_physics := _inverted_physics self;
     _next_action_tick_duration := _next_action_tick_duration self;
     _ball_touch_ticks := _ball_touch_ticks self;
     _prev_air_state := _prev_air_state self;
     _game_seconds := _game_seconds self;
     _cur_tick := _cur_tick self |}.

(** *** [update]

    The method mutates [self] statement by statement.  Each assignment to a
    slot is a [let] that introduces the slot's next value (the slot's name
    with a version number); a slot read after an assignment reads the latest
    version, one read before it reads [self].  The record at the end gathers
    the last version of every slot. *)

Definition update (self : t) (player_info : PlayerInfo.t) (game_tick : Z)
  (extra_player_info : option ExtraPlayerInfo.t) : t :=
  let last_input := PlayerInfo.last_input player_info in
  (* ticks_elapsed, clock *)
  let ticks_elapsed := game_tick - _cur_tick self in
  let _cur_tick1 := game_tick in
  let time_elapsed := (TICK_TIME * inject_Z ticks_elapsed)%Q in
  let _game_seconds1 := (_game_seconds self + time_elapsed)%Q in
  (* ball touch *)
  let ball_touches1 :=
    match PlayerInfo.latest_touch player_info with
    | Some latest_touch =>
        let ticks_since_touch :=
          py_round ((_game_seconds1 - Touch.game_seconds latest_touch)
                    * inject_Z TICKS_PER_SECOND) in
        if ticks_since_touch <? ticks_elapsed
        then ball_touches self + 1
        else ball_touches self
    | None => ball_touches self
    end in
  let demo_respawn_timer1 :=
    if Qeq_bool (PlayerInfo.demolished_timeout player_info) (-1) then 0%Q
    else PlayerInfo.demolished_timeout player_info in
  (* supersonic timer *)
  let supersonic_time1 :=
    if PlayerInfo.is_supersonic player_info
    then (supersonic_time self + time_elapsed)%Q
    else 0%Q in
  let boost_amount1 := (PlayerInfo.boost player_info / 100)%Q in
  (* boost timer *)
  let boost_active_time1 :=
    if Qlt_bool 0 (boost_active_time self) then
      if negb (ControllerState.boost last_input)
         && Qle_bool MIN_BOOST_TIME (boost_active_time self)
      then 0%Q
      else (boost_active_time self + time_elapsed)%Q
    else
      if ControllerState.boost last_input then time_elapsed
      else boost_active_time self in
  (* handbrake *)
  let handbrake1 :=
    if ControllerState.handbrake last_input
    then (handbrake self + POWERSLIDE_RISE_RATE * time_elapsed)%Q
    else (handbrake self - POWERSLIDE_FALL_RATE * time_elapsed)%Q in
  let handbrake2 := py_min 1 (py_max 0 handbrake1) in
  let is_holding_jump1 := ControllerState.jump last_input in
  (* jump and flip flags, timers *)
  let has_jumped1 := PlayerInfo.has_jumped player_info in
  let has_double_jumped1 := PlayerInfo.has_double_jumped player_info in
  let has_flipped1 := PlayerInfo.has_dodged player_info in
  let flip_time1 := PlayerInfo.dodge_elapsed player_info in
  let flip_torque1 :=
    let '(_, t1, t2) := flip_torque self in
    ((- Vector2.y (PlayerInfo.dodge_dir player_info))%Q, t1, t2) in
  let flip_torque2 :=
    let '(t0, _, t2) := flip_torque1 in
    (t0, Vector2.x (PlayerInfo.dodge_dir player_info), t2) in
  let jump_time1 :=
    if has_jumped1 || is_jumping self
    then (jump_time self + TICK_TIME * inject_Z ticks_elapsed)%Q
    else jump_time self in
  let air_time_since_jump1 :=
    if Qeq_bool (PlayerInfo.dodge_timeout player_info) (-1) then 0%Q
    else (DOUBLEJUMP_MAX_DELAY - PlayerInfo.dodge_timeout player_info)%Q in
  (* air state *)
  let '(wheels_with_contact1, is_jumping1, air_time_since_jump2, jump_time2) :=
    match PlayerInfo.air_state player_info with
    | AirState.OnGround =>
        (on_ground_setter true, false, 0%Q, jump_time1)
    | AirState.Jumping =>
        let jump_time2 :=
          if _prev_air_state self =? AirState.to_int AirState.OnGround
          then 0%Q else jump_time1 in
        (on_ground_setter (Qle_bool jump_time2 (6 * TICK_TIME)), true,
         air_time_since_jump1, jump_time2)
    | AirState.InAir =>
        (on_ground_setter false, false, air_time_since_jump1, jump_time1)
    | AirState.Dodging =>
        (on_ground_setter false, false, air_time_since_jump1, jump_time1)
    | AirState.DoubleJumping =>
        (on_ground_setter false, false, air_time_since_jump1, jump_time1)
    end in
  (* physics *)
  let physics1 := physics_update (physics self) (PlayerInfo.physics player_info) in
  let _inverted_physics1 := Some (physics_inverted physics1) in
  (* override with extra info if available *)
  let '(wheels_with_contact2, handbrake3, ball_touches2, bump_victim_id1,
        is_autoflipping1, autoflip_timer1, autoflip_direction1) :=
    match extra_player_info with
    | Some extra =>
        (match ExtraPlayerInfo.wheels_with_contact extra with
         | Some w => w
         | None => wheels_with_contact1
         end,
         match ExtraPlayerInfo.handbrake extra with
         | Some h => h
         | None => handbrake2
         end,
         match ExtraPlayerInfo.ball_touches extra with
         | Some n => n
         | None => ball_touches1
         end,
         match ExtraPlayerInfo.car_contact_id extra,
               ExtraPlayerInfo.car_contact_cooldown_timer extra with
         | Some id, Some cooldown =>
             if Qlt_bool 0 cooldown then Some id else None
         | _, _ => bump_victim_id self
         end,
         match ExtraPlayerInfo.is_autoflipping extra with
         | Some b => b
         | None => is_autoflipping self
         end,
         match ExtraPlayerInfo.autoflip_timer extra with
         | Some x => x
         | None => autoflip_timer self
         end,
         match ExtraPlayerInfo.autoflip_direction extra with
         | Some d => d
         | None => autoflip_direction self
         end)
    | None =>
        (wheels_with_contact1, handbrake2, ball_touches1, bump_victim_id self,
         is_autoflipping self, autoflip_timer self, autoflip_direction self)
    end in
  let _prev_air_state1 := AirState.to_int (PlayerInfo.air_state player_info) in
  {| team_num := team_num self;
     hitbox_type := hitbox_type self;
     ball_touches := ball_touches2;
     bump_victim_id := bump_victim_id1;
     demo_respawn_timer := demo_respawn_timer1;
     wheels_with_contact := wheels_with_contact2;
     supersonic_time := supersonic_time1;
     boost_amount := boost_amount1;
     boost_active_time := boost_active_time1;
     handbrake := handbrake3;
     is_jumping := is_jumping1;
     has_jumped := has_jumped1;
     is_holding_jump := is_holding_jump1;
     jump_time := jump_time2;
     has_flipped := has_flipped1;
     has_double_jumped := has_double_jumped1;
     air_time_since_jump := air_time_since_jump2;
     flip_time := flip_time1;
     flip_torque := flip_torque2;
     is_autoflipping := is_autoflipping1;
     autoflip_timer := autoflip_timer1;
     autoflip_direction := autoflip_direction1;
     physics := physics1;
     _inverted_physics := _inverted_physics1;
     _next_action_tick_duration := _next_action_tick_duration self;
     _ball_touch_ticks := _ball_touch_ticks self;
     _prev_air_state := _prev_air_state1;
     _game_seconds := _game_seconds1;
     _cur_tick := _cur_tick1 |}.

(** What the caller of [update] gets back.  The body has no [raise]; it
    indexes only the three-element [flip_torque] at 0 and 1, divides only by
    the literal 100 and rounds a finite number, so the call always returns,
    leaving the mutated car. *)
Definition update_call (self : t) (player_info : PlayerInfo.t) (game_tick : Z)
  (extra_player_info : option ExtraPlayerInfo.t) : outcome t :=
  Returned (update self player_info game_tick extra_player_info).

(** *** Runs of the estimator *)

(** The arguments of one [update] call. *)
Definition call : Type := PlayerInfo.t * Z * option ExtraPlayerInfo.t.

Definition call_sample (a : call) : PlayerInfo.t := fst (fst a).
Definition call_tick (a : call) : Z := snd (fst a).
Definition call_extra (a : call) : option ExtraPlayerInfo.t := snd a.

Definition step (self : t) (a : call) : t :=
  update self (call_sample a) (call_tick a) (call_extra a).

(** The car after a sequence of [update] calls. *)
Definition run (self : t) (calls : list call) : t := fold_left step calls self.

(** The cars after each call of a sequence, in order. *)
Fixpoint trace (self : t) (calls : list call) : list t :=
  match calls with
  | [] => []
  | a :: rest => step self a :: trace (step self a) rest
  end.

(** A relation that holds between the car before and after every call. *)
Fixpoint every_step (R : t -> call -> t -> Prop) (self : t) (calls : list call) : Prop :=
  match calls with
  | [] => True
  | a :: rest => R self a (step self a) /\ every_step R (step self a) rest
  end.

(** States reachable by [create_compat_car] followed by [update] calls. *)
Inductive reachable : t -> Prop :=
| reachable_attach packet player_index action_tick_duration car :
    create_compat_car packet player_index action_tick_duration = Returned car ->
    reachable car
| reachable_update car player_info game_tick extra :
    reachable car ->
    reachable (update car player_info game_tick extra).

(** *** Conditions on one call *)

(** The tick index moves forward: [ticks_elapsed >= 1]. *)
Definition tick_advances (self : t) (a : call) : Prop := _cur_tick self < call_tick a.

(** No override record, or one with the field absent. *)
Definition no_wheels_override (extra : option ExtraPlayerInfo.t) : Prop :=
  match extra with
  | Some e => ExtraPlayerInfo.wheels_with_contact e = None
  | None => True
  end.

Definition no_handbrake_override (extra : option ExtraPlayerInfo.t) : Prop :=
  match extra with
  | Some e => ExtraPlayerInfo.handbrake e = None
  | None => True
  end.

Definition no_touches_override (extra : option ExtraPlayerInfo.t) : Prop :=
  match extra with
  | Some e => ExtraPlayerInfo.ball_touches e = None
  | None => True
  end.

(** The sample reports [Jumping] right after a sample that reported
    [OnGround]: the instant a jump begins. *)
Definition jump_begins (self : t) (player_info : PlayerInfo.t) : Prop :=
  _prev_air_state self = AirState.to_int AirState.OnGround
  /\ PlayerInfo.air_state player_info = AirState.Jumping.

(** The test of the ball-touch branch: the sample carries a touch whose
    rounded age in ticks, measured on the advanced clock, is below
    [ticks_elapsed]. *)
Definition touch_in_interval (self : t) (player_info : PlayerInfo.t) (game_tick : Z) : bool :=
  match PlayerInfo.latest_touch player_info with
  | Some latest_touch =>
      py_round
        ((_game_seconds self + TICK_TIME * inject_Z (game_tick - _cur_tick self)
          - Touch.game_seconds latest_touch) * inject_Z TICKS_PER_SECOND)
      <? game_tick - _cur_tick self
  | None => false
  end.

(** *** The classifier as the specification words it *)

(** The known categories with their reference length, width and height, in
    the order they are listed. *)
Definition hitbox_references : list (Z * (Q * Q * Q)) :=
  [ (OCTANE, (118.00738, 84.19941, 36.159073)%Q);
    (DOMINUS, (127.92678, 83.27995, 31.3)%Q);
    (PLANK, (128.81978, 84.670364, 29.394402)%Q);
    (BREAKOUT, (131.49236, 80.521, 30.3)%Q);
    (HYBRID, (127.01919, 82.18787, 34.159073)%Q);
    (MERC, (120.72023, 76.71031, 41.659073)%Q) ].

Definition matches_reference (shape : BoxShape.t) (r : Z * (Q * Q * Q)) : bool :=
  let '(_, (l, w, h)) := r in compare_hitbox_shape shape l w h.

(** First listed category whose reference matches, else the default. *)
Definition first_matching_category (shape : BoxShape.t) : Z :=
  match find (matches_reference shape) hitbox_references with
  | Some r => fst r
  | None => OCTANE
  end.

(** *** Slot assignment and the property setters *)

(** [self.<slot> = v] for the slots the property setters and the physics
    cache assign. *)
Definition set_wheels_with_contact (self : t) (v : bool * bool * bool * bool) : t :=
  {| team_num := team_num self;
     hitbox_type := hitbox_type self;
     ball_touches := ball_touches self;
     bump_victim_id := bump_victim_id self;
     demo_respawn_timer := demo_respawn_timer self;
     wheels_with_contact := v;
     supersonic_time := supersonic_time self;
     boost_amount := boost_amount self;
     boost_active_time := boost_active_time self;
     handbrake := handbrake self;
     is_jumping := is_jumping self;
     has_jumped := has_jumped self;
     is_holding_jump := is_holding_jump self;
     jump_time := jump_time self;
     has_flipped := has_flipped self;
     has_double_jumped := has_double_jumped self;
     air_time_since_jump := air_time_since_jump self;
     flip_time := flip_time self;
     flip_torque := flip_torque self;
     is_autoflipping := is_autoflipping self;
     autoflip_timer := autoflip_timer self;
     autoflip_direction := autoflip_direction self;
     physics := physics self;
     _inverted_physics := _inverted_physics self;
     _next_action_tick_duration := _next_action_tick_duration self;
     _ball_touch_ticks := _ball_touch_ticks self;
     _prev_air_state := _prev_air_state self;
     _game_seconds := _game_seconds self;
     _cur_tick := _cur_tick self |}.

Definition set_has_flipped (self : t) (v : bool) : t :=
  {| team_num := team_num self;
     hitbox_type := hitbox_type self;
     ball_touches := ball_touches self;
     bump_victim_id := bump_victim_id self;
     demo_respawn_timer := demo_respawn_timer self;
     wheels_with_contact := wheels_with_contact self;
     supersonic_time := supersonic_time self;
     boost_amount := boost_amount self;
     boost_active_time := boost_active_time self;
     handbrake := handbrake self;
     is_jumping := is_jumping self;
     has_jumped := has_jumped self;
     is_holding_jump := is_holding_jump self;
     jump_time := jump_time self;
     has_flipped := v;
     has_double_jumped := has_double_jumped self;
     air_time_since_jump := air_time_since_jump self;
     flip_time := flip_time self;
     flip_torque := flip_torque self;
     is_autoflipping := is_autoflipping self;
     autoflip_timer := autoflip_timer self;
     autoflip_direction := autoflip_direction self;
     physics := physics self;
     _inverted_physics := _inverted_physics self;
     _next_action_tick_duration := _next_action_tick_duration self;
     _ball_touch_ticks := _ball_touch_ticks self;
     _prev_air_state := _prev_air_state self;
     _game_seconds := _game_seconds self;
     _cur_tick := _cur_tick self |}.

Definition set_flip_time (self : t) (v : Q) : t :=
  {| team_num := team_num self;
     hitbox_type := hitbox_type self;
     ball_touches := ball_touches self;
     bump_victim_id := bump_victim_id self;
     demo_respawn_timer := demo_respawn_timer self;
     wheels_with_contact := wheels_with_contact self;
     supersonic_time := supersonic_time self;
     boost_amount := boost_amount self;
     boost_active_time := boost_active_time self;
     handbrake := handbrake self;
     is_jumping := is_jumping self;
     has_jumped := has_jumped self;
     is_holding_jump := is_holding_jump self;
     jump_time := jump_time self;
     has_flipped := has_flipped self;
     has_double_jumped := has_double_jumped self;
     air_time_since_jump := air_time_since_jump self;
     flip_time := v;
     flip_torque := flip_torque self;
     is_autoflipping := is_autoflipping self;
     autoflip_timer := autoflip_timer self;
     autoflip_direction := autoflip_direction self;
     physics := physics self;
     _inverted_physics := _inverted_physics self;
     _next_action_tick_duration := _next_action_tick_duration self;
     _ball_touch_ticks := _ball_touch_ticks self;
     _prev_air_state := _prev_air_state self;
     _game_seconds := _game_seconds self;
     _cur_tick := _cur_tick self |}.

Definition set__inverted_physics (self : t) (v : option PhysicsObject) : t :=
  {| team_num := team_num self;
     hitbox_type := hitbox_type self;
     ball_touches := ball_touches self;
     bump_victim_id := bump_victim_id self;
     demo_respawn_timer := demo_respawn_timer self;
     wheels_with_contact := wheels_with_contact self;
     supersonic_time := supersonic_time self;
     boost_amount := boost_amount self;
     boost_active_time := boost_active_time self;
     handbrake := handbrake self;
     is_jumping := is_jumping self;
     has_jumped := has_jumped self;
     is_holding_jump := is_holding_jump self;
     jump_time := jump_time self;
     has_flipped := has_flipped self;
     has_double_jumped := has_double_jumped self;
     air_time_since_jump := air_time_since_jump self;
     flip_time := flip_time self;
     flip_torque := flip_torque self;
     is_autoflipping := is_autoflipping self;
     autoflip_timer := autoflip_timer self;
     autoflip_direction := autoflip_direction self;
     physics := physics self;
     _inverted_physics := v;
     _next_action_tick_duration := _next_action_tick_duration self;
     _ball_touch_ticks := _ball_touch_ticks self;
     _prev_air_state := _prev_air_state self;
     _game_seconds := _game_seconds self;
     _cur_tick := _cur_tick self |}.

(** [self.on_ground = value]. *)
Definition set_on_ground (self : t) (value : bool) : t :=
  set_wheels_with_contact self (on_ground_setter value).

(** [self.is_flipping = value]. *)
Definition set_is_flipping (self : t) (value : bool) : t :=
  if value then
    let self1 := set_has_flipped self true in
    if Qle_bool FLIP_TORQUE_TIME (flip_time self1)
    then set_flip_time self1 0
    else self1
  else set_flip_time self FLIP_TORQUE_TIME.

(** The [inverted_physics] property: the value it returns and the car it
    leaves, with the cache filled on first use. *)
Definition inverted_physics (self : t) : PhysicsObject * t :=
  match _inverted_physics self with
  | None =>
      let inv := physics_inverted (physics self) in
      (inv, set__inverted_physics self (Some inv))
  | Some inv => (inv, self)
  end.

(** *** Conditions on runs *)

(** The cached inversion, when there is one, is the inversion of the live
    physics. *)
Definition cache_coherent (self : t) : Prop :=
  match _inverted_physics self with
  | Some inv => inv = physics_inverted (physics self)
  | None => True
  end.

(** The call carries no override record. *)
Definition no_override (a : call) : Prop := call_extra a = None.


End Car.
End Car.

(** ** Python dictionaries and exceptions used by [v1_game_state.py] *)

(** A dictionary with integer keys, as the list of its items in insertion
    order; every key occurs once. *)
Module PyDict.

Definition t (A : Type) : Type := list (Z * A).

(** [d.get(k)]: [None] for a missing key. *)
Fixpoint get {A : Type} (d : t A) (k : Z) : option A :=
  match d with
  | [] => None
  | (k', v) :: rest => if k' =? k then Some v else get rest k
  end.

(** [d[k] = v]: an existing key keeps its place, a new one goes last. *)
Fixpoint set {A : Type} (d : t A) (k : Z) (v : A) : t A :=
  match d with
  | [] => [(k, v)]
  | (k', v') :: rest =>
      if k' =? k then (k', v) :: rest else (k', v') :: set rest k v
  end.

(** [k in d]. *)
Definition contains {A : Type} (d : t A) (k : Z) : bool :=
  match get d k with Some _ => true | None => false end.

(** [{**a, **b}]. *)
Definition merge {A : Type} (a b : t A) : t A :=
  fold_left (fun d kv => set d (fst kv) (snd kv)) b a.

(** [{key(x): value(x) for x in l}]. *)
Definition comprehension {A B : Type} (key : A -> Z) (value : A -> B)
  (l : list A) : t B :=
  fold_left (fun d x => set d (key x) (value x)) l [].

End PyDict.

Module Py.

Inductive error : Type := IndexError | ValueError | KeyError.

Inductive result (A : Type) : Type :=
| Ok (a : A)
| Err (e : error).
Arguments Ok {A} a.
Arguments Err {A} e.

Definition bind {A B : Type} (r : result A) (k : A -> result B) : result B :=
  match r with
  | Ok a => k a
  | Err e => Err e
  end.

(** [l[i]]. *)
Definition getitem {A : Type} (l : list A) (i : Z) : result A :=
  match py_getitem l i with
  | Returned a => Ok a
  | Raised _ => Err IndexError
  end.

(** [d[k]]. *)
Definition lookup {A : Type} (d : PyDict.t A) (k : Z) : result A :=
  match PyDict.get d k with
  | Some v => Ok v
  | None => Err KeyError
  end.

(** [enumerate(l)], counting from [i]. *)
Fixpoint enumerate_from {A : Type} (i : Z) (l : list A) : list (Z * A) :=
  match l with
  | [] => []
  | x :: rest => (i, x) :: enumerate_from (i + 1) rest
  end.

Definition enumerate {A : Type} (l : list A) : list (Z * A) := enumerate_from 0 l.

(** The loop of [max(l, key=key)] once a first candidate is held: a later
    item replaces the candidate only when its key is greater. *)
Fixpoint max_from {A : Type} (key : A -> Q) (best : A) (l : list A) : A :=
  match l with
  | [] => best
  | x :: rest => max_from key (if Qlt_bool (key best) (key x) then x else best) rest
  end.

(** [max(l, key=key)]: [ValueError] on an empty sequence. *)
Definition max_by {A : Type} (key : A -> Q) (l : list A) : result A :=
  match l with
  | [] => Err ValueError
  | x :: rest => Ok (max_from key x rest)
  end.

End Py.

(** ** [rlbot.flat] as [v1_game_state.py] reads it *)

Module MatchPhase.
Inductive t : Type :=
  Inactive | Countdown | Kickoff | Active | GoalScored | Replay | Paused | Ended.
End MatchPhase.

Module TeamInfo.
Record t : Type := mk { score : Z }.
End TeamInfo.

(** A [PlayerInfo], with the fields [V1GameState.update] reads. *)
Module PlayerEntry.
Record t : Type := mk {
  player_id : Z;
  boost : Q;
  latest_touch : option Touch.t
}.
End PlayerEntry.

(** A [MatchInfo], with the fields [V1GameState.update] reads. *)
Module MatchStatus.
Record t : Type := mk { seconds_elapsed : Q; match_phase : MatchPhase.t }.
End MatchStatus.

(** A [GamePacket], with the fields [V1GameState.update] reads. *)
Module MatchPacket.
Record t : Type := mk {
  teams : list TeamInfo.t;
  players : list PlayerEntry.t;
  match_info : MatchStatus.t
}.
End MatchPacket.

(** ** [v1_game_state.py]: class [V1GameState]

    The slots [update] computes by itself: the scores, [last_touch] and the
    two per-player dictionaries.  The wrapped game state, the player list,
    the ball and the boost pads need [GameState.create_compat_game_state],
    [V1PlayerData] and [V1PhysicsObject], which are not part of the sources;
    of the wrapped game state only its [cars] dictionary is read here, and it
    is an argument. *)

Module V1GameState.
Section V1GameState.
Context {cv : CommonValues} {ph : PhysicsModel}.

Record t : Type := mk {
  blue_score : Z;
  orange_score : Z;
  last_touch : Z;
  _sort_players_by_car_id : bool;
  _boost_pickups : PyDict.t Z;
  _car_ball_touched : PyDict.t bool;
  _tick_skip : Z
}.

(** The slots [__init__] sets, given [tick_skip] and
    [sort_players_by_car_id]. *)
Definition init (tick_skip : Z) (sort_players_by_car_id : bool) : t :=
  {| blue_score := 0;
     orange_score := 0;
     last_touch := -1;
     _sort_players_by_car_id := sort_players_by_car_id;
     _boost_pickups := [];
     _car_ball_touched := [];
     _tick_skip := tick_skip |}.

(** *** [_recalculate_fields]: the spectator ids *)

(** One of the two loops over [cars.items()]: every car of [team] gets the
    next id. *)
Fixpoint assign_spectator_ids (team : Z) (cars : PyDict.t Car.t)
  (player_id_spectator_id_map : PyDict.t Z) (spectator_id : Z)
  : PyDict.t Z * Z :=
  match cars with
  | [] => (player_id_spectator_id_map, spectator_id)
  | (player_id, car) :: rest =>
      if Car.team_num car =? team
      then assign_spectator_ids team rest
             (PyDict.set player_id_spectator_id_map player_id spectator_id)
             (spectator_id + 1)
      else assign_spectator_ids team rest player_id_spectator_id_map spectator_id
  end.

(** [player_id_spectator_id_map] as the two loops leave it. *)
Definition spectator_id_map (cars : PyDict.t Car.t) : PyDict.t Z :=
  let '(map1, blue_spectator_id) := assign_spectator_ids BLUE_TEAM cars [] 1 in
  let orange_spectator_id := Z.max 5 blue_spectator_id in
  fst (assign_spectator_ids ORANGE_TEAM cars map1 orange_spectator_id).

(** The four arguments [_recalculate_fields] looks up for the
    [update_from_v2] call of the player [player_id]. *)
Definition update_from_v2_args (self : t) (cars : PyDict.t Car.t) (player_id : Z)
  : Py.result (Car.t * Z * Z * bool) :=
  Py.bind (Py.lookup cars player_id) (fun car =>
  Py.bind (Py.lookup (spectator_id_map cars) player_id) (fun spectator_id =>
  Py.bind (Py.lookup (_boost_pickups self) player_id) (fun boost_pickups =>
  Py.bind (Py.lookup (_car_ball_touched self) player_id) (fun ball_touched =>
  Py.Ok (car, spectator_id, boost_pickups, ball_touched))))).

(** *** [update] *)

(** The key of the [max] over the players. *)
Definition latest_touch_key (item : Z * PlayerEntry.t) : Q :=
  match PlayerEntry.latest_touch (snd item) with
  | None => -1
  | Some touch => Touch.game_seconds touch
  end.

Definition in_play (phase : MatchPhase.t) : bool :=
  match phase with
  | MatchPhase.Active | MatchPhase.Kickoff => true
  | _ => false
  end.

(** The body of the loop over [packet.players], for one player. *)
Definition count_player (packet : MatchPacket.t) (old_boost_amounts : PyDict.t Q)
  (tick_skip : Z) (player_info : PlayerEntry.t)
  (boost_pickups : PyDict.t Z) (car_ball_touched : PyDict.t bool)
  : Py.result (PyDict.t Z * PyDict.t bool) :=
  let player_id := PlayerEntry.player_id player_info in
  let boost_pickups1 :=
    if PyDict.contains boost_pickups player_id then boost_pickups
    else PyDict.set boost_pickups player_id 0 in
  let car_ball_touched1 :=
    if PyDict.contains car_ball_touched player_id then car_ball_touched
    else PyDict.set car_ball_touched player_id false in
  let car_ball_touched2 :=
    match PlayerEntry.latest_touch player_info with
    | Some latest_touch =>
        let ticks_since_touch :=
          py_round ((MatchStatus.seconds_elapsed (MatchPacket.match_info packet)
                     - Touch.game_seconds latest_touch)
                    * inject_Z TICKS_PER_SECOND) in
        if ticks_since_touch <? tick_skip
        then PyDict.set car_ball_touched1 player_id true
        else car_ball_touched1
    | None => car_ball_touched1
    end in
  if in_play (MatchStatus.match_phase (MatchPacket.match_info packet)) then
    Py.bind (Py.lookup old_boost_amounts player_id) (fun old_boost =>
    if Qlt_bool old_boost (PlayerEntry.boost player_info / 100) then
      Py.bind (Py.lookup boost_pickups1 player_id) (fun n =>
      Py.Ok (PyDict.set boost_pickups1 player_id (n + 1), car_ball_touched2))
    else Py.Ok (boost_pickups1, car_ball_touched2))
  else Py.Ok (boost_pickups1, car_ball_touched2).

(** The loop over [packet.players]. *)
Fixpoint count_players (packet : MatchPacket.t) (old_boost_amounts : PyDict.t Q)
  (tick_skip : Z) (players : list PlayerEntry.t)
  (boost_pickups : PyDict.t Z) (car_ball_touched : PyDict.t bool)
  : Py.result (PyDict.t Z * PyDict.t bool) :=
  match players with
  | [] => Py.Ok (boost_pickups, car_ball_touched)
  | player_info :: rest =>
      Py.bind (count_player packet old_boost_amounts tick_skip player_info
                 boost_pickups car_ball_touched)
        (fun dicts =>
           count_players packet old_boost_amounts tick_skip rest
             (fst dicts) (snd dicts))
  end.

(** [old_boost_amounts]: the packet's boost for every player, overridden by
    the boost amount of the car the game state already holds. *)
Definition old_boost_amounts (packet : MatchPacket.t) (cars : PyDict.t Car.t)
  : PyDict.t Q :=
  PyDict.merge
    (PyDict.comprehension PlayerEntry.player_id
       (fun p => PlayerEntry.boost p / 100)%Q (MatchPacket.players packet))
    (map (fun kv => (fst kv, Car.boost_amount (snd kv))) cars).

(** [update], up to the call of [_recalculate_fields]; [cars] is
    [self._game_state.cars] as it is when [update] is entered.  The result
    is the object when the statements complete, or the exception raised. *)
Definition update (self : t) (packet : MatchPacket.t) (cars : PyDict.t Car.t)
  : Py.result t :=
  Py.bind (Py.getitem (MatchPacket.teams packet) BLUE_TEAM) (fun blue =>
  Py.bind (Py.getitem (MatchPacket.teams packet) ORANGE_TEAM) (fun orange =>
  Py.bind (Py.max_by latest_touch_key (Py.enumerate (MatchPacket.players packet)))
    (fun latest =>
  let latest_touch_player_idx := fst latest in
  let latest_touch_player_info := snd latest in
  let last_touch1 :=
    match PlayerEntry.latest_touch latest_touch_player_info with
    | None => -1
    | Some _ => latest_touch_player_idx
    end in
  Py.bind (count_players packet (old_boost_amounts packet cars) (_tick_skip self)
             (MatchPacket.players packet)
             (_boost_pickups self) (_car_ball_touched self))
    (fun dicts =>
  Py.Ok {| blue_score := TeamInfo.score blue;
           orange_score := TeamInfo.score orange;
           last_touch := last_touch1;
           _sort_players_by_car_id := _sort_players_by_car_id self;
           _boost_pickups := fst dicts;
           _car_ball_touched := snd dicts;
           _tick_skip := _tick_skip self |})))).

(** *** Vocabulary for the properties *)

(** The player ids of the cars of [team], in dictionary order. *)
Definition team_ids (team : Z) (cars : PyDict.t Car.t) : list Z :=
  map fst (filter (fun kv => Car.team_num (snd kv) =? team) cars).

(** The touch of the player is less than [tick_skip] rounded ticks old on
    the packet's clock. *)
Definition touched_recently (packet : MatchPacket.t) (tick_skip : Z)
  (player_info : PlayerEntry.t) : bool :=
  match PlayerEntry.latest_touch player_info with
  | Some latest_touch =>
      py_round ((MatchStatus.seconds_elapsed (MatchPacket.match_info packet)
                 - Touch.game_seconds latest_touch)
                * inject_Z TICKS_PER_SECOND)
      <? tick_skip
  | None => false
  end.

(** The boost amount the player is compared with: the one of its car when
    the game state holds one, else the packet's own. *)
Definition old_boost (cars : PyDict.t Car.t) (player_info : PlayerEntry.t) : Q :=
  match PyDict.get cars (PlayerEntry.player_id player_info) with
  | Some car => Car.boost_amount car
  | None => (PlayerEntry.boost player_info / 100)%Q
  end.

(** The player counts as having picked up boost. *)
Definition picked_up (packet : MatchPacket.t) (cars : PyDict.t Car.t)
  (player_info : PlayerEntry.t) : bool :=
  in_play (MatchStatus.match_phase (MatchPacket.match_info packet))
  && Qlt_bool (old_boost cars player_info) (PlayerEntry.boost player_info / 100).

End V1GameState.
End V1GameState.

(** ** [game_state.py]: the legacy [GameState]

    [player_data.py] and the legacy [physics_object.py] are not part of the
    sources: a [PlayerData] is the record of the attributes [_decode_player]
    assigns, the four attributes of a fresh [PlayerData()] it reads before
    assigning are given, and the physics objects are a collaborator. *)

Class LegacyModel : Type := {
  LegacyPhysics : Type;
  LegacyPhysicsObject : Type;
  new_physics_object : LegacyPhysicsObject;
  decode_car_data : LegacyPhysicsObject -> LegacyPhysics -> LegacyPhysicsObject;
  decode_ball_data : LegacyPhysicsObject -> LegacyPhysics -> LegacyPhysicsObject;
  invert : LegacyPhysicsObject -> LegacyPhysicsObject -> LegacyPhysicsObject;
  default_car_data : LegacyPhysicsObject;
  default_inverted_car_data : LegacyPhysicsObject;
  default_boost_amount : Q;
  default_boost_pickups : Z
}.

Module LegacyFlat.

Record ScoreInfo : Type := mkScoreInfo {
  goals : Z; saves : Z; shots : Z; demolitions : Z
}.

Record PlayerInfo {lm : LegacyModel} : Type := mkPlayerInfo {
  physics : LegacyPhysics;
  air_state : AirState.t;
  team : Z;
  score_info : ScoreInfo;
  boost : Q;
  demolished_timeout : Q
}.

Record BoostPadState : Type := mkBoostPadState { is_active : bool }.

Record Touch : Type := mkTouch { game_seconds : Q; player_index : Z }.

Record BallInfo {lm : LegacyModel} : Type := mkBallInfo {
  ball_physics : LegacyPhysics;
  latest_touch : Touch
}.

Record GameInfo : Type := mkGameInfo { seconds_elapsed : Q }.

Record GameTickPacket {lm : LegacyModel} : Type := mkGameTickPacket {
  teams : list TeamInfo.t;
  boost_pad_states : list BoostPadState;
  balls : list BallInfo;
  players : list PlayerInfo;
  game_info : GameInfo
}.

End LegacyFlat.

Module PlayerData.
Record t {lm : LegacyModel} : Type := mk {
  car_id : Z;
  team_num : Z;
  match_goals : Z;
  match_saves : Z;
  match_shots : Z;
  match_demolishes : Z;
  boost_pickups : Z;
  is_demoed : bool;
  on_ground : bool;
  ball_touched : bool;
  has_jump : bool;
  has_flip : bool;
  boost_amount : Q;
  car_data : LegacyPhysicsObject;
  inverted_car_data : LegacyPhysicsObject
}.
End PlayerData.

Module GameState.
Section GameState.
Context {lm : LegacyModel}.

Record t : Type := mk {
  game_type : Z;
  blue_score : Z;
  orange_score : Z;
  last_touch : Z;
  players : list PlayerData.t;
  _on_ground_ticks : list Q;
  _air_time_since_jump : list Q;
  has_jumped : list bool;
  ball : LegacyPhysicsObject;
  inverted_ball : LegacyPhysicsObject;
  boost_pads : list Q;
  inverted_boost_pads : list Q
}.

(** [__init__], given the number of boost pads of the field. *)
Definition init (boost_pad_count : nat) : t :=
  {| game_type := 0;
     blue_score := 0;
     orange_score := 0;
     last_touch := -1;
     players := [];
     _on_ground_ticks := repeat 0%Q 64;
     _air_time_since_jump := repeat 0%Q 64;
     has_jumped := repeat false 10;
     ball := new_physics_object;
     inverted_ball := new_physics_object;
     boost_pads := repeat 0%Q boost_pad_count;
     inverted_boost_pads := repeat 0%Q boost_pad_count |}.

(** [a[i]] and [a[i] = v] for an index that [enumerate] produced. *)
Definition item {A : Type} (a : list A) (i : nat) : Py.result A :=
  match nth_error a i with
  | Some v => Py.Ok v
  | None => Py.Err Py.IndexError
  end.

Fixpoint set_item {A : Type} (a : list A) (i : nat) (v : A) : Py.result (list A) :=
  match a, i with
  | [], _ => Py.Err Py.IndexError
  | _ :: rest, O => Py.Ok (v :: rest)
  | x :: rest, S j => Py.bind (set_item rest j v) (fun rest' => Py.Ok (x :: rest'))
  end.

(** [not a] for a list [a]. *)
Definition py_not_list {A : Type} (a : list A) : bool :=
  match a with
  | [] => true
  | _ :: _ => false
  end.

(** The three tracking arrays, as [_decode_player] updates them. *)
Definition track_player (on_ground_ticks air_time : list Q) (jumped : list bool)
  (air : AirState.t) (index : nat) (ticks_elapsed : Z)
  : Py.result (list Q * list Q * list bool) :=
  match air with
  | AirState.OnGround =>
      Py.bind (set_item on_ground_ticks index 0%Q) (fun ticks1 =>
      Py.bind (set_item air_time index 0%Q) (fun air1 =>
      Py.bind (set_item jumped index false) (fun jumped1 =>
      Py.Ok (ticks1, air1, jumped1))))
  | _ =>
      Py.bind (item on_ground_ticks index) (fun ticks0 =>
      Py.bind (set_item on_ground_ticks index (ticks0 + inject_Z ticks_elapsed)%Q)
        (fun ticks1 =>
      match air with
      | AirState.Jumping =>
          Py.bind (set_item air_time index 0%Q) (fun air1 =>
          Py.bind (set_item jumped index true) (fun jumped1 =>
          Py.Ok (ticks1, air1, jumped1)))
      | AirState.DoubleJumping | AirState.Dodging =>
          Py.bind (set_item air_time index 150%Q) (fun air1 =>
          Py.Ok (ticks1, air1, jumped))
      | _ =>
          Py.bind (item air_time index) (fun air0 =>
          Py.bind (set_item air_time index (air0 + inject_Z ticks_elapsed)%Q)
            (fun air1 =>
          Py.Ok (ticks1, air1, jumped)))
      end))
  end.

Definition _decode_player (self : t) (player_info : LegacyFlat.PlayerInfo)
  (index : nat) (ticks_elapsed : Z) : Py.result (t * PlayerData.t) :=
  let car_data1 :=
    decode_car_data default_car_data (LegacyFlat.physics player_info) in
  let inverted_car_data1 := invert default_inverted_car_data car_data1 in
  let air := LegacyFlat.air_state player_info in
  Py.bind (track_player (_on_ground_ticks self) (_air_time_since_jump self)
             (has_jumped self) air index ticks_elapsed) (fun arrays =>
  let '(ticks1, air1, jumped1) := arrays in
  let boost_pickups1 :=
    if Qlt_bool default_boost_amount (LegacyFlat.boost player_info / 100)
    then if default_boost_pickups =? -1 then 1 else default_boost_pickups + 1
    else default_boost_pickups in
  Py.bind (match air with
           | AirState.OnGround => Py.Ok true
           | _ => Py.bind (item ticks1 index) (fun ticks => Py.Ok (Qle_bool ticks 6))
           end) (fun on_ground1 =>
  Py.bind (item air1 index) (fun air_time =>
  Py.Ok
    ({| game_type := game_type self;
        blue_score := blue_score self;
        orange_score := orange_score self;
        last_touch := last_touch self;
        players := players self;
        _on_ground_ticks := ticks1;
        _air_time_since_jump := air1;
        has_jumped := jumped1;
        ball := ball self;
        inverted_ball := inverted_ball self;
        boost_pads := boost_pads self;
        inverted_boost_pads := inverted_boost_pads self |},
     {| PlayerData.car_id := Z.of_nat index;
        PlayerData.team_num := LegacyFlat.team player_info;
        PlayerData.match_goals :=
          LegacyFlat.goals (LegacyFlat.score_info player_info);
        PlayerData.match_saves :=
          LegacyFlat.saves (LegacyFlat.score_info player_info);
        PlayerData.match_shots :=
          LegacyFlat.shots (LegacyFlat.score_info player_info);
        PlayerData.match_demolishes :=
          LegacyFlat.demolitions (LegacyFlat.score_info player_info);
        PlayerData.boost_pickups := boost_pickups1;
        PlayerData.is_demoed :=
          Qlt_bool 0 (LegacyFlat.demolished_timeout player_info);
        PlayerData.on_ground := on_ground1;
        PlayerData.ball_touched := false;
        PlayerData.has_jump := py_not_list jumped1;
        PlayerData.has_flip := Qlt_bool air_time 150;
        PlayerData.boost_amount := (LegacyFlat.boost player_info / 100)%Q;
        PlayerData.car_data := car_data1;
        PlayerData.inverted_car_data := inverted_car_data1 |})))).

(** *** [decode] *)

(** The loop over [enumerate(packet.boost_pad_states)], from index [i]. *)
Fixpoint decode_pads (pads : list Q) (i : nat)
  (states : list LegacyFlat.BoostPadState) : Py.result (list Q) :=
  match states with
  | [] => Py.Ok pads
  | pad :: rest =>
      Py.bind (set_item pads i (if LegacyFlat.is_active pad then 1%Q else 0%Q))
        (fun pads1 => decode_pads pads1 (S i) rest)
  end.

(** [target[:] = source]: equal lengths, or a single value spread over the
    target; [ValueError] otherwise. *)
Definition assign_all {A : Type} (target source : list A) : Py.result (list A) :=
  if (List.length source =? List.length target)%nat then Py.Ok source
  else match source with
       | [x] => Py.Ok (repeat x (List.length target))
       | _ => Py.Err Py.ValueError
       end.

Definition with_ball_touched (player : PlayerData.t) : PlayerData.t :=
  {| PlayerData.car_id := PlayerData.car_id player;
     PlayerData.team_num := PlayerData.team_num player;
     PlayerData.match_goals := PlayerData.match_goals player;
     PlayerData.match_saves := PlayerData.match_saves player;
     PlayerData.match_shots := PlayerData.match_shots player;
     PlayerData.match_demolishes := PlayerData.match_demolishes player;
     PlayerData.boost_pickups := PlayerData.boost_pickups player;
     PlayerData.is_demoed := PlayerData.is_demoed player;
     PlayerData.on_ground := PlayerData.on_ground player;
     PlayerData.ball_touched := true;
     PlayerData.has_jump := PlayerData.has_jump player;
     PlayerData.has_flip := PlayerData.has_flip player;
     PlayerData.boost_amount := PlayerData.boost_amount player;
     PlayerData.car_data := PlayerData.car_data player;
     PlayerData.inverted_car_data := PlayerData.inverted_car_data player |}.

(** The test that marks a player as having touched the ball. *)
Definition touched_in_window (latest_touch : LegacyFlat.Touch) (i : nat)
  (seconds_elapsed : Q) (tick_skip : Z) : bool :=
  Qlt_bool 0 (LegacyFlat.game_seconds latest_touch)
  && (Z.of_nat i =? LegacyFlat.player_index latest_touch)
  && Qlt_bool (seconds_elapsed - LegacyFlat.game_seconds latest_touch)
       (inject_Z tick_skip / 120).

(** The loop over [enumerate(packet.players)], from index [i]; [decoded] is
    [self.players] so far. *)
Fixpoint decode_players (self : t) (latest_touch : LegacyFlat.Touch)
  (seconds_elapsed : Q) (ticks_elapsed tick_skip : Z) (i : nat)
  (cars : list LegacyFlat.PlayerInfo) (decoded : list PlayerData.t)
  : Py.result (t * list PlayerData.t) :=
  match cars with
  | [] => Py.Ok (self, decoded)
  | car :: rest =>
      Py.bind (_decode_player self car i ticks_elapsed) (fun r =>
      let player :=
        if touched_in_window latest_touch i seconds_elapsed tick_skip
        then with_ball_touched (snd r) else snd r in
      decode_players (fst r) latest_touch seconds_elapsed ticks_elapsed tick_skip
        (S i) rest (decoded ++ [player]))
  end.

Definition decode (self : t) (packet : LegacyFlat.GameTickPacket)
  (ticks_elapsed tick_skip : Z) : Py.result t :=
  Py.bind (Py.getitem (LegacyFlat.teams packet) 0) (fun blue =>
  Py.bind (Py.getitem (LegacyFlat.teams packet) 1) (fun orange =>
  Py.bind (decode_pads (boost_pads self) 0 (LegacyFlat.boost_pad_states packet))
    (fun boost_pads1 =>
  Py.bind (assign_all (inverted_boost_pads self) (rev boost_pads1))
    (fun inverted_boost_pads1 =>
  Py.bind (Py.getitem (LegacyFlat.balls packet) 0) (fun ball0 =>
  let ball1 := decode_ball_data (ball self) (LegacyFlat.ball_physics ball0) in
  let inverted_ball1 := invert (inverted_ball self) ball1 in
  let latest_touch := LegacyFlat.latest_touch ball0 in
  Py.bind (decode_players self latest_touch
             (LegacyFlat.seconds_elapsed (LegacyFlat.game_info packet))
             ticks_elapsed tick_skip 0 (LegacyFlat.players packet) [])
    (fun r =>
  let self1 := fst r in
  Py.Ok {| game_type := game_type self1;
           blue_score := TeamInfo.score blue;
           orange_score := TeamInfo.score orange;
           last_touch :=
             if Qlt_bool 0 (LegacyFlat.game_seconds latest_touch)
             then LegacyFlat.player_index latest_touch
             else last_touch self1;
           players := snd r;
           _on_ground_ticks := _on_ground_ticks self1;
           _air_time_since_jump := _air_time_since_jump self1;
           has_jumped := has_jumped self1;
           ball := ball1;
           inverted_ball := inverted_ball1;
           boost_pads := boost_pads1;
           inverted_boost_pads := inverted_boost_pads1 |})))))).

End GameState.
End GameState.

(** ** Concrete collaborators and inputs for the examples *)

(** Modelled from the spec: [common_values.py] is not among the sources.  The
    tick duration is the 1/120 s of the specification's scenarios and
    [TICKS_PER_SECOND] its inverse; 1.25 and 0.1 are the values the comments
    of [car.py] give for [DOUBLEJUMP_MAX_DELAY] and the minimum boost time.
    The other values only make the examples run; no general theorem depends
    on any of them. *)
Definition rl_values : CommonValues :=
  {| BLUE_TEAM := 0;
     ORANGE_TEAM := 1;
     OCTANE := 0;
     DOMINUS := 1;
     PLANK := 2;
     BREAKOUT := 3;
     HYBRID := 4;
     MERC := 5;
     DOUBLEJUMP_MAX_DELAY := 1.25;
     FLIP_TORQUE_TIME := 0.65;
     JUMP_RESET_TIME_PAD := 1 # 40;
     MIN_BOOST_TIME := 0.1;
     MIN_JUMP_TIME := 0.025;
     POWERSLIDE_FALL_RATE := 2;
     POWERSLIDE_RISE_RATE := 5;
     TICK_TIME := 1 # 120;
     TICKS_PER_SECOND := 120 |}.

(** A physics collaborator that carries no data. *)
Definition unit_physics : PhysicsModel :=
  {| Physics := unit;
     PhysicsObject := unit;
     create_compat_physics_object := tt;
     physics_update := fun _ _ => tt;
     physics_inverted := fun _ => tt |}.

(** Modelled from the spec: [utils.compare_hitbox_shape] is not among the
    sources.  The measured shape matches a reference when each of the three
    dimensions lies within the tolerance of the reference dimension. *)
Definition within_tolerance (tol a b : Q) : bool :=
  Qle_bool (a - b) tol && Qle_bool (b - a) tol.

Definition tolerance_utils (tol : Q) : Utils :=
  {| compare_hitbox_shape := fun shape l w h =>
       within_tolerance tol (BoxShape.length shape) l
       && within_tolerance tol (BoxShape.width shape) w
       && within_tolerance tol (BoxShape.height shape) h |}.

Section Examples.
#[local] Existing Instance rl_values.
#[local] Existing Instance unit_physics.
#[local] Instance example_utils : Utils := tolerance_utils 0.01.

Definition octane_box : BoxShape.t := BoxShape.mk 118.00738 84.19941 36.159073.
Definition dominus_box : BoxShape.t := BoxShape.mk 127.92678 83.27995 31.3.
Definition unknown_box : BoxShape.t := BoxShape.mk 100 80 30.

Definition no_input : ControllerState.t := ControllerState.mk false false false.
Definition boost_input : ControllerState.t := ControllerState.mk false true false.
Definition handbrake_input : ControllerState.t := ControllerState.mk false false true.

(** A sample of a car with 50 boost, no dodge, not demolished, given its air
    state, [has_jumped], supersonic flag, latest touch and inputs. *)
Definition sample (air : AirState.t) (jumped supersonic : bool)
  (touch : option Touch.t) (input : ControllerState.t) : PlayerInfo.t :=
  {| PlayerInfo.team := 0;
     PlayerInfo.hitbox := octane_box;
     PlayerInfo.hitbox_offset := Vector3.mk 13.87566 0 20.754988;
     PlayerInfo.air_state := air;
     PlayerInfo.boost := 50;
     PlayerInfo.has_jumped := jumped;
     PlayerInfo.has_double_jumped := false;
     PlayerInfo.has_dodged := false;
     PlayerInfo.dodge_timeout := -1;
     PlayerInfo.dodge_elapsed := 0;
     PlayerInfo.dodge_dir := Vector2.mk 0 0;
     PlayerInfo.demolished_timeout := -1;
     PlayerInfo.is_supersonic := supersonic;
     PlayerInfo.latest_touch := touch;
     PlayerInfo.last_input := input;
     PlayerInfo.physics := tt |}.

Definition on_ground_sample : PlayerInfo.t :=
  sample AirState.OnGround false false None no_input.

(** First packet: one car on the ground at frame 1200, 10 s into the match. *)
Definition packet0 : GamePacket.t :=
  {| GamePacket.players := [on_ground_sample];
     GamePacket.match_info := MatchInfo.mk 10 1200 |}.

(** The car [create_compat_car packet0 0 8] returns. *)
Definition car0 : Car.t :=
  {| Car.team_num := 0;
     Car.hitbox_type := 0;
     Car.ball_touches := 0;
     Car.bump_victim_id := None;
     Car.demo_respawn_timer := 0;
     Car.wheels_with_contact := (true, true, true, true);
     Car.supersonic_time := 0;
     Car.boost_amount := 50 / 100;
     Car.boost_active_time := 0;
     Car.handbrake := 0;
     Car.is_jumping := false;
     Car.has_jumped := false;
     Car.is_holding_jump := false;
     Car.jump_time := 0;
     Car.has_flipped := false;
     Car.has_double_jumped := false;
     Car.air_time_since_jump := 0;
     Car.flip_time := 0;
     Car.flip_torque := (- 0, 0, 0)%Q;
     Car.is_autoflipping := false;
     Car.autoflip_timer := 0;
     Car.autoflip_direction := 0;
     Car.physics := tt;
     Car._inverted_physics := None;
     Car._next_action_tick_duration := None;
     Car._ball_touch_ticks := None;
     Car._prev_air_state := 0;
     Car._game_seconds := 10;
     Car._cur_tick := 1200 |}.

(** An override record with every field absent. *)
Definition empty_extra : ExtraPlayerInfo.t :=
  ExtraPlayerInfo.mk None None None None None None None None.

(** An override record that only supplies a touch count of 0. *)
Definition zero_touches_extra : ExtraPlayerInfo.t :=
  ExtraPlayerInfo.mk None None (Some 0) None None None None None.

(** An override record with every field present and a spent bump cooldown. *)
Definition full_extra : ExtraPlayerInfo.t :=
  ExtraPlayerInfo.mk (Some (true, false, true, true)) (Some 0.5%Q) (Some 7)
    (Some 5) (Some 0%Q) (Some true) (Some 0.4%Q) (Some (-1)%Q).

(** Samples on the ground: boosting, supersonic, pulling the handbrake. *)
Definition boost_sample : PlayerInfo.t :=
  sample AirState.OnGround false false None boost_input.
Definition supersonic_sample : PlayerInfo.t :=
  sample AirState.OnGround false true None no_input.
Definition handbrake_sample : PlayerInfo.t :=
  sample AirState.OnGround false false None handbrake_input.

(** Samples of a jump: rising, in the air, and back on the ground with
    [has_jumped] still reported. *)
Definition jump_sample : PlayerInfo.t :=
  sample AirState.Jumping true false None no_input.
Definition air_sample : PlayerInfo.t :=
  sample AirState.InAir true false None no_input.
Definition landed_sample : PlayerInfo.t :=
  sample AirState.OnGround true false None no_input.

(** In the air, 0.5 s of the dodge window left. *)
Definition falling_sample : PlayerInfo.t :=
  {| PlayerInfo.team := 0;
     PlayerInfo.hitbox := octane_box;
     PlayerInfo.hitbox_offset := Vector3.mk 13.87566 0 20.754988;
     PlayerInfo.air_state := AirState.InAir;
     PlayerInfo.boost := 50;
     PlayerInfo.has_jumped := true;
     PlayerInfo.has_double_jumped := false;
     PlayerInfo.has_dodged := false;
     PlayerInfo.dodge_timeout := 0.5;
     PlayerInfo.dodge_elapsed := 0;
     PlayerInfo.dodge_dir := Vector2.mk 0 0;
     PlayerInfo.demolished_timeout := -1;
     PlayerInfo.is_supersonic := false;
     PlayerInfo.latest_touch := None;
     PlayerInfo.last_input := no_input;
     PlayerInfo.physics := tt |}.

(** An override record that only reports all four wheels in contact. *)
Definition grounded_extra : ExtraPlayerInfo.t :=
  ExtraPlayerInfo.mk (Some (true, true, true, true)) None None None None None
    None None.

(** Eight boosting calls on the ground, one per tick after frame 1200. *)
Definition boost_calls : list Car.call :=
  map (fun g => (boost_sample, g, None))
      [1201; 1202; 1203; 1204; 1205; 1206; 1207; 1208].

(** A touch stamped at the clock value of frame 1201, and one stamped a tick
    later than that. *)
Definition touch_at_1201 : Touch.t := Touch.mk (1201 # 120).
Definition touch_at_1202 : Touch.t := Touch.mk (1202 # 120).

Definition touch_sample (touch : Touch.t) : PlayerInfo.t :=
  sample AirState.OnGround false false (Some touch) no_input.

(** [car0] after boosting for the 12 ticks up to frame 1212. *)
Definition boosted_car : Car.t := Car.update car0 boost_sample 1212 None.

(** Sequences of calls that follow an [update] at frame 1201. *)
Definition supersonic_calls : list Car.call :=
  [ (supersonic_sample, 1201, None); (supersonic_sample, 1203, Some empty_extra) ].

Definition handbrake_calls : list Car.call :=
  [ (handbrake_sample, 1201, None); (handbrake_sample, 1261, None);
    (on_ground_sample, 1262, Some empty_extra) ].

Definition same_touch_calls : list Car.call :=
  [ (touch_sample touch_at_1201, 1202, None);
    (touch_sample touch_at_1201, 1210, Some empty_extra) ].

Definition jump_calls : list Car.call :=
  [ (jump_sample, 1202, None); (air_sample, 1207, None) ].

End Examples.

(** ** Concrete inputs for the further properties *)

(** A legacy collaborator that carries no physics data; a fresh
    [PlayerData()] is taken to start with boost amount 0 and -1 pickups. *)
Definition unit_legacy : LegacyModel :=
  {| LegacyPhysics := unit;
     LegacyPhysicsObject := unit;
     new_physics_object := tt;
     decode_car_data := fun _ _ => tt;
     decode_ball_data := fun _ _ => tt;
     invert := fun _ _ => tt;
     default_car_data := tt;
     default_inverted_car_data := tt;
     default_boost_amount := 0;
     default_boost_pickups := -1 |}.

Section MoreExamples.
#[local] Existing Instance rl_values.
#[local] Existing Instance unit_physics.
#[local] Existing Instance example_utils.
#[local] Existing Instance unit_legacy.

(** A car of the given team and boost amount, at rest on the ground. *)
Definition example_car (team : Z) (boost : Q) : Car.t :=
  {| Car.team_num := team;
     Car.hitbox_type := 0;
     Car.ball_touches := 0;
     Car.bump_victim_id := None;
     Car.demo_respawn_timer := 0;
     Car.wheels_with_contact := (true, true, true, true);
     Car.supersonic_time := 0;
     Car.boost_amount := boost;
     Car.boost_active_time := 0;
     Car.handbrake := 0;
     Car.is_jumping := false;
     Car.has_jumped := false;
     Car.is_holding_jump := false;
     Car.jump_time := 0;
     Car.has_flipped := false;
     Car.has_double_jumped := false;
     Car.air_time_since_jump := 0;
     Car.flip_time := 0;
     Car.flip_torque := (0, 0, 0)%Q;
     Car.is_autoflipping := false;
     Car.autoflip_timer := 0;
     Car.autoflip_direction := 0;
     Car.physics := tt;
     Car._inverted_physics := None;
     Car._next_action_tick_duration := None;
     Car._ball_touch_ticks := None;
     Car._prev_air_state := 0;
     Car._game_seconds := 10;
     Car._cur_tick := 1200 |}.

(** The cars of players 7 (blue), 3 (orange) and 9 (blue), in that order,
    and the same with a car of team 2 for player 5. *)
Definition example_cars : PyDict.t Car.t :=
  [ (7, example_car 0 0.3); (3, example_car 1 0.5); (9, example_car 0 1) ].

Definition cars_with_stranger : PyDict.t Car.t :=
  example_cars ++ [ (5, example_car 2 0) ].

(** A packet 10 s into an active match: player 7 with 80 boost and no
    touch, player 3 with 50 boost and a touch 6 ticks ago, and player 4,
    new to the game state, with 20 boost and a touch 5 s ago. *)
Definition example_players : list PlayerEntry.t :=
  [ PlayerEntry.mk 7 80 None;
    PlayerEntry.mk 3 50 (Some (Touch.mk 9.95));
    PlayerEntry.mk 4 20 (Some (Touch.mk 5)) ].

Definition example_packet : MatchPacket.t :=
  MatchPacket.mk [TeamInfo.mk 2; TeamInfo.mk 1] example_players
    (MatchStatus.mk 10 MatchPhase.Active).



Definition v1_state0 : V1GameState.t := V1GameState.init 8 false.

(** [v1_state0] after [update] on [example_packet] with [example_cars]. *)
Definition v1_state1 : V1GameState.t :=
  {| V1GameState.blue_score := 2;
     V1GameState.orange_score := 1;
     V1GameState.last_touch := 1;
     V1GameState._sort_players_by_car_id := false;
     V1GameState._boost_pickups := [ (7, 1); (3, 0); (4, 0) ];
     V1GameState._car_ball_touched := [ (7, false); (3, true); (4, false) ];
     V1GameState._tick_skip := 8 |}.

(** Legacy samples: on the ground, in the air, dodging. *)
Definition legacy_sample (air : AirState.t) : LegacyFlat.PlayerInfo :=
  {| LegacyFlat.physics := tt;
     LegacyFlat.air_state := air;
     LegacyFlat.team := 0;
     LegacyFlat.score_info := LegacyFlat.mkScoreInfo 1 2 3 4;
     LegacyFlat.boost := 50;
     LegacyFlat.demolished_timeout := -1 |}.

Definition legacy_state0 : GameState.t := GameState.init 3.

(** A legacy packet with two pad states, one ball last touched by player 1
    0.05 s ago, and two players. *)
Definition legacy_packet : LegacyFlat.GameTickPacket :=
  {| LegacyFlat.teams := [TeamInfo.mk 2; TeamInfo.mk 1];
     LegacyFlat.boost_pad_states :=
       [LegacyFlat.mkBoostPadState true; LegacyFlat.mkBoostPadState false];
     LegacyFlat.balls :=
       [ {| LegacyFlat.ball_physics := tt;
            LegacyFlat.latest_touch := LegacyFlat.mkTouch 9.95 1 |} ];
     LegacyFlat.players :=
       [legacy_sample AirState.OnGround; legacy_sample AirState.InAir];
     LegacyFlat.game_info := LegacyFlat.mkGameInfo 10 |}.

(** A legacy packet with four pad states, one more than [legacy_state0] has
    pads. *)
Definition crowded_pads_packet : LegacyFlat.GameTickPacket :=
  {| LegacyFlat.teams := [TeamInfo.mk 2; TeamInfo.mk 1];
     LegacyFlat.boost_pad_states := repeat (LegacyFlat.mkBoostPadState true) 4;
     LegacyFlat.balls :=
       [ {| LegacyFlat.ball_physics := tt;
            LegacyFlat.latest_touch := LegacyFlat.mkTouch 0 0 |} ];
     LegacyFlat.players := [];
     LegacyFlat.game_info := LegacyFlat.mkGameInfo 10 |}.

(** A packet whose second player is at index 1 of two. *)
Definition two_player_packet : GamePacket.t :=
  {| GamePacket.players := [on_ground_sample; air_sample];
     GamePacket.match_info := MatchInfo.mk 10 1200 |}.

(** Calls for the further runs of [car0]. *)
Definition idle_calls : list Car.call :=
  [ (on_ground_sample, 1201, None); (air_sample, 1205, None) ].

Definition mixed_supersonic_calls : list Car.call :=
  [ (supersonic_sample, 1201, None); (on_ground_sample, 1202, None);
    (supersonic_sample, 1210, Some empty_extra) ].


End MoreExamples.

(** ** Properties of the embedding *)

Section Properties.
Context {cv : CommonValues} {ph : PhysicsModel} {ut : Utils}.

Local Open Scope Q_scope.

(** *** Comparisons and built-ins *)

Lemma Qlt_bool_true (a b : Q) : Qlt_bool a b = true <-> a < b.
Proof.
  unfold Qlt_bool. rewrite negb_true_iff. split; intro H.
  - apply Qnot_le_lt. intro Hle. apply Qle_bool_iff in Hle. congruence.
  - destruct (Qle_bool b a) eqn:E; [|reflexivity].
    apply Qle_bool_iff in E. exfalso. apply (Qlt_not_le _ _ H E).
Qed.

Lemma Qlt_bool_false (a b : Q) : Qlt_bool a b = false <-> b <= a.
Proof.
  unfold Qlt_bool. rewrite negb_false_iff. apply Qle_bool_iff.
Qed.

Lemma Qle_bool_false (a b : Q) : Qle_bool a b = false <-> b < a.
Proof.
  split; intro H.
  - apply Qnot_le_lt. intro Hle. apply Qle_bool_iff in Hle. congruence.
  - destruct (Qle_bool a b) eqn:E; [|reflexivity].
    apply Qle_bool_iff in E. exfalso. apply (Qlt_not_le _ _ H E).
Qed.

(** [min(1, max(0, h))] lies in [[0,1]] whatever [h] is. *)
Lemma py_clamp_range (h : Q) : 0 <= py_min 1 (py_max 0 h) <= 1.
Proof.
  unfold py_min, py_max.
  destruct (Qlt_bool 0 h) eqn:E0.
  - apply Qlt_bool_true in E0.
    destruct (Qlt_bool h 1) eqn:E1.
    + apply Qlt_bool_true in E1. lra.
    + lra.
  - destruct (Qlt_bool 0 1) eqn:E1; lra.
Qed.

(** [round(x)] is never below the floor of [x]. *)
Lemma py_round_ge_floor (x : Q) : (Qfloor x <= py_round x)%Z.
Proof.
  unfold py_round.
  destruct (Qlt_bool _ _); [lia|].
  destruct (Qlt_bool _ _); [lia|].
  destruct (Z.even _); lia.
Qed.

(** A number that is at least the integer [n] rounds to at least [n]. *)
Lemma py_round_ge (x : Q) (n : Z) : inject_Z n <= x -> (n <= py_round x)%Z.
Proof.
  intro H. apply Qfloor_resp_le in H. rewrite Qfloor_Z in H.
  pose proof (py_round_ge_floor x). lia.
Qed.

(** *** Runs *)

Lemma every_step_impl (P R : Car.t -> Car.call -> Car.t -> Prop) :
  (forall c a, P c a (Car.step c a) -> R c a (Car.step c a)) ->
  forall calls c, Car.every_step P c calls -> Car.every_step R c calls.
Proof.
  intros HPR calls. induction calls as [|a rest IH]; intros c H; simpl in *.
  - exact I.
  - destruct H as [Ha Hrest]. split; [apply HPR, Ha | apply IH, Hrest].
Qed.

(** A property every call establishes holds all along the trace. *)
Lemma trace_Forall (P : Car.t -> Car.call -> Car.t -> Prop) (I : Car.t -> Prop) :
  (forall c a, P c a (Car.step c a) -> I (Car.step c a)) ->
  forall calls c, Car.every_step P c calls -> Forall I (Car.trace c calls).
Proof.
  intros HPI calls. induction calls as [|a rest IH]; intros c H; simpl in *.
  - constructor.
  - destruct H as [Ha Hrest]. constructor; [apply HPI, Ha | apply IH, Hrest].
Qed.

(** *** Slots after one [update] *)

Ltac open_update p e :=
  unfold Car.update;
  destruct (PlayerInfo.air_state p) eqn:?;
  destruct e as [?extra|]; cbn [Car.team_num Car.hitbox_type Car.ball_touches
    Car.bump_victim_id Car.demo_respawn_timer Car.wheels_with_contact
    Car.supersonic_time Car.boost_amount Car.boost_active_time Car.handbrake
    Car.is_jumping Car.has_jumped Car.is_holding_jump Car.jump_time
    Car.has_flipped Car.has_double_jumped Car.air_time_since_jump
    Car.flip_time Car.flip_torque Car.is_autoflipping Car.autoflip_timer
    Car.autoflip_direction Car.physics Car._inverted_physics
    Car._prev_air_state Car._game_seconds Car._cur_tick].

Lemma update_cur_tick c p g e : Car._cur_tick (Car.update c p g e) = g.
Proof. open_update p e; reflexivity. Qed.

Lemma update_game_seconds c p g e :
  Car._game_seconds (Car.update c p g e)
  = Car._game_seconds c + TICK_TIME * inject_Z (g - Car._cur_tick c).
Proof. open_update p e; reflexivity. Qed.

Lemma update_prev_air_state c p g e :
  Car._prev_air_state (Car.update c p g e)
  = AirState.to_int (PlayerInfo.air_state p).
Proof. open_update p e; congruence. Qed.

Lemma update_supersonic_time c p g e :
  Car.supersonic_time (Car.update c p g e)
  = if PlayerInfo.is_supersonic p
    then Car.supersonic_time c + TICK_TIME * inject_Z (g - Car._cur_tick c)
    else 0.
Proof. open_update p e; reflexivity. Qed.

Lemma update_handbrake_range c p g e :
  Car.no_handbrake_override e ->
  0 <= Car.handbrake (Car.update c p g e) <= 1.
Proof.
  intro H. open_update p e; simpl in H; try rewrite H; apply py_clamp_range.
Qed.

Lemma update_boost_active_time c p g e :
  Car.boost_active_time (Car.update c p g e)
  = if Qlt_bool 0 (Car.boost_active_time c) then
      if negb (ControllerState.boost (PlayerInfo.last_input p))
         && Qle_bool MIN_BOOST_TIME (Car.boost_active_time c)
      then 0
      else Car.boost_active_time c + TICK_TIME * inject_Z (g - Car._cur_tick c)
    else
      if ControllerState.boost (PlayerInfo.last_input p)
      then TICK_TIME * inject_Z (g - Car._cur_tick c)
      else Car.boost_active_time c.
Proof. open_update p e; reflexivity. Qed.

Lemma update_wheels c p g e :
  Car.no_wheels_override e ->
  exists b, Car.wheels_with_contact (Car.update c p g e) = Car.on_ground_setter b.
Proof.
  intro H. open_update p e; simpl in H; try rewrite H; eexists; reflexivity.
Qed.

(** *** First match in a list *)

Lemma find_first_split {A : Type} (f : A -> bool) (l : list A) (r : A) :
  find f l = Some r ->
  exists pre post,
    l = pre ++ r :: post
    /\ forallb (fun x => negb (f x)) pre = true
    /\ f r = true.
Proof.
  induction l as [|x l IH]; simpl; [discriminate|].
  destruct (f x) eqn:E.
  - intros [= ->]. exists [], l. auto.
  - intro H. destruct (IH H) as (pre & post & -> & Hpre & Hr).
    exists (x :: pre), post. simpl. rewrite E, Hpre. auto.
Qed.

Lemma find_none_all {A : Type} (f : A -> bool) (l : list A) :
  find f l = None -> forallb (fun x => negb (f x)) l = true.
Proof.
  induction l as [|x l IH]; simpl; [reflexivity|].
  destruct (f x); [discriminate|]. exact IH.
Qed.

(** The chain of tests of [detect_hitbox] is a search through the table. *)
Lemma detect_hitbox_find shape offset :
  Car.detect_hitbox shape offset = Car.first_matching_category shape.
Proof.
  unfold Car.detect_hitbox, Car.first_matching_category, Car.hitbox_references.
  cbn [find Car.matches_reference].
  repeat (destruct (compare_hitbox_shape shape _ _ _); [reflexivity|]).
  reflexivity.
Qed.

(** *** Touch counting *)

Lemma update_ball_touches c p g e :
  Car.no_touches_override e ->
  Car.ball_touches (Car.update c p g e)
  = (Car.ball_touches c + if Car.touch_in_interval c p g then 1 else 0)%Z.
Proof.
  intro H. unfold Car.touch_in_interval.
  open_update p e; simpl in H; try rewrite H;
    destruct (PlayerInfo.latest_touch p) as [t|];
    try destruct (_ <? _)%Z; lia.
Qed.

(** With [TICK_TIME * TICKS_PER_SECOND = 1], a touch stamped no later than
    the clock is at least [ticks_elapsed] ticks old on the advanced clock. *)
Lemma old_touch_not_in_interval c p g t :
  TICK_TIME * inject_Z TICKS_PER_SECOND == 1 ->
  (0 < TICKS_PER_SECOND)%Z ->
  PlayerInfo.latest_touch p = Some t ->
  Touch.game_seconds t <= Car._game_seconds c ->
  Car.touch_in_interval c p g = false.
Proof.
  intros Hunit Hpos Ht Hold. unfold Car.touch_in_interval. rewrite Ht.
  apply Z.ltb_ge, py_round_ge.
  set (te := inject_Z (g - Car._cur_tick c)).
  set (K := inject_Z TICKS_PER_SECOND) in *.
  assert (HK : 0 < K).
  { unfold K. replace 0 with (inject_Z 0) by reflexivity.
    rewrite <- Zlt_Qlt. exact Hpos. }
  assert (Hage : 0 <= (Car._game_seconds c - Touch.game_seconds t) * K).
  { apply Qmult_le_0_compat; lra. }
  setoid_replace
    ((Car._game_seconds c + TICK_TIME * te - Touch.game_seconds t) * K)
    with ((Car._game_seconds c - Touch.game_seconds t) * K
          + (TICK_TIME * K) * te) by ring.
  rewrite Hunit. lra.
Qed.

Lemma same_touch_not_recounted t :
  TICK_TIME * inject_Z TICKS_PER_SECOND == 1 ->
  (0 < TICKS_PER_SECOND)%Z ->
  forall calls c,
    Touch.game_seconds t <= Car._game_seconds c ->
    Car.every_step
      (fun c0 a _ => PlayerInfo.latest_touch (Car.call_sample a) = Some t
                     /\ Car.no_touches_override (Car.call_extra a)
                     /\ (Car._cur_tick c0 <= Car.call_tick a)%Z)
      c calls ->
    Forall (fun c2 => Car.ball_touches c2 = Car.ball_touches c)
           (Car.trace c calls).
Proof.
  intros Hunit Hpos.
  assert (HK : 0 < inject_Z TICKS_PER_SECOND).
  { replace 0 with (inject_Z 0) by reflexivity. rewrite <- Zlt_Qlt. exact Hpos. }
  assert (HT : 0 < TICK_TIME).
  { destruct (Qlt_le_dec 0 TICK_TIME) as [Hlt|Hle]; [exact Hlt|].
    exfalso.
    assert (TICK_TIME * inject_Z TICKS_PER_SECOND <= 0) by nra. lra. }
  induction calls as [|a rest IH]; intros c Hold H; simpl in *.
  - constructor.
  - destruct H as [(Ht & Hno & Htick) Hrest].
    assert (Hsame : Car.ball_touches (Car.step c a) = Car.ball_touches c).
    { unfold Car.step. rewrite update_ball_touches by exact Hno.
      rewrite (old_touch_not_in_interval c _ _ t Hunit Hpos Ht Hold). lia. }
    constructor; [exact Hsame|].
    rewrite <- Hsame. apply IH; [|exact Hrest].
    unfold Car.step. rewrite update_game_seconds.
    assert (0 <= inject_Z (Car.call_tick a - Car._cur_tick c)).
    { replace 0 with (inject_Z 0) by reflexivity. rewrite <- Zle_Qle. lia. }
    nra.
Qed.

(** *** Jump timer *)

Lemma update_jump_begins c p g e :
  Car.jump_begins c p -> Car.jump_time (Car.update c p g e) = 0.
Proof.
  intros [Hprev Hair]. unfold Car.update. rewrite Hair, Hprev.
  destruct e; reflexivity.
Qed.

Lemma update_jump_time_grows c p g e :
  0 < TICK_TIME ->
  (Car._cur_tick c < g)%Z ->
  ~ Car.jump_begins c p ->
  Car.jump_time c <= Car.jump_time (Car.update c p g e)
  /\ (Car.has_jumped (Car.update c p g e) || Car.is_jumping c = true ->
      Car.jump_time c < Car.jump_time (Car.update c p g e)).
Proof.
  intros HT Hadv Hnot.
  assert (Hte : 0 < TICK_TIME * inject_Z (g - Car._cur_tick c)).
  { apply Qmult_lt_0_compat; [exact HT|].
    replace 0 with (inject_Z 0) by reflexivity. rewrite <- Zlt_Qlt. lia. }
  unfold Car.jump_begins in Hnot.
  open_update p e;
    try (destruct (Car._prev_air_state c =? AirState.to_int AirState.OnGround)%Z
           eqn:Eprev; [apply Z.eqb_eq in Eprev; tauto|]);
    destruct (PlayerInfo.has_jumped p || Car.is_jumping c);
    split; intros; try discriminate; lra.
Qed.

(** *** The claims *)

(** C4.  Boost-active timer of one [update]: when it is running (> 0), the
    boost input is released and it has reached [MIN_BOOST_TIME], it becomes
    0; when it is running otherwise, it grows by [time_elapsed]; when it is 0
    and the boost input is held, it becomes exactly [time_elapsed]. *)
Theorem boost_active_time_update c p g e :
  let time_elapsed := TICK_TIME * inject_Z (g - Car._cur_tick c) in
  let boost := ControllerState.boost (PlayerInfo.last_input p) in
  (0 < Car.boost_active_time c -> boost = false ->
   MIN_BOOST_TIME <= Car.boost_active_time c ->
   Car.boost_active_time (Car.update c p g e) = 0)
  /\ (0 < Car.boost_active_time c ->
      boost = true \/ Car.boost_active_time c < MIN_BOOST_TIME ->
      Car.boost_active_time (Car.update c p g e)
      = Car.boost_active_time c + time_elapsed)
  /\ (Car.boost_active_time c == 0 -> boost = true ->
      Car.boost_active_time (Car.update c p g e) = time_elapsed).
Proof.
  intros time_elapsed boost. rewrite update_boost_active_time.
  fold time_elapsed. fold boost. repeat split.
  - intros Hpos Hoff Hmin.
    apply Qlt_bool_true in Hpos. apply Qle_bool_iff in Hmin.
    rewrite Hpos, Hoff, Hmin. reflexivity.
  - intros Hpos Hor. apply Qlt_bool_true in Hpos. rewrite Hpos.
    destruct Hor as [Hon | Hlow].
    + rewrite Hon. reflexivity.
    + apply Qle_bool_false in Hlow. rewrite Hlow, andb_false_r. reflexivity.
  - intros Hzero Hon.
    assert (Hle : Qlt_bool 0 (Car.boost_active_time c) = false)
      by (apply Qlt_bool_false; rewrite Hzero; apply Qle_refl).
    rewrite Hle, Hon. reflexivity.
Qed.

(** C6.  One [update] adds exactly [time_elapsed] to the supersonic timer
    when the sample reports supersonic and leaves it at exactly 0 when it
    does not; so over consecutive ticks (tick index advancing, positive tick
    duration) on which the flag holds, the timer increases at every update. *)
Theorem supersonic_time_update c p g e :
  (PlayerInfo.is_supersonic p = true ->
   Car.supersonic_time (Car.update c p g e)
   = Car.supersonic_time c + TICK_TIME * inject_Z (g - Car._cur_tick c))
  /\ (PlayerInfo.is_supersonic p = false ->
      Car.supersonic_time (Car.update c p g e) = 0)
  /\ (0 < TICK_TIME ->
      forall calls,
        Car.every_step
          (fun c0 a _ => Car.tick_advances c0 a
                         /\ PlayerInfo.is_supersonic (Car.call_sample a) = true)
          c calls ->
        Car.every_step
          (fun c0 _ c1 => Car.supersonic_time c0 < Car.supersonic_time c1)
          c calls).
Proof.
  rewrite update_supersonic_time. repeat split.
  - intros ->. reflexivity.
  - intros ->. reflexivity.
  - intros Htick calls. apply every_step_impl.
    intros c0 a [Hadv Hsuper]. unfold Car.step.
    rewrite update_supersonic_time, Hsuper.
    unfold Car.tick_advances in Hadv.
    assert (0 < inject_Z (Car.call_tick a - Car._cur_tick c0)).
    { replace 0 with (inject_Z 0) by reflexivity. rewrite <- Zlt_Qlt. lia. }
    nra.
Qed.

(** C7.  From a handbrake value in [[0,1]], along any sequence of [update]
    calls with advancing ticks, arbitrary handbrake inputs and no handbrake
    override, the handbrake value after every update lies in [[0,1]]. *)
Theorem handbrake_stays_in_range c calls :
  0 <= Car.handbrake c <= 1 ->
  Car.every_step
    (fun c0 a _ => Car.tick_advances c0 a
                   /\ Car.no_handbrake_override (Car.call_extra a))
    c calls ->
  Forall (fun c1 => 0 <= Car.handbrake c1 <= 1) (Car.trace c calls).
Proof.
  intros _. revert c. apply trace_Forall.
  intros c a [_ Hno]. apply update_handbrake_range, Hno.
Qed.

(** C10.  After an [update] that applies no wheel-contact override, the four
    wheel-contact flags are equal: they were last written by the [on_ground]
    setter. *)
Theorem wheels_all_equal c p g e :
  Car.no_wheels_override e ->
  exists b, Car.wheels_with_contact (Car.update c p g e) = (b, b, b, b).
Proof.
  intro H. destruct (update_wheels c p g e H) as [b Hb].
  exists b. exact Hb.
Qed.

(** C9.  [detect_hitbox] returns the category of the first listed reference
    that the shape test accepts, and the default [OCTANE] when it accepts
    none.  It reads nothing but its arguments and the constants. *)
Theorem detect_hitbox_first_match shape offset :
  Car.detect_hitbox shape offset = Car.first_matching_category shape
  /\ ((exists pre r post,
         Car.hitbox_references = pre ++ r :: post
         /\ forallb (fun r0 => negb (Car.matches_reference shape r0)) pre = true
         /\ Car.matches_reference shape r = true
         /\ Car.detect_hitbox shape offset = fst r)
      \/ (forallb (fun r0 => negb (Car.matches_reference shape r0))
                  Car.hitbox_references = true
          /\ Car.detect_hitbox shape offset = OCTANE)).
Proof.
  pose proof (detect_hitbox_find shape offset) as Hfind.
  split; [exact Hfind|]. rewrite Hfind. unfold Car.first_matching_category.
  destruct (find (Car.matches_reference shape) Car.hitbox_references) as [r|] eqn:E.
  - left. destruct (find_first_split _ _ _ E) as (pre & post & Hsplit & Hpre & Hr).
    exists pre, r, post. auto.
  - right. split; [apply find_none_all, E | reflexivity].
Qed.

(** C8.  An [update] given an override record, compared with the same
    [update] given none: every present field of the record (wheel contacts,
    handbrake, touch count, autoflip flag, timer and direction) is the final
    value of its slot; a contact id present together with a cooldown sets
    [bump_victim_id] to that id when the cooldown is positive and to [None]
    when it is <= 0; every absent field (for the bump victim: id or cooldown
    absent) leaves the slot as computed without the record. *)
Theorem override_field_by_field c p g extra :
  let computed := Car.update c p g None in
  let final := Car.update c p g (Some extra) in
  (forall w, ExtraPlayerInfo.wheels_with_contact extra = Some w ->
             Car.wheels_with_contact final = w)
  /\ (ExtraPlayerInfo.wheels_with_contact extra = None ->
      Car.wheels_with_contact final = Car.wheels_with_contact computed)
  /\ (forall h, ExtraPlayerInfo.handbrake extra = Some h ->
                Car.handbrake final = h)
  /\ (ExtraPlayerInfo.handbrake extra = None ->
      Car.handbrake final = Car.handbrake computed)
  /\ (forall n, ExtraPlayerInfo.ball_touches extra = Some n ->
                Car.ball_touches final = n)
  /\ (ExtraPlayerInfo.ball_touches extra = None ->
      Car.ball_touches final = Car.ball_touches computed)
  /\ (forall id cooldown,
        ExtraPlayerInfo.car_contact_id extra = Some id ->
        ExtraPlayerInfo.car_contact_cooldown_timer extra = Some cooldown ->
        (0 < cooldown -> Car.bump_victim_id final = Some id)
        /\ (cooldown <= 0 -> Car.bump_victim_id final = None))
  /\ (ExtraPlayerInfo.car_contact_id extra = None
      \/ ExtraPlayerInfo.car_contact_cooldown_timer extra = None ->
      Car.bump_victim_id final = Car.bump_victim_id computed)
  /\ (forall b, ExtraPlayerInfo.is_autoflipping extra = Some b ->
                Car.is_autoflipping final = b)
  /\ (ExtraPlayerInfo.is_autoflipping extra = None ->
      Car.is_autoflipping final = Car.is_autoflipping computed)
  /\ (forall x, ExtraPlayerInfo.autoflip_timer extra = Some x ->
                Car.autoflip_timer final = x)
  /\ (ExtraPlayerInfo.autoflip_timer extra = None ->
      Car.autoflip_timer final = Car.autoflip_timer computed)
  /\ (forall d, ExtraPlayerInfo.autoflip_direction extra = Some d ->
                Car.autoflip_direction final = d)
  /\ (ExtraPlayerInfo.autoflip_direction extra = None ->
      Car.autoflip_direction final = Car.autoflip_direction computed).
Proof.
  intros computed final. subst computed final. unfold Car.update.
  destruct (PlayerInfo.air_state p);
    cbn [Car.wheels_with_contact Car.handbrake Car.ball_touches
         Car.bump_victim_id Car.is_autoflipping Car.autoflip_timer
         Car.autoflip_direction];
    repeat match goal with |- _ /\ _ => split end;
    try (intros v Hv; rewrite Hv; reflexivity);
    try (intros Hv; rewrite Hv; reflexivity).
  all: try (intros id cooldown Hid Hcd; rewrite Hid, Hcd; split; intro Hc;
            [apply Qlt_bool_true in Hc | apply Qlt_bool_false in Hc];
            rewrite Hc; reflexivity).
  all: intros [Hnone | Hnone]; rewrite Hnone;
    [reflexivity | destruct (ExtraPlayerInfo.car_contact_id extra); reflexivity].
Qed.

(** C1 (as the code has it).  A call of [update] whose tick index does not
    advance ([ticks_elapsed <= 0]) raises nothing: it returns, having
    recorded the tick index and moved the clock by the non-positive
    [TICK_TIME * ticks_elapsed]. *)
Theorem update_absorbs_stale_tick c p g e :
  (g - Car._cur_tick c <= 0)%Z ->
  Car.update_call c p g e = Returned (Car.update c p g e)
  /\ Car._cur_tick (Car.update c p g e) = g
  /\ Car._game_seconds (Car.update c p g e)
     = Car._game_seconds c + TICK_TIME * inject_Z (g - Car._cur_tick c)
  /\ (0 <= TICK_TIME ->
      Car._game_seconds (Car.update c p g e) <= Car._game_seconds c).
Proof.
  intro Hstale. rewrite update_cur_tick, update_game_seconds.
  repeat split; try reflexivity.
  intro HT.
  assert (inject_Z (g - Car._cur_tick c) <= 0).
  { replace 0 with (inject_Z 0) by reflexivity. rewrite <- Zle_Qle. exact Hstale. }
  nra.
Qed.

(** C2 (as the code has it).  In a state reached by [create_compat_car] and
    [update] calls whose last [update] had a sample with an air state other
    than [Jumping] and applied no wheel-contact override: if [on_ground]
    holds then [is_jumping] is false and [air_time_since_jump] is 0. *)
Theorem grounded_outside_jumping c p g e :
  Car.reachable c ->
  PlayerInfo.air_state p <> AirState.Jumping ->
  Car.no_wheels_override e ->
  Car.on_ground (Car.update c p g e) = true ->
  Car.is_jumping (Car.update c p g e) = false
  /\ Car.air_time_since_jump (Car.update c p g e) = 0.
Proof.
  intros _ Hair Hno. unfold Car.on_ground.
  open_update p e; simpl in Hno; try rewrite Hno;
    try congruence; cbn; intro Hg; try discriminate; auto.
Qed.

(** C3 (as the code has it).  An [update] that applies no touch-count
    override adds exactly 1 to the counter when the touch test holds and
    leaves it unchanged when it does not, so it never clears it; an [update]
    whose override record supplies a touch count sets the counter to that
    count.  Once the clock has reached the reported timestamp (with
    [TICK_TIME * TICKS_PER_SECOND = 1]), later updates that report the same
    touch, apply no touch-count override and do not go back in ticks leave
    the counter as it is.  [reset_ball_touches] sets it to 0. *)
Theorem ball_touches_counting c p g e :
  let c1 := Car.update c p g e in
  (Car.no_touches_override e -> Car.touch_in_interval c p g = true ->
   Car.ball_touches c1 = (Car.ball_touches c + 1)%Z)
  /\ (Car.no_touches_override e -> Car.touch_in_interval c p g = false ->
      Car.ball_touches c1 = Car.ball_touches c)
  /\ (forall extra n,
        e = Some extra -> ExtraPlayerInfo.ball_touches extra = Some n ->
        Car.ball_touches c1 = n)
  /\ (forall t calls,
        TICK_TIME * inject_Z TICKS_PER_SECOND == 1 ->
        (0 < TICKS_PER_SECOND)%Z ->
        PlayerInfo.latest_touch p = Some t ->
        Touch.game_seconds t <= Car._game_seconds c1 ->
        Car.every_step
          (fun c0 a _ => PlayerInfo.latest_touch (Car.call_sample a) = Some t
                         /\ Car.no_touches_override (Car.call_extra a)
                         /\ (Car._cur_tick c0 <= Car.call_tick a)%Z)
          c1 calls ->
        Forall (fun c2 => Car.ball_touches c2 = Car.ball_touches c1)
               (Car.trace c1 calls))
  /\ Car.ball_touches (Car.reset_ball_touches c1) = 0%Z.
Proof.
  intros c1. subst c1. repeat split.
  - intros Hno Htest. rewrite (update_ball_touches c p g e Hno), Htest.
    reflexivity.
  - intros Hno Htest. rewrite (update_ball_touches c p g e Hno), Htest. lia.
  - intros extra n -> Hn. unfold Car.update.
    destruct (PlayerInfo.air_state p); cbn [Car.ball_touches];
      rewrite Hn; reflexivity.
  - intros t calls Hunit Hpos _ Hold Hcalls.
    exact (same_touch_not_recounted t Hunit Hpos calls _ Hold Hcalls).
Qed.

(** C5 (as the code has it).  When the sample reports [Jumping] right after
    an [OnGround] sample, [jump_time] is 0 after that [update]; over the
    following updates, as long as ticks advance (positive tick duration) and
    no later sample begins a jump again, [jump_time] never decreases, and it
    increases at every update at which [has_jumped] (as just reported) or
    [is_jumping] (as last recorded) holds. *)
Theorem jump_time_after_jump_begins c p g e calls :
  0 < TICK_TIME ->
  Car.jump_begins c p ->
  let cT := Car.update c p g e in
  Car.jump_time cT = 0
  /\ (Car.every_step
        (fun c0 a _ => Car.tick_advances c0 a
                       /\ ~ Car.jump_begins c0 (Car.call_sample a))
        cT calls ->
      Car.every_step
        (fun c0 _ c1 =>
           Car.jump_time c0 <= Car.jump_time c1
           /\ (Car.has_jumped c1 || Car.is_jumping c0 = true ->
               Car.jump_time c0 < Car.jump_time c1))
        cT calls).
Proof.
  intros HT Hbegin cT. split.
  - apply update_jump_begins, Hbegin.
  - apply every_step_impl. intros c0 a [Hadv Hnot].
    apply update_jump_time_grows; assumption.
Qed.

End Properties.

(** ** Concrete runs *)

Section Runs.
#[local] Existing Instance rl_values.
#[local] Existing Instance unit_physics.
#[local] Existing Instance example_utils.

Local Open Scope Q_scope.

(** Closes a goal on concrete data by evaluating it. *)
Ltac evaluate :=
  vm_compute;
  first [ reflexivity | discriminate | exact I
        | (let H := fresh in intro H; discriminate H) ].

Example car0_created : Car.create_compat_car packet0 0 8 = Returned car0.
Proof. reflexivity. Qed.

Example car0_reachable : Car.reachable car0.
Proof. exact (Car.reachable_attach packet0 0%Z 8%Z car0 eq_refl). Qed.

Example detect_known_and_unknown :
  Car.detect_hitbox octane_box (Vector3.mk 0 0 0) = 0%Z
  /\ Car.detect_hitbox dominus_box (Vector3.mk 0 0 0) = 1%Z
  /\ Car.detect_hitbox unknown_box (Vector3.mk 0 0 0) = 0%Z.
Proof. repeat split; reflexivity. Qed.

(** *** The scenarios of the specification *)

(** Attached on the ground with boost 50, then eight ticks of boost input on
    the ground: the boost timer reads 8/120 s, the car stays on the ground
    and never jumps. *)
Example scenario_boost_eight_ticks :
  Car.boost_active_time (Car.run car0 boost_calls) == 8 # 120
  /\ Forall (fun c => Car.on_ground c = true /\ Car.is_jumping c = false)
            (Car.trace car0 boost_calls).
Proof.
  split; [reflexivity|]. unfold boost_calls. simpl.
  repeat constructor.
Qed.

(** OnGround at frame 1200, Jumping at 1201, InAir at 1207: the jump timer is
    0 at 1201 and 6/120 s at 1207, and the car has left the ground. *)
Example scenario_jump :
  Car.jump_time (Car.update car0 jump_sample 1201 None) == 0
  /\ Car.jump_time
       (Car.update (Car.update car0 jump_sample 1201 None) air_sample 1207 None)
     == 6 # 120
  /\ Car.on_ground
       (Car.update (Car.update car0 jump_sample 1201 None) air_sample 1207 None)
     = false.
Proof. repeat split. Qed.

(** *** C1: a duplicate tick is not reported *)

(** [car0] was created at frame 1200; an [update] for frame 1200 again
    ([ticks_elapsed = 0]) returns and raises nothing. *)
Lemma stale_tick_not_reported :
  (1200 - Car._cur_tick car0 <= 0)%Z
  /\ Car.update_call car0 on_ground_sample 1200 None
     = Returned (Car.update car0 on_ground_sample 1200 None)
  /\ (forall err, Car.update_call car0 on_ground_sample 1200 None <> Raised err).
Proof.
  split; [evaluate|]. split; [reflexivity|].
  intros err H. discriminate H.
Qed.

Lemma update_absorbs_stale_tick_witness :
  (1199 - Car._cur_tick car0 <= 0)%Z
  /\ Car.update_call car0 on_ground_sample 1199 None
     = Returned (Car.update car0 on_ground_sample 1199 None)
  /\ Car._cur_tick (Car.update car0 on_ground_sample 1199 None) = 1199%Z
  /\ Car._game_seconds (Car.update car0 on_ground_sample 1199 None)
     = Car._game_seconds car0 + TICK_TIME * inject_Z (1199 - Car._cur_tick car0)
  /\ (0 <= TICK_TIME ->
      Car._game_seconds (Car.update car0 on_ground_sample 1199 None)
      <= Car._game_seconds car0).
Proof.
  split; [evaluate|].
  apply (update_absorbs_stale_tick car0 on_ground_sample 1199%Z None).
  evaluate.
Defined.

(** *** C2: on the ground while jumping *)

(** One tick after [car0] was created on the ground, a [Jumping] sample
    leaves the car on the ground (grace period) with [is_jumping] set.  And
    an [InAir] sample inside the dodge window, overridden by a record that
    reports four wheels in contact, leaves the car on the ground with
    [air_time_since_jump] at 0.75. *)
Lemma grounded_while_jumping :
  Car.create_compat_car packet0 0 8 = Returned car0
  /\ (Car.reachable (Car.update car0 jump_sample 1201 None)
      /\ Car.on_ground (Car.update car0 jump_sample 1201 None) = true
      /\ Car.is_jumping (Car.update car0 jump_sample 1201 None) = true)
  /\ (Car.reachable (Car.update car0 falling_sample 1201 (Some grounded_extra))
      /\ Car.on_ground (Car.update car0 falling_sample 1201 (Some grounded_extra))
         = true
      /\ ~ Car.air_time_since_jump
            (Car.update car0 falling_sample 1201 (Some grounded_extra)) == 0).
Proof.
  assert (Hreach : Car.reachable car0)
    by exact (Car.reachable_attach packet0 0%Z 8%Z car0 eq_refl).
  split; [reflexivity|]. split.
  - split; [apply Car.reachable_update, Hreach|]. split; reflexivity.
  - split; [apply Car.reachable_update, Hreach|]. split; [reflexivity|].
    evaluate.
Qed.

Lemma grounded_outside_jumping_witness :
  Car.reachable car0
  /\ PlayerInfo.air_state on_ground_sample <> AirState.Jumping
  /\ Car.no_wheels_override (Some empty_extra)
  /\ Car.on_ground (Car.update car0 on_ground_sample 1201 (Some empty_extra)) = true
  /\ Car.is_jumping (Car.update car0 on_ground_sample 1201 (Some empty_extra)) = false
  /\ Car.air_time_since_jump
       (Car.update car0 on_ground_sample 1201 (Some empty_extra)) = 0.
Proof.
  assert (Hreach : Car.reachable car0)
    by exact (Car.reachable_attach packet0 0%Z 8%Z car0 eq_refl).
  assert (Hair : PlayerInfo.air_state on_ground_sample <> AirState.Jumping)
    by evaluate.
  assert (Hno : Car.no_wheels_override (Some empty_extra)) by reflexivity.
  assert (Hground :
            Car.on_ground (Car.update car0 on_ground_sample 1201 (Some empty_extra))
            = true) by reflexivity.
  repeat (split; [assumption|]).
  exact (grounded_outside_jumping car0 on_ground_sample 1201%Z (Some empty_extra)
           Hreach Hair Hno Hground).
Defined.

(** *** C3: the counter cleared and a touch counted twice by [update] *)

(** A counted touch is cleared by an [update] whose override record supplies
    a touch count of 0; and a touch stamped one tick ahead of the clock is
    counted by two successive updates. *)
Lemma touch_count_cleared_or_recounted :
  (Car.ball_touches (Car.update car0 (touch_sample touch_at_1201) 1201 None) = 1%Z
   /\ Car.ball_touches
        (Car.update (Car.update car0 (touch_sample touch_at_1201) 1201 None)
           (touch_sample touch_at_1201) 1202 (Some zero_touches_extra)) = 0%Z)
  /\ (Car.ball_touches (Car.update car0 (touch_sample touch_at_1202) 1201 None) = 1%Z
      /\ Car.ball_touches
           (Car.update (Car.update car0 (touch_sample touch_at_1202) 1201 None)
              (touch_sample touch_at_1202) 1202 None) = 2%Z).
Proof. repeat split; reflexivity. Qed.

Lemma ball_touches_counting_witness :
  let c1 := Car.update car0 (touch_sample touch_at_1201) 1201 None in
  Car.no_touches_override None
  /\ Car.touch_in_interval car0 (touch_sample touch_at_1201) 1201 = true
  /\ Car.touch_in_interval c1 on_ground_sample 1202 = false
  /\ Car.ball_touches c1 = (Car.ball_touches car0 + 1)%Z
  /\ Car.ball_touches (Car.update c1 on_ground_sample 1202 None) = Car.ball_touches c1
  /\ Car.ball_touches (Car.update c1 on_ground_sample 1202 (Some full_extra)) = 7%Z
  /\ Forall (fun c2 => Car.ball_touches c2 = Car.ball_touches c1)
            (Car.trace c1 same_touch_calls)
  /\ Car.ball_touches (Car.reset_ball_touches c1) = 0%Z.
Proof.
  intro c1.
  destruct (ball_touches_counting car0 (touch_sample touch_at_1201) 1201%Z None)
    as (Hcount & _ & _ & Hsame & Hreset).
  destruct (ball_touches_counting c1 on_ground_sample 1202%Z None)
    as (_ & Hkeep & _ & _ & _).
  destruct (ball_touches_counting c1 on_ground_sample 1202%Z (Some full_extra))
    as (_ & _ & Hset & _ & _).
  split; [exact I|]. split; [reflexivity|]. split; [reflexivity|].
  split; [apply Hcount; [exact I | reflexivity]|].
  split; [apply Hkeep; [exact I | reflexivity]|].
  split; [apply (Hset full_extra 7%Z); reflexivity|].
  split; [|exact Hreset].
  apply (Hsame touch_at_1201 same_touch_calls).
  - evaluate.
  - evaluate.
  - reflexivity.
  - evaluate.
  - simpl. repeat split; evaluate.
Defined.

(** *** C4: the boost timer stopping, running and starting *)

Lemma boost_active_time_update_witness :
  (0 < Car.boost_active_time boosted_car
   /\ MIN_BOOST_TIME <= Car.boost_active_time boosted_car
   /\ Car.boost_active_time (Car.update boosted_car on_ground_sample 1213 None) = 0)
  /\ Car.boost_active_time (Car.update boosted_car boost_sample 1214 None)
     = Car.boost_active_time boosted_car
       + TICK_TIME * inject_Z (1214 - Car._cur_tick boosted_car)
  /\ (Car.boost_active_time car0 == 0
      /\ Car.boost_active_time (Car.update car0 boost_sample 1201 None)
         = TICK_TIME * inject_Z (1201 - Car._cur_tick car0)).
Proof.
  destruct (boost_active_time_update boosted_car on_ground_sample 1213%Z None)
    as (Hstop & _ & _).
  destruct (boost_active_time_update boosted_car boost_sample 1214%Z None)
    as (_ & Hrun & _).
  destruct (boost_active_time_update car0 boost_sample 1201%Z None)
    as (_ & _ & Hstart).
  assert (Hpos : 0 < Car.boost_active_time boosted_car) by evaluate.
  assert (Hmin : MIN_BOOST_TIME <= Car.boost_active_time boosted_car) by evaluate.
  assert (Hzero : Car.boost_active_time car0 == 0) by evaluate.
  split; [|split].
  - repeat (split; [assumption|]). apply Hstop; [exact Hpos | reflexivity | exact Hmin].
  - apply Hrun; [exact Hpos | left; reflexivity].
  - split; [exact Hzero|]. apply Hstart; [exact Hzero | reflexivity].
Defined.

(** *** C5: the jump timer restarted, and run backwards *)

(** After the jump begun at frame 1201, the car lands with [has_jumped]
    still reported and jumps again: [jump_time] falls from 1/120 back to 0
    although [has_jumped] held throughout.  And a later [update] for the
    earlier frame 1200 takes [jump_time] below 0 while [is_jumping] holds. *)
Lemma jump_time_decreases :
  let cT := Car.update car0 jump_sample 1201 None in
  let c1 := Car.update cT landed_sample 1202 None in
  let c2 := Car.update c1 jump_sample 1203 None in
  let c1' := Car.update cT jump_sample 1200 None in
  Car.jump_begins car0 jump_sample
  /\ (Car.has_jumped cT = true /\ Car.has_jumped c1 = true
      /\ Car.has_jumped c2 = true
      /\ Car.jump_time c2 < Car.jump_time c1)
  /\ (Car.is_jumping cT = true /\ Car.is_jumping c1' = true
      /\ Car.jump_time c1' < Car.jump_time cT).
Proof.
  cbv zeta. split; [split; reflexivity|].
  split; repeat split; reflexivity.
Qed.

Lemma jump_time_after_jump_begins_witness :
  let cT := Car.update car0 jump_sample 1201 None in
  0 < TICK_TIME
  /\ Car.jump_begins car0 jump_sample
  /\ Car.jump_time cT = 0
  /\ Car.every_step
       (fun c0 _ c1 =>
          Car.jump_time c0 <= Car.jump_time c1
          /\ (Car.has_jumped c1 || Car.is_jumping c0 = true ->
              Car.jump_time c0 < Car.jump_time c1))
       cT jump_calls.
Proof.
  intro cT.
  assert (HT : 0 < TICK_TIME) by evaluate.
  assert (Hbegin : Car.jump_begins car0 jump_sample) by (split; reflexivity).
  destruct (jump_time_after_jump_begins car0 jump_sample 1201%Z None jump_calls
              HT Hbegin) as [Hzero Hgrow].
  repeat (split; [assumption|]).
  apply Hgrow. simpl. unfold Car.tick_advances, Car.jump_begins.
  repeat split; try evaluate;
    intros [Hprev _]; vm_compute in Hprev; discriminate Hprev.
Defined.

(** *** C6: the supersonic timer over consecutive ticks *)

Lemma supersonic_time_update_witness :
  Car.supersonic_time (Car.update car0 supersonic_sample 1201 None)
  = Car.supersonic_time car0 + TICK_TIME * inject_Z (1201 - Car._cur_tick car0)
  /\ Car.supersonic_time
       (Car.update (Car.update car0 supersonic_sample 1201 None)
          on_ground_sample 1202 None) = 0
  /\ Car.every_step
       (fun c0 _ c1 => Car.supersonic_time c0 < Car.supersonic_time c1)
       car0 supersonic_calls.
Proof.
  destruct (supersonic_time_update car0 supersonic_sample 1201%Z None)
    as (Hadd & _ & Hmono).
  destruct (supersonic_time_update
              (Car.update car0 supersonic_sample 1201 None)
              on_ground_sample 1202%Z None)
    as (_ & Hzero & _).
  split; [apply Hadd; reflexivity|].
  split; [apply Hzero; reflexivity|].
  apply Hmono; [evaluate|].
  simpl. unfold Car.tick_advances. repeat split; evaluate.
Defined.

(** *** C7: the handbrake ramping up to 1 and down again *)

Lemma handbrake_stays_in_range_witness :
  0 <= Car.handbrake car0 <= 1
  /\ Forall (fun c1 => 0 <= Car.handbrake c1 <= 1) (Car.trace car0 handbrake_calls).
Proof.
  assert (Hinit : 0 <= Car.handbrake car0 <= 1) by (split; evaluate).
  split; [exact Hinit|].
  apply (handbrake_stays_in_range car0 handbrake_calls Hinit).
  simpl. unfold Car.tick_advances. repeat split; evaluate.
Defined.

(** *** C8: a full and an empty override record *)

Lemma override_field_by_field_witness :
  let final := Car.update car0 on_ground_sample 1201 (Some full_extra) in
  let kept := Car.update car0 on_ground_sample 1201 (Some empty_extra) in
  let computed := Car.update car0 on_ground_sample 1201 None in
  (Car.wheels_with_contact final = (true, false, true, true)
   /\ Car.handbrake final = 0.5
   /\ Car.ball_touches final = 7%Z
   /\ Car.bump_victim_id final = None
   /\ Car.is_autoflipping final = true
   /\ Car.autoflip_timer final = 0.4
   /\ Car.autoflip_direction final = -1)
  /\ (Car.wheels_with_contact kept = Car.wheels_with_contact computed
      /\ Car.handbrake kept = Car.handbrake computed
      /\ Car.ball_touches kept = Car.ball_touches computed
      /\ Car.bump_victim_id kept = Car.bump_victim_id computed
      /\ Car.is_autoflipping kept = Car.is_autoflipping computed
      /\ Car.autoflip_timer kept = Car.autoflip_timer computed
      /\ Car.autoflip_direction kept = Car.autoflip_direction computed).
Proof.
  intros final kept computed.
  destruct (override_field_by_field car0 on_ground_sample 1201%Z full_extra)
    as (Hw & _ & Hh & _ & Hn & _ & Hbump & _ & Hb & _ & Hx & _ & Hd & _).
  destruct (override_field_by_field car0 on_ground_sample 1201%Z empty_extra)
    as (_ & Kw & _ & Kh & _ & Kn & _ & Kbump & _ & Kb & _ & Kx & _ & Kd).
  split.
  - split; [apply Hw; reflexivity|].
    split; [apply Hh; reflexivity|].
    split; [apply Hn; reflexivity|].
    split; [apply (Hbump 5%Z 0 eq_refl eq_refl); evaluate|].
    split; [apply Hb; reflexivity|].
    split; [apply Hx; reflexivity|].
    apply Hd; reflexivity.
  - split; [apply Kw; reflexivity|].
    split; [apply Kh; reflexivity|].
    split; [apply Kn; reflexivity|].
    split; [apply Kbump; left; reflexivity|].
    split; [apply Kb; reflexivity|].
    split; [apply Kx; reflexivity|].
    apply Kd; reflexivity.
Defined.

(** *** C10: four equal wheel flags *)

Lemma wheels_all_equal_witness :
  Car.no_wheels_override (Some empty_extra)
  /\ exists b,
       Car.wheels_with_contact
         (Car.update car0 air_sample 1201 (Some empty_extra)) = (b, b, b, b).
Proof.
  split; [reflexivity|].
  apply (wheels_all_equal car0 air_sample 1201%Z (Some empty_extra)).
  reflexivity.
Defined.

End Runs.

(** ** Further properties of [car.py] *)

Section CarProperties.
Context {cv : CommonValues} {ph : PhysicsModel} {ut : Utils}.

Local Open Scope Q_scope.

Ltac step_update p e :=
  unfold Car.update;
  destruct (PlayerInfo.air_state p) eqn:?;
  destruct e as [?extra|]; cbn [Car.team_num Car.hitbox_type Car.ball_touches
    Car.bump_victim_id Car.demo_respawn_timer Car.wheels_with_contact
    Car.supersonic_time Car.boost_amount Car.boost_active_time Car.handbrake
    Car.is_jumping Car.has_jumped Car.is_holding_jump Car.jump_time
    Car.has_flipped Car.has_double_jumped Car.air_time_since_jump
    Car.flip_time Car.flip_torque Car.is_autoflipping Car.autoflip_timer
    Car.autoflip_direction Car.physics Car._inverted_physics
    Car._next_action_tick_duration Car._ball_touch_ticks
    Car._prev_air_state Car._game_seconds Car._cur_tick].

(** Turns a boolean comparison in the goal into the order it decides. *)
Ltac to_order :=
  match goal with
  | |- Qlt_bool _ _ = true => apply Qlt_bool_true
  | |- Qlt_bool _ _ = false => apply Qlt_bool_false
  | |- Qle_bool _ _ = true => apply Qle_bool_iff
  | |- Qle_bool _ _ = false => apply Qle_bool_false
  | _ => idtac
  end.

Lemma inject_Z_pos (n : Z) : (0 < n)%Z -> 0 < inject_Z n.
Proof.
  intro H. replace 0 with (inject_Z 0) by reflexivity. rewrite <- Zlt_Qlt. exact H.
Qed.

Lemma inject_Z_nonneg (n : Z) : (0 <= n)%Z -> 0 <= inject_Z n.
Proof.
  intro H. replace 0 with (inject_Z 0) by reflexivity. rewrite <- Zle_Qle. exact H.
Qed.

(** *** Runs with an invariant *)

Lemma every_step_invariant (Inv : Car.t -> Prop)
  (P R : Car.t -> Car.call -> Car.t -> Prop) :
  (forall c a, Inv c -> P c a (Car.step c a) ->
               R c a (Car.step c a) /\ Inv (Car.step c a)) ->
  forall calls c, Inv c -> Car.every_step P c calls -> Car.every_step R c calls.
Proof.
  intros Hstep calls. induction calls as [|a rest IH]; intros c Hinv H; simpl in *.
  - exact I.
  - destruct H as [Ha Hrest]. destruct (Hstep c a Hinv Ha) as [HR Hinv'].
    split; [exact HR | apply IH; assumption].
Qed.

Lemma run_invariant (Inv : Car.t -> Prop) (P : Car.t -> Car.call -> Car.t -> Prop) :
  (forall c a, Inv c -> P c a (Car.step c a) -> Inv (Car.step c a)) ->
  forall calls c, Inv c -> Car.every_step P c calls -> Inv (Car.run c calls).
Proof.
  intros Hstep calls. induction calls as [|a rest IH]; intros c Hinv H; simpl in *.
  - exact Hinv.
  - destruct H as [Ha Hrest]. apply IH; [apply Hstep; assumption | exact Hrest].
Qed.

Lemma every_step_always (P : Car.t -> Car.call -> Car.t -> Prop) :
  (forall c a, P c a (Car.step c a)) ->
  forall calls c, Car.every_step P c calls.
Proof.
  intros HP calls. induction calls as [|a rest IH]; intro c; simpl.
  - exact I.
  - split; [apply HP | apply IH].
Qed.

(** *** The property setters *)

(** X1.  Reading [on_ground] after assigning it gives the assigned value,
    and [on_ground] holds exactly when at most one wheel has no contact. *)
Theorem on_ground_set_get self value :
  Car.on_ground (Car.set_on_ground self value) = value
  /\ (forall fl fr bl br,
        Car.wheels_with_contact self = (fl, fr, bl, br) ->
        Car.on_ground self
        = (fl && fr && bl) || (fl && fr && br) || (fl && bl && br)
          || (fr && bl && br)).
Proof.
  split.
  - destruct value; reflexivity.
  - intros fl fr bl br Hw. unfold Car.on_ground. rewrite Hw.
    destruct fl, fr, bl, br; reflexivity.
Qed.

(** X2.  Assigning [False] to [is_flipping] makes the getter false.
    Assigning [True] makes it true when [FLIP_TORQUE_TIME] is positive, and
    does not restart the timer of a flip that is under way. *)
Theorem is_flipping_set_get self :
  Car.is_flipping (Car.set_is_flipping self false) = false
  /\ (0 < FLIP_TORQUE_TIME ->
      Car.is_flipping (Car.set_is_flipping self true) = true)
  /\ (Car.is_flipping self = true ->
      Car.set_is_flipping self true = self).
Proof.
  unfold Car.is_flipping, Car.set_is_flipping. repeat split.
  - cbn [Car.set_flip_time Car.has_flipped Car.flip_time].
    assert (H : Qlt_bool FLIP_TORQUE_TIME FLIP_TORQUE_TIME = false)
      by (apply Qlt_bool_false, Qle_refl).
    rewrite H. apply andb_false_r.
  - intro Hpos. cbn [Car.set_has_flipped Car.flip_time].
    destruct (Qle_bool FLIP_TORQUE_TIME (Car.flip_time self)) eqn:E.
    + cbn [Car.set_flip_time Car.set_has_flipped Car.has_flipped Car.flip_time].
      apply Qlt_bool_true in Hpos. rewrite Hpos. reflexivity.
    + cbn [Car.set_has_flipped Car.has_flipped Car.flip_time].
      apply Qle_bool_false, Qlt_bool_true in E. rewrite E. reflexivity.
  - intro H. apply andb_true_iff in H. destruct H as [Hf Ht].
    apply Qlt_bool_true, Qle_bool_false in Ht.
    cbn [Car.set_has_flipped Car.flip_time]. rewrite Ht.
    destruct self. cbn in Hf. subst. reflexivity.
Qed.

(** *** The inverted-physics cache *)

Lemma update_cache_coherent c p g e : Car.cache_coherent (Car.update c p g e).
Proof. unfold Car.cache_coherent. step_update p e; reflexivity. Qed.

(** X3.  In every state reached by [create_compat_car] and [update] calls,
    [inverted_physics] returns the inversion of the live physics; it leaves
    the car with that value cached, and a second read returns the same value
    and changes nothing. *)
Theorem inverted_physics_cached c :
  Car.reachable c ->
  fst (Car.inverted_physics c) = physics_inverted (Car.physics c)
  /\ Car._inverted_physics (snd (Car.inverted_physics c))
     = Some (physics_inverted (Car.physics c))
  /\ Car.physics (snd (Car.inverted_physics c)) = Car.physics c
  /\ Car.inverted_physics (snd (Car.inverted_physics c))
     = (fst (Car.inverted_physics c), snd (Car.inverted_physics c)).
Proof.
  intro Hreach.
  assert (Hcoh : Car.cache_coherent c).
  { destruct Hreach as [packet i a car Hcreate | car p g e _].
    - unfold Car.create_compat_car in Hcreate.
      destruct (py_getitem _ _); [|discriminate].
      injection Hcreate as <-. exact I.
    - apply update_cache_coherent. }
  unfold Car.cache_coherent in Hcoh. unfold Car.inverted_physics.
  destruct (Car._inverted_physics c) as [inv|] eqn:E.
  - subst inv. cbn [fst snd]. rewrite E. auto.
  - cbn [fst snd Car.set__inverted_physics Car._inverted_physics Car.physics].
    auto.
Qed.

(** *** What [update] never changes *)

(** X4.  No sequence of [update] calls changes the team, the hitbox type or
    the two slots left unset at creation; so [is_blue] and [is_orange] are
    fixed for the life of a car. *)
Theorem run_keeps_identity c calls :
  Car.team_num (Car.run c calls) = Car.team_num c
  /\ Car.hitbox_type (Car.run c calls) = Car.hitbox_type c
  /\ Car._next_action_tick_duration (Car.run c calls)
     = Car._next_action_tick_duration c
  /\ Car._ball_touch_ticks (Car.run c calls) = Car._ball_touch_ticks c
  /\ Car.is_blue (Car.run c calls) = Car.is_blue c
  /\ Car.is_orange (Car.run c calls) = Car.is_orange c.
Proof.
  revert c. induction calls as [|a rest IH]; intro c; simpl.
  - repeat split.
  - destruct (IH (Car.step c a)) as (Ht & Hh & Hn & Hb & _ & _).
    unfold Car.is_blue, Car.is_orange. rewrite Ht, Hh, Hn, Hb.
    unfold Car.step.
    step_update (Car.call_sample a) (Car.call_extra a); repeat split.
Qed.

(** *** [create_compat_car] *)

Lemma py_getitem_in_range {A : Type} (l : list A) (i : Z) :
  (- Z.of_nat (List.length l) <= i < Z.of_nat (List.length l))%Z ->
  exists a, py_getitem l i = Returned a
            /\ nth_error l (Z.to_nat (if (i <? 0)%Z
                                      then i + Z.of_nat (List.length l)
                                      else i)) = Some a.
Proof.
  intro H. unfold py_getitem.
  set (n := Z.of_nat (List.length l)) in *.
  set (j := if (i <? 0)%Z then (i + n)%Z else i).
  assert (Hj : (0 <= j < n)%Z).
  { unfold j. destruct (i <? 0)%Z eqn:E;
      [apply Z.ltb_lt in E | apply Z.ltb_ge in E]; lia. }
  assert (E1 : ((0 <=? j)%Z && (j <? n)%Z) = true).
  { apply andb_true_iff. split; [apply Z.leb_le | apply Z.ltb_lt]; lia. }
  rewrite E1.
  destruct (nth_error l (Z.to_nat j)) as [a|] eqn:E.
  - exists a. auto.
  - apply nth_error_None in E. unfold n in Hj. lia.
Qed.

Lemma py_getitem_out_of_range {A : Type} (l : list A) (i : Z) :
  (i < - Z.of_nat (List.length l) \/ Z.of_nat (List.length l) <= i)%Z ->
  py_getitem l i = Raised IndexError.
Proof.
  intro H. unfold py_getitem.
  set (n := Z.of_nat (List.length l)) in *.
  destruct (i <? 0)%Z eqn:E; [apply Z.ltb_lt in E | apply Z.ltb_ge in E].
  - assert (E1 : ((0 <=? i + n)%Z && (i + n <? n)%Z) = false).
    { apply andb_false_iff. left. apply Z.leb_gt. lia. }
    rewrite E1. reflexivity.
  - assert (E1 : ((0 <=? i)%Z && (i <? n)%Z) = false).
    { apply andb_false_iff. right. apply Z.ltb_ge. lia. }
    rewrite E1. reflexivity.
Qed.

(** X5.  [create_compat_car] returns a car exactly for a player index in
    [[-n, n)], where [n] is the number of players in the packet, and raises
    [IndexError] for any other index; a negative index counts from the end;
    and the tick duration argument is not used. *)
Theorem create_compat_car_index packet i a :
  let n := Z.of_nat (List.length (GamePacket.players packet)) in
  ((- n <= i < n)%Z -> exists car, Car.create_compat_car packet i a = Returned car)
  /\ ((i < - n \/ n <= i)%Z -> Car.create_compat_car packet i a = Raised IndexError)
  /\ ((0 <= i < n)%Z ->
      Car.create_compat_car packet (i - n) a = Car.create_compat_car packet i a)
  /\ (forall a', Car.create_compat_car packet i a' = Car.create_compat_car packet i a).
Proof.
  intro n. unfold Car.create_compat_car. repeat split.
  - intro H. destruct (py_getitem_in_range _ i H) as (p & Hp & _).
    rewrite Hp. eexists. reflexivity.
  - intro H. rewrite (py_getitem_out_of_range _ i H). reflexivity.
  - intro H.
    destruct (py_getitem_in_range (GamePacket.players packet) i) as (p & Hp & Hn);
      [fold n; lia|].
    destruct (py_getitem_in_range (GamePacket.players packet) (i - n)) as (q & Hq & Hm);
      [fold n; lia|].
    fold n in Hn, Hm.
    assert (E1 : (i <? 0)%Z = false) by (apply Z.ltb_ge; lia).
    assert (E2 : (i - n <? 0)%Z = true) by (apply Z.ltb_lt; lia).
    rewrite E1 in Hn. rewrite E2 in Hm.
    replace (i - n + n)%Z with i in Hm by lia.
    rewrite Hn in Hm. injection Hm as <-. rewrite Hp, Hq. reflexivity.
Qed.

(** X6.  With distinct team constants, a created car is blue exactly when
    the sample's team is 0 and orange otherwise, whatever the team number
    is. *)
Theorem created_car_team packet i a car :
  BLUE_TEAM <> ORANGE_TEAM ->
  Car.create_compat_car packet i a = Returned car ->
  exists player_info,
    py_getitem (GamePacket.players packet) i = Returned player_info
    /\ Car.is_blue car = (PlayerInfo.team player_info =? 0)%Z
    /\ Car.is_orange car = negb (PlayerInfo.team player_info =? 0)%Z.
Proof.
  intros Hteams Hcreate. unfold Car.create_compat_car in Hcreate.
  destruct (py_getitem (GamePacket.players packet) i) as [p|]; [|discriminate].
  injection Hcreate as <-. exists p. split; [reflexivity|].
  unfold Car.is_blue, Car.is_orange. cbn [Car.team_num].
  destruct (PlayerInfo.team p =? 0)%Z; cbn [negb].
  - rewrite Z.eqb_refl. split; [reflexivity|]. apply Z.eqb_neq, Hteams.
  - rewrite Z.eqb_refl. split; [|reflexivity].
    apply Z.eqb_neq. intro H. apply Hteams. symmetry. exact H.
Qed.

(** X7.  A car just created has no touches and no bump victim, is neither
    boosting, supersonic nor demolished (whatever the sample's demolition
    timeout), is not jumping, is on the ground exactly when the sample's air
    state is [OnGround], and has no cached inversion yet. *)
Theorem created_car_state packet i a car :
  Car.create_compat_car packet i a = Returned car ->
  exists player_info,
    py_getitem (GamePacket.players packet) i = Returned player_info
    /\ Car.ball_touches car = 0%Z
    /\ Car.had_car_contact car = false
    /\ Car.is_boosting car = false
    /\ Car.is_supersonic car = false
    /\ Car.is_demoed car = false
    /\ Car.is_jumping car = false
    /\ (Car.on_ground car = true
        <-> PlayerInfo.air_state player_info = AirState.OnGround)
    /\ Car._inverted_physics car = None
    /\ Car._cur_tick car = MatchInfo.frame_num (GamePacket.match_info packet).
Proof.
  intro Hcreate. unfold Car.create_compat_car in Hcreate.
  destruct (py_getitem (GamePacket.players packet) i) as [p|]; [|discriminate].
  injection Hcreate as <-. exists p. split; [reflexivity|].
  repeat (split; [reflexivity|]).
  split; [|split; reflexivity].
  unfold Car.on_ground. cbn [Car.wheels_with_contact].
  destruct (PlayerInfo.air_state p); cbn; split; intro H;
    first [reflexivity | discriminate H].
Qed.

(** *** Derived flags after [update] *)

(** X8.  After any [update], [is_demoed] holds exactly when the sample's
    demolition timeout is positive; the value -1 that stands for "alive"
    counts as not demolished. *)
Theorem update_is_demoed c p g e :
  Car.is_demoed (Car.update c p g e)
  = Qlt_bool 0 (PlayerInfo.demolished_timeout p).
Proof.
  unfold Car.is_demoed.
  assert (H : Car.demo_respawn_timer (Car.update c p g e)
              = if Qeq_bool (PlayerInfo.demolished_timeout p) (-1) then 0
                else PlayerInfo.demolished_timeout p)
    by (step_update p e; reflexivity).
  rewrite H.
  destruct (Qeq_bool (PlayerInfo.demolished_timeout p) (-1)) eqn:E; [|reflexivity].
  apply Qeq_bool_iff in E.
  assert (H1 : Qlt_bool 0 (PlayerInfo.demolished_timeout p) = false)
    by (apply Qlt_bool_false; lra).
  rewrite H1. reflexivity.
Qed.

(** *** Timers along runs *)




(** X9.  From a non-negative supersonic timer, along updates with advancing
    ticks (positive tick duration), [is_supersonic] after each update is the
    supersonic flag of that update's sample, and the timer stays
    non-negative. *)
Theorem is_supersonic_tracks_flag c calls :
  0 < TICK_TIME ->
  0 <= Car.supersonic_time c ->
  Car.every_step (fun c0 a _ => Car.tick_advances c0 a) c calls ->
  Car.every_step
    (fun _ a c1 =>
       Car.is_supersonic c1 = PlayerInfo.is_supersonic (Car.call_sample a)
       /\ 0 <= Car.supersonic_time c1)
    c calls.
Proof.
  intros HT Hinit.
  apply (every_step_invariant (fun c0 => 0 <= Car.supersonic_time c0)); [|exact Hinit].
  intros c0 a Hnonneg Hadv. unfold Car.tick_advances in Hadv.
  unfold Car.is_supersonic, Car.step. rewrite update_supersonic_time.
  pose proof (inject_Z_pos (Car.call_tick a - Car._cur_tick c0) ltac:(lia)) as Hte.
  destruct (PlayerInfo.is_supersonic (Car.call_sample a)).
  - assert (Hpos : 0 < Car.supersonic_time c0
                       + TICK_TIME * inject_Z (Car.call_tick a - Car._cur_tick c0))
      by nra.
    split; [split|]; [apply Qlt_bool_true, Hpos | lra | lra].
  - split; [split|]; [reflexivity | lra | lra].
Qed.

(** X10.  One [update] with an advancing tick (positive tick duration) from
    a non-negative boost timer: the timer stays non-negative; the car is
    boosting afterwards when the boost input is held, or when it was
    boosting for less than [MIN_BOOST_TIME]; it is not boosting afterwards
    when the input is released and it either was not boosting or had reached
    [MIN_BOOST_TIME]. *)
Theorem update_is_boosting c p g e :
  0 < TICK_TIME ->
  (Car._cur_tick c < g)%Z ->
  0 <= Car.boost_active_time c ->
  let held := ControllerState.boost (PlayerInfo.last_input p) in
  0 <= Car.boost_active_time (Car.update c p g e)
  /\ (held = true -> Car.is_boosting (Car.update c p g e) = true)
  /\ (Car.is_boosting c = true -> Car.boost_active_time c < MIN_BOOST_TIME ->
      Car.is_boosting (Car.update c p g e) = true)
  /\ (held = false ->
      Car.is_boosting c = false \/ MIN_BOOST_TIME <= Car.boost_active_time c ->
      Car.is_boosting (Car.update c p g e) = false).
Proof.
  intros HT Hadv Hnonneg held.
  assert (Hte : 0 < TICK_TIME * inject_Z (g - Car._cur_tick c)).
  { apply Qmult_lt_0_compat; [exact HT | apply inject_Z_pos; lia]. }
  unfold Car.is_boosting. rewrite update_boost_active_time. fold held.
  destruct (Qlt_bool 0 (Car.boost_active_time c)) eqn:Epos;
    [apply Qlt_bool_true in Epos | apply Qlt_bool_false in Epos].
  - destruct held; cbn [negb andb].
    + repeat split; intros; try discriminate; to_order; lra.
    + destruct (Qle_bool MIN_BOOST_TIME (Car.boost_active_time c)) eqn:Emin;
        [apply Qle_bool_iff in Emin | apply Qle_bool_false in Emin].
      * repeat split; intros; try discriminate; try reflexivity; to_order; lra.
      * repeat split; intros; try discriminate; to_order; lra.
  - destruct held.
    + repeat split; intros; try discriminate; to_order; lra.
    + repeat split; intros; try discriminate; to_order; lra.
Qed.



(** *** The jump grace period *)



(** *** Flip availability *)

(** X14.  After an [update] whose sample reports [OnGround] and that
    overrides no wheel contact, the car is on the ground, is not jumping and
    cannot flip. *)
Theorem grounded_cannot_flip c p g e :
  PlayerInfo.air_state p = AirState.OnGround ->
  Car.no_wheels_override e ->
  Car.on_ground (Car.update c p g e) = true
  /\ Car.is_jumping (Car.update c p g e) = false
  /\ Car.can_flip (Car.update c p g e) = false.
Proof.
  intros Hair Hno.
  assert (H : Car.wheels_with_contact (Car.update c p g e) = Car.on_ground_setter true
              /\ Car.is_jumping (Car.update c p g e) = false).
  { unfold Car.update. rewrite Hair.
    destruct e as [x|]; cbn in Hno |- *; try rewrite Hno; split; reflexivity. }
  destruct H as [Hw Hj]. unfold Car.can_flip, Car.on_ground. rewrite Hw.
  repeat split; assumption.
Qed.

Lemma Qlt_bool_remaining (d t : Q) : Qlt_bool (d - t) d = Qlt_bool 0 t.
Proof.
  apply eq_true_iff_eq. rewrite !Qlt_bool_true. split; intro H; lra.
Qed.

(** X15.  [has_flip] after an [update]: the sample must report neither a
    double jump nor a dodge; then, off the ground with a dodge timeout
    running, the flip is available exactly while the reported timeout is
    positive; on the ground, or with the timeout at -1, it is available
    whenever [DOUBLEJUMP_MAX_DELAY] is positive. *)
Theorem update_has_flip c p g e :
  let unused := negb (PlayerInfo.has_double_jumped p)
                && negb (PlayerInfo.has_dodged p) in
  (PlayerInfo.air_state p <> AirState.OnGround ->
   ~ PlayerInfo.dodge_timeout p == -1 ->
   Car.has_flip (Car.update c p g e)
   = unused && Qlt_bool 0 (PlayerInfo.dodge_timeout p))
  /\ (PlayerInfo.air_state p = AirState.OnGround
      \/ PlayerInfo.dodge_timeout p == -1 ->
      Car.has_flip (Car.update c p g e)
      = unused && Qlt_bool 0 DOUBLEJUMP_MAX_DELAY).
Proof.
  intro unused. subst unused. unfold Car.has_flip. split.
  - intros Hair Htimeout.
    assert (E : Qeq_bool (PlayerInfo.dodge_timeout p) (-1) = false).
    { destruct (Qeq_bool _ _) eqn:E; [|reflexivity].
      apply Qeq_bool_iff in E. contradiction. }
    step_update p e; try congruence; rewrite E, Qlt_bool_remaining; reflexivity.
  - intros Hor.
    destruct (Qeq_bool (PlayerInfo.dodge_timeout p) (-1)) eqn:E.
    + step_update p e; rewrite ?E; reflexivity.
    + destruct Hor as [Hair | Htimeout].
      * step_update p e; try congruence; reflexivity.
      * apply Qeq_bool_iff in Htimeout. congruence.
Qed.

(** *** Handbrake saturation *)

Lemma py_clamp_cases (x : Q) :
  (1 <= x -> py_min 1 (py_max 0 x) = 1)
  /\ (x <= 0 -> py_min 1 (py_max 0 x) = 0)
  /\ (0 < x < 1 -> py_min 1 (py_max 0 x) = x).
Proof.
  unfold py_min, py_max. repeat split.
  - intro H. assert (E : Qlt_bool 0 x = true) by (to_order; lra). rewrite E.
    assert (E1 : Qlt_bool x 1 = false) by (to_order; lra). rewrite E1. reflexivity.
  - intro H. assert (E : Qlt_bool 0 x = false) by (to_order; lra). rewrite E.
    reflexivity.
  - intros [H0 H1]. assert (E : Qlt_bool 0 x = true) by (to_order; lra). rewrite E.
    assert (E1 : Qlt_bool x 1 = true) by (to_order; lra). rewrite E1. reflexivity.
Qed.

(** X16.  The handbrake of an [update] without handbrake override, with [x]
    the old value ramped by the rise rate (input held) or the fall rate
    (input released) over [time_elapsed]: it is exactly 1 when [x >= 1],
    exactly 0 when [x <= 0], and [x] itself in between. *)
Theorem handbrake_saturates c p g e :
  Car.no_handbrake_override e ->
  let time_elapsed := TICK_TIME * inject_Z (g - Car._cur_tick c) in
  let x := if ControllerState.handbrake (PlayerInfo.last_input p)
           then Car.handbrake c + POWERSLIDE_RISE_RATE * time_elapsed
           else Car.handbrake c - POWERSLIDE_FALL_RATE * time_elapsed in
  (1 <= x -> Car.handbrake (Car.update c p g e) = 1)
  /\ (x <= 0 -> Car.handbrake (Car.update c p g e) = 0)
  /\ (0 < x < 1 -> Car.handbrake (Car.update c p g e) = x).
Proof.
  intros Hno time_elapsed x.
  assert (H : Car.handbrake (Car.update c p g e) = py_min 1 (py_max 0 x)).
  { subst x time_elapsed.
    step_update p e; simpl in Hno; try rewrite Hno; reflexivity. }
  rewrite H. apply py_clamp_cases.
Qed.

(** *** [reset_ball_touches] and [update] *)

(** X17.  Resetting the touch count before an [update] changes nothing of
    its result but the count: the two results agree once both are reset.
    Without a touch-count override, the count after reset and [update] is 1
    if the sample's touch falls in the interval and 0 if not.  Resetting
    twice is resetting once. *)
Theorem reset_then_update c p g e :
  Car.reset_ball_touches (Car.update (Car.reset_ball_touches c) p g e)
  = Car.reset_ball_touches (Car.update c p g e)
  /\ (Car.no_touches_override e ->
      Car.ball_touches (Car.update (Car.reset_ball_touches c) p g e)
      = if Car.touch_in_interval c p g then 1%Z else 0%Z)
  /\ Car.reset_ball_touches (Car.reset_ball_touches c) = Car.reset_ball_touches c.
Proof.
  repeat split.
  - unfold Car.update. destruct (PlayerInfo.air_state p); destruct e; reflexivity.
  - intro Hno. rewrite (update_ball_touches _ p g e Hno). reflexivity.
Qed.

(** *** Flip torque *)

(** X18.  In every state reached by [create_compat_car] and [update] calls,
    the third component of [flip_torque] is 0; after an [update] the torque
    is the sample's dodge direction turned by a quarter turn, hence at right
    angles to it. *)
Theorem flip_torque_quarter_turn c p g e :
  Car.reachable c ->
  snd (Car.flip_torque c) = 0
  /\ Car.flip_torque (Car.update c p g e)
     = (- Vector2.y (PlayerInfo.dodge_dir p), Vector2.x (PlayerInfo.dodge_dir p), 0)
  /\ fst (fst (Car.flip_torque (Car.update c p g e)))
       * Vector2.x (PlayerInfo.dodge_dir p)
     + snd (fst (Car.flip_torque (Car.update c p g e)))
       * Vector2.y (PlayerInfo.dodge_dir p) == 0.
Proof.
  intro Hreach.
  assert (Hthird : snd (Car.flip_torque c) = 0).
  { induction Hreach as [packet i a car Hcreate | car p0 g0 e0 _ IH].
    - unfold Car.create_compat_car in Hcreate.
      destruct (py_getitem _ _); [|discriminate].
      injection Hcreate as <-. reflexivity.
    - destruct (Car.flip_torque car) as [[t0 t1] t2] eqn:E. simpl in IH. subst t2.
      step_update p0 e0; rewrite E; reflexivity. }
  destruct (Car.flip_torque c) as [[t0 t1] t2] eqn:E. simpl in Hthird. subst t2.
  assert (Hafter : Car.flip_torque (Car.update c p g e)
                   = (- Vector2.y (PlayerInfo.dodge_dir p),
                      Vector2.x (PlayerInfo.dodge_dir p), 0))
    by (step_update p e; rewrite E; reflexivity).
  split; [reflexivity|]. split; [exact Hafter|].
  rewrite Hafter. cbn [fst snd]. ring.
Qed.

(** *** Hitbox of a created car *)

(** X19.  The hitbox type of a created car is one of the six known
    categories, whatever shape the sample reports. *)
Theorem created_car_hitbox packet i a car :
  Car.create_compat_car packet i a = Returned car ->
  In (Car.hitbox_type car) [OCTANE; DOMINUS; PLANK; BREAKOUT; HYBRID; MERC].
Proof.
  intro Hcreate. unfold Car.create_compat_car in Hcreate.
  destruct (py_getitem (GamePacket.players packet) i) as [p|]; [|discriminate].
  injection Hcreate as <-. cbn [Car.hitbox_type]. unfold Car.detect_hitbox.
  repeat (destruct (compare_hitbox_shape _ _ _ _); [simpl; tauto|]).
  simpl; tauto.
Qed.

(** *** Contact and autoflip without overrides *)

(** X20.  Along updates that carry no override record, the bump victim and
    the three autoflip slots never change: [update] neither sets nor clears
    them by itself. *)
Theorem run_without_override c calls :
  Car.every_step (fun _ a _ => Car.no_override a) c calls ->
  Car.bump_victim_id (Car.run c calls) = Car.bump_victim_id c
  /\ Car.had_car_contact (Car.run c calls) = Car.had_car_contact c
  /\ Car.is_autoflipping (Car.run c calls) = Car.is_autoflipping c
  /\ Car.autoflip_timer (Car.run c calls) = Car.autoflip_timer c
  /\ Car.autoflip_direction (Car.run c calls) = Car.autoflip_direction c.
Proof.
  intro H.
  assert (Hinv : Car.bump_victim_id (Car.run c calls) = Car.bump_victim_id c
                 /\ Car.is_autoflipping (Car.run c calls) = Car.is_autoflipping c
                 /\ Car.autoflip_timer (Car.run c calls) = Car.autoflip_timer c
                 /\ Car.autoflip_direction (Car.run c calls) = Car.autoflip_direction c).
  { apply (run_invariant
             (fun c0 => Car.bump_victim_id c0 = Car.bump_victim_id c
                        /\ Car.is_autoflipping c0 = Car.is_autoflipping c
                        /\ Car.autoflip_timer c0 = Car.autoflip_timer c
                        /\ Car.autoflip_direction c0 = Car.autoflip_direction c)
             (fun _ a _ => Car.no_override a)); [|repeat split|exact H].
    intros c0 a (Hb & Hf & Ht & Hd) Hno. unfold Car.no_override in Hno.
    unfold Car.step. rewrite Hno.
    unfold Car.update. destruct (PlayerInfo.air_state (Car.call_sample a));
      cbn; repeat split; assumption. }
  destruct Hinv as (Hb & Hf & Ht & Hd). unfold Car.had_car_contact.
  rewrite Hb. repeat split; assumption.
Qed.

End CarProperties.

(** ** Properties of [v1_game_state.py] *)

Section V1Properties.
Context {cv : CommonValues} {ph : PhysicsModel}.

Local Open Scope Z_scope.

(** *** Dictionaries *)

Lemma dict_get_set_eq {A : Type} (d : PyDict.t A) (k : Z) (v : A) :
  PyDict.get (PyDict.set d k v) k = Some v.
Proof.
  induction d as [|[k' v'] rest IH]; simpl.
  - rewrite Z.eqb_refl. reflexivity.
  - destruct (k' =? k) eqn:E; simpl; rewrite E; [reflexivity | exact IH].
Qed.

Lemma dict_get_set_neq {A : Type} (d : PyDict.t A) (k k' : Z) (v : A) :
  k <> k' -> PyDict.get (PyDict.set d k v) k' = PyDict.get d k'.
Proof.
  intro Hne. induction d as [|[k0 v0] rest IH]; simpl.
  - destruct (k =? k') eqn:E; [apply Z.eqb_eq in E; contradiction | reflexivity].
  - destruct (k0 =? k) eqn:E; simpl.
    + apply Z.eqb_eq in E. subst k0.
      destruct (k =? k') eqn:E'; [apply Z.eqb_eq in E'; contradiction | reflexivity].
    + destruct (k0 =? k'); [reflexivity | exact IH].
Qed.

Lemma dict_get_set {A : Type} (d : PyDict.t A) (k k' : Z) (v : A) :
  PyDict.get (PyDict.set d k v) k'
  = if k =? k' then Some v else PyDict.get d k'.
Proof.
  destruct (k =? k') eqn:E.
  - apply Z.eqb_eq in E. subst. apply dict_get_set_eq.
  - apply Z.eqb_neq in E. apply dict_get_set_neq, E.
Qed.

Lemma dict_get_absent {A : Type} (d : PyDict.t A) (k : Z) :
  ~ In k (map fst d) -> PyDict.get d k = None.
Proof.
  induction d as [|[k' v'] rest IH]; simpl; intro H; [reflexivity|].
  destruct (k' =? k) eqn:E.
  - apply Z.eqb_eq in E. tauto.
  - apply IH. tauto.
Qed.

Lemma dict_get_present {A : Type} (d : PyDict.t A) (k : Z) (v : A) :
  PyDict.get d k = Some v -> In (k, v) d.
Proof.
  induction d as [|[k' v'] rest IH]; simpl; [discriminate|].
  destruct (k' =? k) eqn:E.
  - apply Z.eqb_eq in E. intros [= ->]. left. congruence.
  - intro H. right. apply IH, H.
Qed.

(** Storing a list of items one by one: the last store of a key wins; with
    distinct keys that is the list read as a dictionary. *)
Lemma dict_store_all {A : Type} (items : PyDict.t A) :
  NoDup (map fst items) ->
  forall (d : PyDict.t A) (k : Z),
    PyDict.get (fold_left (fun d0 kv => PyDict.set d0 (fst kv) (snd kv)) items d) k
    = match PyDict.get items k with
      | Some v => Some v
      | None => PyDict.get d k
      end.
Proof.
  induction items as [|[k0 v0] rest IH]; intros Hnodup d k; simpl.
  - reflexivity.
  - inversion Hnodup as [|? ? Hnotin Hrest]; subst.
    rewrite (IH Hrest). simpl. rewrite dict_get_set.
    destruct (k0 =? k) eqn:E.
    + apply Z.eqb_eq in E. subst k0.
      rewrite (dict_get_absent rest k Hnotin). reflexivity.
    + reflexivity.
Qed.

(** *** Spectator ids *)

Lemma team_ids_keys team (cars : PyDict.t Car.t) pid :
  In pid (V1GameState.team_ids team cars) -> In pid (map fst cars).
Proof.
  unfold V1GameState.team_ids. intro H. apply in_map_iff in H.
  destruct H as (kv & <- & Hin). apply filter_In in Hin.
  apply in_map, Hin.
Qed.

Lemma team_ids_team team (cars : PyDict.t Car.t) pid :
  NoDup (map fst cars) ->
  In pid (V1GameState.team_ids team cars) ->
  exists car, PyDict.get cars pid = Some car /\ Car.team_num car = team.
Proof.
  induction cars as [|[k car] rest IH]; intros Hnodup Hin; [contradiction|].
  inversion Hnodup as [|? ? Hnotin Hrest]; subst.
  unfold V1GameState.team_ids in Hin. simpl in Hin. simpl.
  destruct (Car.team_num car =? team) eqn:E.
  - destruct Hin as [<- | Hin].
    + rewrite Z.eqb_refl. exists car. split; [reflexivity | apply Z.eqb_eq, E].
    + destruct (k =? pid) eqn:Ek.
      * apply Z.eqb_eq in Ek. subst k. exfalso. apply Hnotin.
        apply (team_ids_keys team), Hin.
      * apply IH; assumption.
  - destruct (k =? pid) eqn:Ek.
    + apply Z.eqb_eq in Ek. subst k. exfalso. apply Hnotin.
      apply (team_ids_keys team), Hin.
    + apply IH; assumption.
Qed.

Lemma team_ids_of_member team (cars : PyDict.t Car.t) pid car :
  PyDict.get cars pid = Some car ->
  Car.team_num car = team ->
  In pid (V1GameState.team_ids team cars).
Proof.
  induction cars as [|[k c0] rest IH]; simpl; [discriminate|].
  unfold V1GameState.team_ids. simpl. intros Hget Hteam.
  destruct (k =? pid) eqn:Ek.
  - apply Z.eqb_eq in Ek. injection Hget as ->. subst k.
    rewrite (proj2 (Z.eqb_eq _ _) Hteam). left. reflexivity.
  - destruct (Car.team_num c0 =? team); [right|]; apply IH; assumption.
Qed.

Lemma assign_spectator_ids_spec team (cars : PyDict.t Car.t) :
  NoDup (map fst cars) ->
  forall m next,
    snd (V1GameState.assign_spectator_ids team cars m next)
    = next + Z.of_nat (List.length (V1GameState.team_ids team cars))
    /\ (forall k pid,
          nth_error (V1GameState.team_ids team cars) k = Some pid ->
          PyDict.get (fst (V1GameState.assign_spectator_ids team cars m next)) pid
          = Some (next + Z.of_nat k))
    /\ (forall pid,
          ~ In pid (V1GameState.team_ids team cars) ->
          PyDict.get (fst (V1GameState.assign_spectator_ids team cars m next)) pid
          = PyDict.get m pid).
Proof.
  induction cars as [|[k0 car] rest IH]; intros Hnodup m next.
  - simpl. repeat split.
    + lia.
    + intros k pid H. destruct k; discriminate H.
  - inversion Hnodup as [|? ? Hnotin Hrest]; subst.
    unfold V1GameState.team_ids.
    cbn [V1GameState.assign_spectator_ids filter fst snd].
    destruct (Car.team_num car =? team) eqn:E.
    + destruct (IH Hrest (PyDict.set m k0 next) (next + 1)) as (Hnext & Hin & Hout).
      unfold V1GameState.team_ids in *. cbn [map fst List.length].
      repeat split.
      * rewrite Hnext, Nat2Z.inj_succ. lia.
      * intros k pid Hk. destruct k as [|k]; simpl in Hk.
        -- injection Hk as <-. rewrite Hout.
           ++ rewrite dict_get_set_eq. f_equal. lia.
           ++ intro H. apply Hnotin. apply (team_ids_keys team), H.
        -- rewrite (Hin k pid Hk). f_equal. lia.
      * intros pid Hpid. cbn [In] in Hpid. rewrite Hout by tauto.
        apply dict_get_set_neq. tauto.
    + apply (IH Hrest m next).
Qed.

Lemma spectator_id_map_lookup (cars : PyDict.t Car.t) :
  NoDup (map fst cars) ->
  BLUE_TEAM <> ORANGE_TEAM ->
  (forall k pid,
     nth_error (V1GameState.team_ids BLUE_TEAM cars) k = Some pid ->
     PyDict.get (V1GameState.spectator_id_map cars) pid = Some (1 + Z.of_nat k))
  /\ (forall k pid,
        nth_error (V1GameState.team_ids ORANGE_TEAM cars) k = Some pid ->
        PyDict.get (V1GameState.spectator_id_map cars) pid
        = Some (Z.max 5 (1 + Z.of_nat (List.length (V1GameState.team_ids BLUE_TEAM cars)))
                + Z.of_nat k))
  /\ (forall pid,
        ~ In pid (V1GameState.team_ids BLUE_TEAM cars) ->
        ~ In pid (V1GameState.team_ids ORANGE_TEAM cars) ->
        PyDict.get (V1GameState.spectator_id_map cars) pid = None).
Proof.
  intros Hnodup Hteams.
  set (blue := V1GameState.team_ids BLUE_TEAM cars).
  set (orange := V1GameState.team_ids ORANGE_TEAM cars).
  unfold V1GameState.spectator_id_map.
  destruct (assign_spectator_ids_spec BLUE_TEAM cars Hnodup [] 1)
    as (Hnext & Hblue & Hother).
  destruct (V1GameState.assign_spectator_ids BLUE_TEAM cars [] 1)
    as [map1 blue_next] eqn:Eblue.
  cbn [fst snd] in Hnext, Hblue, Hother. subst blue_next.
  fold blue in Hblue, Hother |- *.
  destruct (assign_spectator_ids_spec ORANGE_TEAM cars Hnodup map1
              (Z.max 5 (1 + Z.of_nat (List.length blue))))
    as (_ & Horange & Hrest).
  fold orange in Horange, Hrest. repeat split.
  - intros k pid Hk. rewrite Hrest; [apply Hblue, Hk|].
    intro Hin. apply nth_error_In in Hk.
    destruct (team_ids_team _ _ _ Hnodup Hk) as (c1 & Hc1 & Ht1).
    destruct (team_ids_team _ _ _ Hnodup Hin) as (c2 & Hc2 & Ht2).
    congruence.
  - exact Horange.
  - intros pid Hb Ho. rewrite (Hrest pid Ho). rewrite (Hother pid Hb). reflexivity.
Qed.

(** Every spectator id is the one of a blue car or the one of an orange
    car. *)
Lemma spectator_id_cases (cars : PyDict.t Car.t) x j :
  NoDup (map fst cars) ->
  BLUE_TEAM <> ORANGE_TEAM ->
  PyDict.get (V1GameState.spectator_id_map cars) x = Some j ->
  (exists k, nth_error (V1GameState.team_ids BLUE_TEAM cars) k = Some x
             /\ j = 1 + Z.of_nat k
             /\ (k < List.length (V1GameState.team_ids BLUE_TEAM cars))%nat)
  \/ (exists k, nth_error (V1GameState.team_ids ORANGE_TEAM cars) k = Some x
                /\ j = Z.max 5 (1 + Z.of_nat (List.length (V1GameState.team_ids BLUE_TEAM cars)))
                       + Z.of_nat k).
Proof.
  intros Hnodup Hteams Hx.
  destruct (spectator_id_map_lookup cars Hnodup Hteams) as (Hblue & Horange & Hnone).
  destruct (in_dec Z.eq_dec x (V1GameState.team_ids BLUE_TEAM cars)) as [Hb | Hb].
  - destruct (In_nth_error _ _ Hb) as [k Hk]. left. exists k.
    rewrite (Hblue k x Hk) in Hx. injection Hx as <-.
    repeat split; [exact Hk|]. apply nth_error_Some. congruence.
  - destruct (in_dec Z.eq_dec x (V1GameState.team_ids ORANGE_TEAM cars)) as [Ho | Ho].
    + destruct (In_nth_error _ _ Ho) as [k Hk]. right. exists k.
      rewrite (Horange k x Hk) in Hx. injection Hx as <-. auto.
    + rewrite (Hnone x Hb Ho) in Hx. discriminate.
Qed.

(** X21.  With distinct player ids and distinct team constants, the
    spectator ids [_recalculate_fields] computes are: for the blue cars, in
    dictionary order, 1, 2, 3, ...; for the orange cars, in dictionary order,
    the numbers from [max(5, number of blue cars + 1)] on; and none for a car
    of any other team. *)
Theorem spectator_ids_assigned (cars : PyDict.t Car.t) :
  NoDup (map fst cars) ->
  BLUE_TEAM <> ORANGE_TEAM ->
  let blue := V1GameState.team_ids BLUE_TEAM cars in
  let orange := V1GameState.team_ids ORANGE_TEAM cars in
  (forall k pid,
     nth_error blue k = Some pid ->
     PyDict.get (V1GameState.spectator_id_map cars) pid = Some (1 + Z.of_nat k))
  /\ (forall k pid,
        nth_error orange k = Some pid ->
        PyDict.get (V1GameState.spectator_id_map cars) pid
        = Some (Z.max 5 (1 + Z.of_nat (List.length blue)) + Z.of_nat k))
  /\ (forall pid,
        ~ In pid blue -> ~ In pid orange ->
        PyDict.get (V1GameState.spectator_id_map cars) pid = None).
Proof.
  intros Hnodup Hteams blue orange.
  destruct (spectator_id_map_lookup cars Hnodup Hteams) as (Hblue & Horange & Hnone).
  split; [|split].
  - intros k pid Hk. apply Hblue, Hk.
  - intros k pid Hk. apply Horange, Hk.
  - intros pid Hb Ho. apply Hnone; assumption.
Qed.

(** X22.  With distinct player ids and distinct team constants, no two cars
    get the same spectator id, and every id is at least 1. *)
Theorem spectator_ids_distinct (cars : PyDict.t Car.t) p q i :
  NoDup (map fst cars) ->
  BLUE_TEAM <> ORANGE_TEAM ->
  PyDict.get (V1GameState.spectator_id_map cars) p = Some i ->
  PyDict.get (V1GameState.spectator_id_map cars) q = Some i ->
  p = q /\ 1 <= i.
Proof.
  intros Hnodup Hteams Hp Hq.
  destruct (spectator_id_cases cars p i Hnodup Hteams Hp)
    as [(k1 & Hk1 & Hi1 & Hlt1) | (k1 & Hk1 & Hi1)];
    destruct (spectator_id_cases cars q i Hnodup Hteams Hq)
      as [(k2 & Hk2 & Hi2 & Hlt2) | (k2 & Hk2 & Hi2)].
  - assert (k1 = k2) by lia. subst k2. split; [congruence | lia].
  - lia.
  - lia.
  - assert (k1 = k2) by lia. subst k2. split; [congruence | lia].
Qed.

(** X23.  For a player the game state holds a car for (distinct player
    ids, distinct team constants): the lookups of [_recalculate_fields] raise
    [KeyError] when the car is of neither team; when it is blue or orange and
    the player has its two dictionary entries, they succeed with a spectator
    id of at least 1. *)
Theorem update_from_v2_args_team self (cars : PyDict.t Car.t) pid car :
  NoDup (map fst cars) ->
  BLUE_TEAM <> ORANGE_TEAM ->
  PyDict.get cars pid = Some car ->
  (Car.team_num car <> BLUE_TEAM -> Car.team_num car <> ORANGE_TEAM ->
   V1GameState.update_from_v2_args self cars pid = Py.Err Py.KeyError)
  /\ (Car.team_num car = BLUE_TEAM \/ Car.team_num car = ORANGE_TEAM ->
      forall n b,
        PyDict.get (V1GameState._boost_pickups self) pid = Some n ->
        PyDict.get (V1GameState._car_ball_touched self) pid = Some b ->
        exists id,
          V1GameState.update_from_v2_args self cars pid = Py.Ok (car, id, n, b)
          /\ 1 <= id).
Proof.
  intros Hnodup Hteams Hcar.
  destruct (spectator_id_map_lookup cars Hnodup Hteams) as (Hblue & Horange & Hnone).
  unfold V1GameState.update_from_v2_args, Py.lookup. rewrite Hcar.
  cbn [Py.bind]. split.
  - intros Hb Ho. rewrite Hnone; [reflexivity| |].
    + intro Hin. destruct (team_ids_team _ _ _ Hnodup Hin) as (c1 & Hc1 & Ht1).
      congruence.
    + intro Hin. destruct (team_ids_team _ _ _ Hnodup Hin) as (c1 & Hc1 & Ht1).
      congruence.
  - intros Hteam n b Hn Hb.
    assert (Hid : exists id,
               PyDict.get (V1GameState.spectator_id_map cars) pid = Some id).
    { destruct Hteam as [Ht | Ht].
      - pose proof (team_ids_of_member _ _ _ _ Hcar Ht) as Hin.
        destruct (In_nth_error _ _ Hin) as [k Hk]. eexists. apply (Hblue k), Hk.
      - pose proof (team_ids_of_member _ _ _ _ Hcar Ht) as Hin.
        destruct (In_nth_error _ _ Hin) as [k Hk]. eexists. apply (Horange k), Hk. }
    destruct Hid as [id Hid]. exists id.
    rewrite Hid, Hn, Hb. cbn [Py.bind]. split; [reflexivity|].
    destruct (spectator_id_cases cars pid id Hnodup Hteams Hid)
      as [(k & _ & -> & _) | (k & _ & ->)]; lia.
Qed.

(** *** The loop over the players *)

Lemma count_player_spec packet old tick_skip p pk tc :
  (V1GameState.in_play (MatchStatus.match_phase (MatchPacket.match_info packet))
   = true -> PyDict.get old (PlayerEntry.player_id p) <> None) ->
  exists pk' tc',
    V1GameState.count_player packet old tick_skip p pk tc = Py.Ok (pk', tc')
    /\ (forall k,
          PyDict.get pk' k
          = if PlayerEntry.player_id p =? k
            then Some
                   (match PyDict.get pk (PlayerEntry.player_id p) with
                    | Some n => n
                    | None => 0
                    end
                    + if V1GameState.in_play
                           (MatchStatus.match_phase (MatchPacket.match_info packet))
                         && match PyDict.get old (PlayerEntry.player_id p) with
                            | Some o => Qlt_bool o (PlayerEntry.boost p / 100)
                            | None => false
                            end
                      then 1 else 0)
            else PyDict.get pk k)
    /\ (forall k,
          PyDict.get tc' k
          = if PlayerEntry.player_id p =? k
            then Some
                   (V1GameState.touched_recently packet tick_skip p
                    || match PyDict.get tc (PlayerEntry.player_id p) with
                       | Some b => b
                       | None => false
                       end)
            else PyDict.get tc k).
Proof.
  intro Hold. unfold V1GameState.count_player, V1GameState.touched_recently.
  set (pid := PlayerEntry.player_id p) in *.
  set (pk1 := if PyDict.contains pk pid then pk else PyDict.set pk pid 0).
  set (tc1 := if PyDict.contains tc pid then tc else PyDict.set tc pid false).
  assert (Hpk1 : forall k,
             PyDict.get pk1 k
             = if pid =? k
               then Some match PyDict.get pk pid with Some n => n | None => 0 end
               else PyDict.get pk k).
  { intro k. unfold pk1, PyDict.contains.
    destruct (PyDict.get pk pid) as [n|] eqn:E.
    - destruct (pid =? k) eqn:Ek; [apply Z.eqb_eq in Ek; subst k; exact E | reflexivity].
    - rewrite dict_get_set. reflexivity. }
  assert (Htc1 : forall k,
             PyDict.get tc1 k
             = if pid =? k
               then Some match PyDict.get tc pid with Some b => b | None => false end
               else PyDict.get tc k).
  { intro k. unfold tc1, PyDict.contains.
    destruct (PyDict.get tc pid) as [b|] eqn:E.
    - destruct (pid =? k) eqn:Ek; [apply Z.eqb_eq in Ek; subst k; exact E | reflexivity].
    - rewrite dict_get_set. reflexivity. }
  clearbody pk1 tc1.
  match goal with
  | |- context [if V1GameState.in_play ?ph then ?a else ?b] =>
      set (phase := ph) in *
  end.
  match goal with
  | |- context [Py.bind (Py.lookup old pid) ?f] =>
      set (tc2 := match PlayerEntry.latest_touch p with
                  | Some latest_touch =>
                      if py_round
                           ((MatchStatus.seconds_elapsed (MatchPacket.match_info packet)
                             - Touch.game_seconds latest_touch)
                            * inject_Z TICKS_PER_SECOND) <? tick_skip
                      then PyDict.set tc1 pid true
                      else tc1
                  | None => tc1
                  end)
  end.
  assert (Htc2 : forall k,
             PyDict.get tc2 k
             = if pid =? k
               then Some
                      (match PlayerEntry.latest_touch p with
                       | Some latest_touch =>
                           py_round
                             ((MatchStatus.seconds_elapsed (MatchPacket.match_info packet)
                               - Touch.game_seconds latest_touch)
                              * inject_Z TICKS_PER_SECOND) <? tick_skip
                       | None => false
                       end
                       || match PyDict.get tc pid with Some b => b | None => false end)
               else PyDict.get tc k).
  { intro k. unfold tc2. destruct (PlayerEntry.latest_touch p) as [t|].
    - destruct (_ <? tick_skip).
      + rewrite dict_get_set. destruct (pid =? k) eqn:E; [reflexivity | ].
        rewrite Htc1, E. reflexivity.
      + cbn [orb]. apply Htc1.
    - cbn [orb]. apply Htc1. }
  clearbody tc2.
  destruct (V1GameState.in_play phase) eqn:Ephase.
  - destruct (PyDict.get old pid) as [o|] eqn:Eo; [|exfalso; apply Hold; reflexivity].
    unfold Py.lookup at 1. rewrite Eo. cbn [Py.bind andb].
    destruct (Qlt_bool o (PlayerEntry.boost p / 100)) eqn:Elt.
    + unfold Py.lookup. rewrite Hpk1, Z.eqb_refl. cbn [Py.bind].
      eexists. eexists. split; [reflexivity|]. split; [|exact Htc2].
      intro k. rewrite dict_get_set. destruct (pid =? k) eqn:E; [reflexivity | ].
      rewrite Hpk1, E. reflexivity.
    + eexists. eexists. split; [reflexivity|]. split; [|exact Htc2].
      intro k. rewrite Hpk1. destruct (pid =? k); [f_equal; lia | reflexivity].
  - eexists. eexists. split; [reflexivity|]. split; [|exact Htc2].
    intro k. rewrite Hpk1. cbn [andb]. destruct (pid =? k); [f_equal; lia | reflexivity].
Qed.

Lemma count_players_general packet old tick_skip (l : list PlayerEntry.t) :
  (V1GameState.in_play (MatchStatus.match_phase (MatchPacket.match_info packet))
   = true ->
   forall p, In p l -> PyDict.get old (PlayerEntry.player_id p) <> None) ->
  forall pk tc,
  exists pk' tc',
    V1GameState.count_players packet old tick_skip l pk tc = Py.Ok (pk', tc')
    /\ (forall k, PyDict.get tc k <> None -> PyDict.get tc' k <> None)
    /\ (forall k, PyDict.get tc k = Some true -> PyDict.get tc' k = Some true)
    /\ (forall p, In p l ->
                  PyDict.get tc' (PlayerEntry.player_id p) <> None
                  /\ PyDict.get pk' (PlayerEntry.player_id p) <> None)
    /\ (forall p, In p l ->
                  V1GameState.touched_recently packet tick_skip p = true ->
                  PyDict.get tc' (PlayerEntry.player_id p) = Some true)
    /\ (forall k, PyDict.get tc' k = Some true ->
                  PyDict.get tc k = Some true
                  \/ exists p, In p l /\ PlayerEntry.player_id p = k
                               /\ V1GameState.touched_recently packet tick_skip p
                                  = true)
    /\ (forall k, ~ In k (map PlayerEntry.player_id l) ->
                  PyDict.get tc' k = PyDict.get tc k
                  /\ PyDict.get pk' k = PyDict.get pk k)
    /\ (forall k n, PyDict.get pk k = Some n ->
                    exists n', PyDict.get pk' k = Some n' /\ n <= n').
Proof.
  intro Hold. induction l as [|a rest IH]; intros pk tc.
  - exists pk, tc. simpl. repeat split; try tauto.
    intros k n H. exists n. split; [exact H | lia].
  - destruct (count_player_spec packet old tick_skip a pk tc) as (pk1 & tc1 & Hstep & Hpk1 & Htc1).
    { intro Hplay. apply (Hold Hplay). left. reflexivity. }
    destruct IH with (pk := pk1) (tc := tc1)
      as (pk' & tc' & Hrest & Hkeep & Hsticky & Hentry & Hrecent & Horigin & Hother & Hmono).
    { intros Hplay p Hp. apply (Hold Hplay). right. exact Hp. }
    exists pk', tc'. cbn [V1GameState.count_players]. rewrite Hstep.
    cbn [Py.bind fst snd]. split; [exact Hrest|].
    set (pid := PlayerEntry.player_id a) in *.
    assert (Hpk1_pid : PyDict.get pk1 pid <> None)
      by (rewrite Hpk1, Z.eqb_refl; discriminate).
    assert (Htc1_pid : PyDict.get tc1 pid <> None)
      by (rewrite Htc1, Z.eqb_refl; discriminate).
    repeat split.
    + intros k Hk. apply Hkeep. rewrite Htc1.
      destruct (pid =? k); [discriminate | exact Hk].
    + intros k Hk. apply Hsticky. rewrite Htc1.
      destruct (pid =? k) eqn:E; [|exact Hk].
      apply Z.eqb_eq in E. subst k. rewrite Hk. rewrite orb_true_r. reflexivity.
    + destruct H as [<- | Hp]; [apply Hkeep, Htc1_pid | apply (Hentry p Hp)].
    + destruct H as [<- | Hp]; [|apply (Hentry p Hp)].
      destruct (PyDict.get pk1 pid) as [n|] eqn:E; [|contradiction].
      destruct (Hmono pid n E) as (n' & Hn' & _). fold pid. rewrite Hn'. discriminate.
    + intros p [<- | Hp] Hr; [|apply (Hrecent p Hp Hr)].
      apply Hsticky. fold pid. rewrite Htc1, Z.eqb_refl, Hr. reflexivity.
    + intros k Hk. destruct (Horigin k Hk) as [H1 | (p & Hp & Hid & Hr)].
      * rewrite Htc1 in H1. destruct (pid =? k) eqn:E; [|left; exact H1].
        apply Z.eqb_eq in E. injection H1 as H1. apply orb_true_iff in H1.
        destruct H1 as [Hr | Hprev].
        -- right. exists a. split; [left; reflexivity | split; assumption].
        -- left. subst k. destruct (PyDict.get tc pid) as [b|]; [congruence | discriminate].
      * right. exists p. split; [right; exact Hp | split; assumption].
    + destruct (Hother k) as [H1 _]; [cbn [map In] in H; tauto|].
      rewrite H1, Htc1. destruct (pid =? k) eqn:E; [|reflexivity].
      apply Z.eqb_eq in E. cbn [map In] in H. tauto.
    + destruct (Hother k) as [_ H1]; [cbn [map In] in H; tauto|].
      rewrite H1, Hpk1. destruct (pid =? k) eqn:E; [|reflexivity].
      apply Z.eqb_eq in E. cbn [map In] in H. tauto.
    + intros k n Hn.
      assert (H1 : exists n1, PyDict.get pk1 k = Some n1 /\ n <= n1).
      { rewrite Hpk1. destruct (pid =? k) eqn:E.
        - apply Z.eqb_eq in E. subst k. rewrite Hn. eexists. split; [reflexivity|].
          destruct (_ && _); lia.
        - exists n. split; [exact Hn | lia]. }
      destruct H1 as (n1 & Hn1 & Hle1).
      destruct (Hmono k n1 Hn1) as (n' & Hn' & Hle'). exists n'. split; [exact Hn' | lia].
Qed.

Lemma count_players_needs_old packet old tick_skip (l : list PlayerEntry.t) pk tc r :
  V1GameState.count_players packet old tick_skip l pk tc = Py.Ok r ->
  V1GameState.in_play (MatchStatus.match_phase (MatchPacket.match_info packet))
  = true ->
  forall q, In q l -> PyDict.get old (PlayerEntry.player_id q) <> None.
Proof.
  revert pk tc. induction l as [|a rest IH]; intros pk tc Hrun Hplay q Hq;
    [contradiction|].
  cbn [V1GameState.count_players] in Hrun.
  destruct Hq as [<- | Hq].
  - intro Hnone. unfold V1GameState.count_player in Hrun. rewrite Hplay in Hrun.
    unfold Py.lookup at 1 in Hrun. rewrite Hnone in Hrun. discriminate Hrun.
  - destruct (V1GameState.count_player packet old tick_skip a pk tc)
      as [[pk1 tc1]|]; cbn [Py.bind fst snd] in Hrun; [|discriminate Hrun].
    apply (IH pk1 tc1 Hrun Hplay q Hq).
Qed.

Lemma count_players_exact packet old tick_skip (l : list PlayerEntry.t) :
  NoDup (map PlayerEntry.player_id l) ->
  forall pk tc pk' tc',
    V1GameState.count_players packet old tick_skip l pk tc = Py.Ok (pk', tc') ->
    forall p, In p l ->
      PyDict.get pk' (PlayerEntry.player_id p)
      = Some
          (match PyDict.get pk (PlayerEntry.player_id p) with
           | Some n => n
           | None => 0
           end
           + if V1GameState.in_play
                  (MatchStatus.match_phase (MatchPacket.match_info packet))
                && match PyDict.get old (PlayerEntry.player_id p) with
                   | Some o => Qlt_bool o (PlayerEntry.boost p / 100)
                   | None => false
                   end
             then 1 else 0)
      /\ PyDict.get tc' (PlayerEntry.player_id p)
         = Some
             (V1GameState.touched_recently packet tick_skip p
              || match PyDict.get tc (PlayerEntry.player_id p) with
                 | Some b => b
                 | None => false
                 end).
Proof.
  induction l as [|a rest IH]; intros Hnodup pk tc pk' tc' Hrun p Hp; [contradiction|].
  cbn [map] in Hnodup. inversion Hnodup as [|? ? Hnotin Hnodup']; subst.
  cbn [V1GameState.count_players] in Hrun.
  destruct (V1GameState.count_player packet old tick_skip a pk tc)
    as [[pk1 tc1]|err] eqn:Hstep; [|discriminate Hrun].
  cbn [Py.bind fst snd] in Hrun.
  assert (Hspec : (forall k,
             PyDict.get pk1 k
             = if PlayerEntry.player_id a =? k
               then Some
                      (match PyDict.get pk (PlayerEntry.player_id a) with
                       | Some n => n
                       | None => 0
                       end
                       + if V1GameState.in_play
                              (MatchStatus.match_phase (MatchPacket.match_info packet))
                            && match PyDict.get old (PlayerEntry.player_id a) with
                               | Some o => Qlt_bool o (PlayerEntry.boost a / 100)
                               | None => false
                               end
                         then 1 else 0)
               else PyDict.get pk k)
            /\ (forall k,
             PyDict.get tc1 k
             = if PlayerEntry.player_id a =? k
               then Some
                      (V1GameState.touched_recently packet tick_skip a
                       || match PyDict.get tc (PlayerEntry.player_id a) with
                          | Some b => b
                          | None => false
                          end)
               else PyDict.get tc k)).
  { destruct (V1GameState.in_play
                (MatchStatus.match_phase (MatchPacket.match_info packet))) eqn:Eplay.
    - destruct (PyDict.get old (PlayerEntry.player_id a)) as [o|] eqn:Eo.
      + destruct (count_player_spec packet old tick_skip a pk tc)
          as (pk2 & tc2 & Hstep2 & Hpk2 & Htc2).
        { intros _. rewrite Eo. discriminate. }
        rewrite Hstep in Hstep2. injection Hstep2 as <- <-.
        rewrite Eplay, Eo in Hpk2. split; assumption.
      + unfold V1GameState.count_player in Hstep. rewrite Eplay in Hstep.
        unfold Py.lookup at 1 in Hstep. rewrite Eo in Hstep. discriminate Hstep.
    - destruct (count_player_spec packet old tick_skip a pk tc)
        as (pk2 & tc2 & Hstep2 & Hpk2 & Htc2).
      { rewrite Eplay. discriminate. }
      rewrite Hstep in Hstep2. injection Hstep2 as <- <-.
      rewrite Eplay in Hpk2. split; assumption. }
  destruct Hspec as [Hpk1 Htc1].
  destruct Hp as [<- | Hp].
  - destruct (count_players_general packet old tick_skip rest) with (pk := pk1) (tc := tc1)
      as (pk2 & tc2 & Hrun2 & _ & _ & _ & _ & _ & Hother & _).
    { intros Hplay q Hq. apply (count_players_needs_old _ _ _ _ _ _ _ Hrun Hplay q Hq). }
    rewrite Hrun in Hrun2. injection Hrun2 as <- <-.
    destruct (Hother (PlayerEntry.player_id a) Hnotin) as [Ht Hk].
    rewrite Ht, Hk, Hpk1, Htc1, Z.eqb_refl. split; reflexivity.
  - assert (Hne : (PlayerEntry.player_id a =? PlayerEntry.player_id p) = false).
    { apply Z.eqb_neq. intro Heq. apply Hnotin. rewrite Heq.
      apply in_map, Hp. }
    destruct (IH Hnodup' pk1 tc1 pk' tc' Hrun p Hp) as [Hk Ht].
    rewrite Hk, Ht, Hpk1, Htc1, Hne. split; reflexivity.
Qed.

(** *** [old_boost_amounts] *)

Lemma store_keeps {A : Type} (items : PyDict.t A) :
  forall (d : PyDict.t A) (k : Z),
    PyDict.get d k <> None ->
    PyDict.get (fold_left (fun d0 kv => PyDict.set d0 (fst kv) (snd kv)) items d) k
    <> None.
Proof.
  induction items as [|[k0 v0] rest IH]; intros d k H; simpl; [exact H|].
  apply IH. rewrite dict_get_set. destruct (k0 =? k); [discriminate | exact H].
Qed.

Lemma comprehension_store {A B : Type} (key : A -> Z) (value : A -> B) (l : list A) :
  forall d,
    fold_left (fun d0 x => PyDict.set d0 (key x) (value x)) l d
    = fold_left (fun d0 kv => PyDict.set d0 (fst kv) (snd kv))
        (map (fun x => (key x, value x)) l) d.
Proof.
  induction l as [|x rest IH]; intro d; simpl; [reflexivity | apply IH].
Qed.

Lemma store_adds {A : Type} (items : PyDict.t A) :
  forall (d : PyDict.t A) (k : Z),
    In k (map fst items) ->
    PyDict.get (fold_left (fun d0 kv => PyDict.set d0 (fst kv) (snd kv)) items d) k
    <> None.
Proof.
  induction items as [|[k0 v0] rest IH]; intros d k H; simpl in *; [contradiction|].
  destruct (in_dec Z.eq_dec k (map fst rest)) as [Hin | Hout].
  - apply IH, Hin.
  - destruct H as [-> | H]; [|contradiction].
    apply store_keeps. rewrite dict_get_set_eq. discriminate.
Qed.

Lemma old_boost_present packet (cars : PyDict.t Car.t) p :
  In p (MatchPacket.players packet) ->
  PyDict.get (V1GameState.old_boost_amounts packet cars) (PlayerEntry.player_id p)
  <> None.
Proof.
  intro Hp. unfold V1GameState.old_boost_amounts, PyDict.merge, PyDict.comprehension.
  apply store_keeps. rewrite comprehension_store. apply store_adds.
  rewrite map_map. cbn [fst]. apply in_map, Hp.
Qed.

Lemma dict_get_member {A : Type} (items : PyDict.t A) (k : Z) (v : A) :
  NoDup (map fst items) -> In (k, v) items -> PyDict.get items k = Some v.
Proof.
  induction items as [|[k0 v0] rest IH]; intros Hnodup Hin; [contradiction|].
  inversion Hnodup as [|? ? Hnotin Hrest]; subst. simpl.
  destruct Hin as [[= -> ->] | Hin].
  - rewrite Z.eqb_refl. reflexivity.
  - destruct (k0 =? k) eqn:E; [|apply IH; assumption].
    apply Z.eqb_eq in E. subst k0. exfalso. apply Hnotin.
    apply (in_map fst) in Hin. exact Hin.
Qed.

Lemma dict_get_map {A B : Type} (f : A -> B) (d : PyDict.t A) (k : Z) :
  PyDict.get (map (fun kv => (fst kv, f (snd kv))) d) k
  = option_map f (PyDict.get d k).
Proof.
  induction d as [|[k0 v0] rest IH]; simpl; [reflexivity|].
  destruct (k0 =? k); [reflexivity | exact IH].
Qed.

Lemma old_boost_exact packet (cars : PyDict.t Car.t) p :
  NoDup (map fst cars) ->
  NoDup (map PlayerEntry.player_id (MatchPacket.players packet)) ->
  In p (MatchPacket.players packet) ->
  PyDict.get (V1GameState.old_boost_amounts packet cars) (PlayerEntry.player_id p)
  = Some (V1GameState.old_boost cars p).
Proof.
  intros Hcars Hplayers Hp.
  unfold V1GameState.old_boost_amounts, PyDict.merge, V1GameState.old_boost.
  rewrite dict_store_all by (rewrite map_map; cbn [fst]; exact Hcars).
  rewrite dict_get_map.
  destruct (PyDict.get cars (PlayerEntry.player_id p)) as [car|]; [reflexivity|].
  cbn [option_map]. unfold PyDict.comprehension. rewrite comprehension_store.
  rewrite dict_store_all by (rewrite map_map; cbn [fst]; exact Hplayers).
  rewrite (dict_get_member _ (PlayerEntry.player_id p) (PlayerEntry.boost p / 100)%Q).
  - reflexivity.
  - rewrite map_map. cbn [fst]. exact Hplayers.
  - apply in_map_iff. exists p. split; [reflexivity | exact Hp].
Qed.

(** *** [max] with a key *)

Lemma max_from_spec {A : Type} (key : A -> Q) (l : list A) :
  forall best,
  exists i,
    nth_error (best :: l) i = Some (Py.max_from key best l)
    /\ (forall y, In y (best :: l) -> (key y <= key (Py.max_from key best l))%Q)
    /\ (forall j y, (j < i)%nat -> nth_error (best :: l) j = Some y ->
                    (key y < key (Py.max_from key best l))%Q).
Proof.
  induction l as [|x rest IH]; intro best.
  - exists 0%nat. simpl. repeat split.
    + intros y [<- | []]. apply Qle_refl.
    + intros j y Hj. lia.
  - cbn [Py.max_from].
    set (best' := if Qlt_bool (key best) (key x) then x else best).
    destruct (IH best') as (i & Hnth & Hmax & Hfirst).
    set (m := Py.max_from key best' rest) in *.
    assert (Hbest' : (key best' <= key m)%Q) by (apply Hmax; left; reflexivity).
    assert (Hbx : (key best <= key best')%Q /\ (key x <= key best')%Q).
    { unfold best'. destruct (Qlt_bool (key best) (key x)) eqn:E.
      - apply Qlt_bool_true in E. split; [apply Qlt_le_weak, E | apply Qle_refl].
      - apply Qlt_bool_false in E. split; [apply Qle_refl | exact E]. }
    destruct Hbx as [Hb Hx].
    assert (Hall : forall y, In y (best :: x :: rest) -> (key y <= key m)%Q).
    { intros y [<- | [<- | Hy]].
      - apply (Qle_trans _ _ _ Hb Hbest').
      - apply (Qle_trans _ _ _ Hx Hbest').
      - apply Hmax. right. exact Hy. }
    destruct i as [|i].
    + simpl in Hnth. injection Hnth as Hm.
      unfold best' in Hm. destruct (Qlt_bool (key best) (key x)) eqn:E.
      * exists 1%nat. repeat split.
        -- simpl. f_equal. exact Hm.
        -- exact Hall.
        -- intros j y Hj Hy. assert (j = 0%nat) by lia. subst j.
           simpl in Hy. injection Hy as <-. rewrite <- Hm.
           apply Qlt_bool_true, E.
      * exists 0%nat. repeat split.
        -- simpl. f_equal. exact Hm.
        -- exact Hall.
        -- intros j y Hj. lia.
    + exists (S (S i)). repeat split.
      * exact Hnth.
      * exact Hall.
      * intros j y Hj Hy.
        assert (Hlt : (key best' < key m)%Q)
          by (apply (Hfirst 0%nat best'); [lia | reflexivity]).
        destruct j as [|[|j]].
        -- simpl in Hy. injection Hy as <-. apply (Qle_lt_trans _ _ _ Hb Hlt).
        -- simpl in Hy. injection Hy as <-. apply (Qle_lt_trans _ _ _ Hx Hlt).
        -- apply (Hfirst (S j) y); [lia | exact Hy].
Qed.

Lemma enumerate_from_nth {A : Type} (l : list A) :
  forall s i,
    nth_error (Py.enumerate_from s l) i
    = option_map (fun x => (s + Z.of_nat i, x)) (nth_error l i).
Proof.
  induction l as [|x rest IH]; intros s i.
  - destruct i; reflexivity.
  - destruct i as [|i]; simpl.
    + f_equal. f_equal. lia.
    + rewrite IH. destruct (nth_error rest i); simpl; [|reflexivity].
      f_equal. f_equal. lia.
Qed.

(** *** [update] *)

Lemma getitem_in_range {A : Type} (l : list A) (i : Z) :
  - Z.of_nat (List.length l) <= i < Z.of_nat (List.length l) ->
  exists a, Py.getitem l i = Py.Ok a.
Proof.
  intro H. destruct (py_getitem_in_range l i H) as (a & Ha & _).
  exists a. unfold Py.getitem. rewrite Ha. reflexivity.
Qed.


(** What a completed [update] went through. *)
Lemma update_completed self packet (cars : PyDict.t Car.t) s' :
  V1GameState.update self packet cars = Py.Ok s' ->
  exists blue orange latest,
    Py.getitem (MatchPacket.teams packet) BLUE_TEAM = Py.Ok blue
    /\ Py.getitem (MatchPacket.teams packet) ORANGE_TEAM = Py.Ok orange
    /\ Py.max_by V1GameState.latest_touch_key
         (Py.enumerate (MatchPacket.players packet)) = Py.Ok latest
    /\ V1GameState.count_players packet
         (V1GameState.old_boost_amounts packet cars) (V1GameState._tick_skip self)
         (MatchPacket.players packet)
         (V1GameState._boost_pickups self) (V1GameState._car_ball_touched self)
       = Py.Ok (V1GameState._boost_pickups s', V1GameState._car_ball_touched s')
    /\ V1GameState.blue_score s' = TeamInfo.score blue
    /\ V1GameState.orange_score s' = TeamInfo.score orange
    /\ V1GameState.last_touch s'
       = match PlayerEntry.latest_touch (snd latest) with
         | None => -1
         | Some _ => fst latest
         end
    /\ V1GameState._tick_skip s' = V1GameState._tick_skip self.
Proof.
  unfold V1GameState.update. intro H.
  destruct (Py.getitem (MatchPacket.teams packet) BLUE_TEAM) as [blue|];
    [|discriminate H].
  destruct (Py.getitem (MatchPacket.teams packet) ORANGE_TEAM) as [orange|];
    [|discriminate H].
  destruct (Py.max_by _ _) as [latest|]; [|discriminate H].
  cbn [Py.bind] in H.
  destruct (V1GameState.count_players _ _ _ _ _ _) as [[pk tc]|]; [|discriminate H].
  cbn [Py.bind fst snd] in H. injection H as <-.
  exists blue, orange, latest. repeat split; reflexivity.
Qed.


(** X25.  After a completed [update], either [last_touch] is -1 and every
    touch in the packet is stamped -1 or earlier, or [last_touch] is the
    index of a player with a touch whose stamp no other touch exceeds and
    that no earlier player's touch reaches.  So when all touches are stamped
    later than -1, [last_touch] is -1 exactly when no player has a touch. *)
Theorem update_last_touch self packet (cars : PyDict.t Car.t) s' :
  V1GameState.update self packet cars = Py.Ok s' ->
  let players := MatchPacket.players packet in
  ((V1GameState.last_touch s' = -1
    /\ forall q tq, In q players -> PlayerEntry.latest_touch q = Some tq ->
                    (Touch.game_seconds tq <= -1)%Q)
   \/ exists i p t,
        V1GameState.last_touch s' = Z.of_nat i
        /\ nth_error players i = Some p
        /\ PlayerEntry.latest_touch p = Some t
        /\ (forall q tq, In q players -> PlayerEntry.latest_touch q = Some tq ->
                         (Touch.game_seconds tq <= Touch.game_seconds t)%Q)
        /\ (forall j q tq, (j < i)%nat -> nth_error players j = Some q ->
                           PlayerEntry.latest_touch q = Some tq ->
                           (Touch.game_seconds tq < Touch.game_seconds t)%Q))
  /\ ((forall q tq, In q players -> PlayerEntry.latest_touch q = Some tq ->
                    (-1 < Touch.game_seconds tq)%Q) ->
      (V1GameState.last_touch s' = -1
       <-> forall q, In q players -> PlayerEntry.latest_touch q = None)).
Proof.
  intros Hupdate players.
  destruct (update_completed _ _ _ _ Hupdate)
    as (blue & orange & latest & _ & _ & Hmax & _ & _ & _ & Hlast & _).
  fold players in Hmax.
  assert (Hmain :
    (V1GameState.last_touch s' = -1
     /\ forall q tq, In q players -> PlayerEntry.latest_touch q = Some tq ->
                     (Touch.game_seconds tq <= -1)%Q)
    \/ exists i p t,
         V1GameState.last_touch s' = Z.of_nat i
         /\ nth_error players i = Some p
         /\ PlayerEntry.latest_touch p = Some t
         /\ (forall q tq, In q players -> PlayerEntry.latest_touch q = Some tq ->
                          (Touch.game_seconds tq <= Touch.game_seconds t)%Q)
         /\ (forall j q tq, (j < i)%nat -> nth_error players j = Some q ->
                            PlayerEntry.latest_touch q = Some tq ->
                            (Touch.game_seconds tq < Touch.game_seconds t)%Q)).
  { destruct players as [|p0 rest] eqn:Eplayers; [discriminate Hmax|].
    unfold Py.enumerate in Hmax. cbn [Py.enumerate_from Py.max_by] in Hmax.
    injection Hmax as Hlatest.
    destruct (max_from_spec V1GameState.latest_touch_key
                (Py.enumerate_from 1 rest) (0, p0))
      as (i & Hnth & Hall & Hfirst).
    rewrite Hlatest in Hnth, Hall, Hfirst.
    change ((0, p0) :: Py.enumerate_from 1 rest)
      with (Py.enumerate_from 0 (p0 :: rest)) in Hnth, Hall, Hfirst.
    rewrite enumerate_from_nth in Hnth.
    destruct (nth_error (p0 :: rest) i) as [p|] eqn:Ep; [|discriminate Hnth].
    cbn [option_map] in Hnth. injection Hnth as Hl.
    assert (Hkey : forall q, In q (p0 :: rest) ->
                     (V1GameState.latest_touch_key (0%Z, q)
                      <= V1GameState.latest_touch_key latest)%Q).
    { intros q Hq. destruct (In_nth_error _ _ Hq) as [j Hj].
      assert (Hin : In (0 + Z.of_nat j, q) (Py.enumerate_from 0 (p0 :: rest))).
      { apply (nth_error_In _ j). rewrite enumerate_from_nth, Hj. reflexivity. }
      apply (Hall _ Hin). }
    assert (Hbefore : forall j q, (j < i)%nat -> nth_error (p0 :: rest) j = Some q ->
                        (V1GameState.latest_touch_key (0%Z, q)
                         < V1GameState.latest_touch_key latest)%Q).
    { intros j q Hj Hq.
      apply (Hfirst j (0 + Z.of_nat j, q) Hj).
      rewrite enumerate_from_nth, Hq. reflexivity. }
    unfold V1GameState.latest_touch_key in Hkey, Hbefore. cbn [snd] in Hkey, Hbefore.
    rewrite <- Hl in Hlast, Hkey, Hbefore. cbn [fst snd] in Hlast, Hkey, Hbefore.
    destruct (PlayerEntry.latest_touch p) as [t|] eqn:Et.
    - right. exists i, p, t.
      split; [exact Hlast|]. split; [exact Ep|]. split; [exact Et|]. split.
      + intros q tq Hq Htq. specialize (Hkey q Hq). rewrite Htq in Hkey. exact Hkey.
      + intros j q tq Hj Hq Htq. specialize (Hbefore j q Hj Hq).
        rewrite Htq in Hbefore. exact Hbefore.
    - left. split; [exact Hlast|].
      intros q tq Hq Htq. specialize (Hkey q Hq). rewrite Htq in Hkey. exact Hkey. }
  split; [exact Hmain|].
  intro Hlate. split.
  - intros Hminus q Hq.
    destruct Hmain as [[_ Hold] | (i & p & t & Hi & _)]; [|lia].
    destruct (PlayerEntry.latest_touch q) as [tq|] eqn:Eq; [|reflexivity].
    exfalso. pose proof (Hold q tq Hq Eq). pose proof (Hlate q tq Hq Eq). lra.
  - intros Hnone.
    destruct Hmain as [[Hminus _] | (i & p & t & _ & Hp & Ht & _)]; [exact Hminus|].
    apply nth_error_In in Hp. rewrite (Hnone p Hp) in Ht. discriminate.
Qed.

(** X26.  After a completed [update]: a player flagged as having touched the
    ball stays flagged ([update] never clears the flag); every player of the
    packet has a flag and a pickup count; a player whose touch is less than
    [tick_skip] rounded ticks old is flagged; and a flag is set only if it
    was set before or the packet has such a touch for that player id. *)
Theorem update_ball_touched self packet (cars : PyDict.t Car.t) s' :
  V1GameState.update self packet cars = Py.Ok s' ->
  let touched := V1GameState._car_ball_touched self in
  let touched' := V1GameState._car_ball_touched s' in
  let recent := V1GameState.touched_recently packet (V1GameState._tick_skip self) in
  (forall k, PyDict.get touched k = Some true -> PyDict.get touched' k = Some true)
  /\ (forall p, In p (MatchPacket.players packet) ->
                PyDict.get touched' (PlayerEntry.player_id p) <> None
                /\ PyDict.get (V1GameState._boost_pickups s')
                     (PlayerEntry.player_id p) <> None)
  /\ (forall p, In p (MatchPacket.players packet) -> recent p = true ->
                PyDict.get touched' (PlayerEntry.player_id p) = Some true)
  /\ (forall k, PyDict.get touched' k = Some true ->
                PyDict.get touched k = Some true
                \/ exists p, In p (MatchPacket.players packet)
                             /\ PlayerEntry.player_id p = k /\ recent p = true).
Proof.
  intros Hupdate touched touched' recent.
  destruct (update_completed _ _ _ _ Hupdate)
    as (blue & orange & latest & _ & _ & _ & Hrun & _).
  destruct (count_players_general packet (V1GameState.old_boost_amounts packet cars)
              (V1GameState._tick_skip self) (MatchPacket.players packet))
    with (pk := V1GameState._boost_pickups self) (tc := touched)
    as (pk' & tc' & Hrun' & _ & Hsticky & Hentry & Hrecent & Horigin & _).
  { intros _ p Hp. apply old_boost_present, Hp. }
  unfold touched in Hrun'. rewrite Hrun in Hrun'. injection Hrun' as <- <-.
  repeat split; try assumption; apply Hentry; assumption.
Qed.

(** X27.  After a completed [update]: no pickup count decreases and the
    counts of players absent from the packet are unchanged.  With distinct
    player ids in the packet and in the game state, the count of a packet
    player is its previous count (0 if it had none) plus 1 exactly when the
    match is in its [Active] or [Kickoff] phase and the packet's boost (over
    100) exceeds the boost amount of the player's car; a player the game
    state holds no car for never gets a pickup. *)
Theorem update_boost_pickups self packet (cars : PyDict.t Car.t) s' :
  V1GameState.update self packet cars = Py.Ok s' ->
  let pickups := V1GameState._boost_pickups self in
  let pickups' := V1GameState._boost_pickups s' in
  let previous p := match PyDict.get pickups (PlayerEntry.player_id p) with
                    | Some n => n
                    | None => 0
                    end in
  (forall k n, PyDict.get pickups k = Some n ->
               exists n', PyDict.get pickups' k = Some n' /\ n <= n')
  /\ (forall k, ~ In k (map PlayerEntry.player_id (MatchPacket.players packet)) ->
                PyDict.get pickups' k = PyDict.get pickups k)
  /\ (NoDup (map fst cars) ->
      NoDup (map PlayerEntry.player_id (MatchPacket.players packet)) ->
      forall p, In p (MatchPacket.players packet) ->
        PyDict.get pickups' (PlayerEntry.player_id p)
        = Some (previous p + if V1GameState.picked_up packet cars p then 1 else 0)
        /\ (PyDict.get cars (PlayerEntry.player_id p) = None ->
            PyDict.get pickups' (PlayerEntry.player_id p) = Some (previous p))).
Proof.
  intros Hupdate pickups pickups' previous.
  destruct (update_completed _ _ _ _ Hupdate)
    as (blue & orange & latest & _ & _ & _ & Hrun & _).
  destruct (count_players_general packet (V1GameState.old_boost_amounts packet cars)
              (V1GameState._tick_skip self) (MatchPacket.players packet))
    with (pk := pickups) (tc := V1GameState._car_ball_touched self)
    as (pk' & tc' & Hrun' & _ & _ & _ & _ & _ & Hother & Hmono).
  { intros _ p Hp. apply old_boost_present, Hp. }
  unfold pickups in Hrun'. rewrite Hrun in Hrun'. injection Hrun' as <- <-.
  split; [exact Hmono|]. split; [intros k Hk; apply (Hother k Hk)|].
  intros Hcars Hplayers p Hp.
  destruct (count_players_exact _ _ _ _ Hplayers _ _ _ _ Hrun p Hp) as [Hexact _].
  rewrite (old_boost_exact packet cars p Hcars Hplayers Hp) in Hexact.
  assert (Hfirst : PyDict.get pickups' (PlayerEntry.player_id p)
                   = Some (previous p
                           + if V1GameState.picked_up packet cars p then 1 else 0))
    by exact Hexact.
  split; [exact Hfirst|].
  intro Hnew. rewrite Hfirst. unfold V1GameState.picked_up, V1GameState.old_boost.
  rewrite Hnew.
  assert (Hself : Qlt_bool (PlayerEntry.boost p / 100) (PlayerEntry.boost p / 100)
                  = false) by (apply Qlt_bool_false, Qle_refl).
  rewrite Hself, andb_false_r. f_equal. lia.
Qed.

End V1Properties.

(** ** Properties of the legacy [game_state.py] *)

Section LegacyProperties.
Context {lm : LegacyModel}.

Local Open Scope Q_scope.

(** Case analysis on the calls a completed computation went through. *)
Ltac completed H :=
  repeat match type of H with
         | Py.bind ?r _ = Py.Ok _ =>
             let E := fresh "E" in
             destruct r eqn:E; cbn [Py.bind] in H; [|discriminate H]
         end.

(** *** Indexing *)

Lemma set_item_ok {A : Type} (a : list A) :
  forall i v a',
    GameState.set_item a i v = Py.Ok a' ->
    List.length a' = List.length a
    /\ (i < List.length a)%nat
    /\ nth_error a' i = Some v
    /\ (forall j, j <> i -> nth_error a' j = nth_error a j).
Proof.
  induction a as [|x rest IH]; intros i v a' H; [discriminate H|].
  destruct i as [|i]; cbn [GameState.set_item] in H.
  - injection H as <-. cbn. repeat split; try lia.
    intros [|j] Hj; [contradiction | reflexivity].
  - completed H. injection H as <-.
    destruct (IH i v _ E) as (Hlen & Hlt & Hnth & Hother).
    cbn. repeat split; try lia; try assumption.
    intros [|j] Hj; [reflexivity | apply Hother; lia].
Qed.

Lemma set_item_in_range {A : Type} (a : list A) :
  forall i v, (i < List.length a)%nat -> exists a', GameState.set_item a i v = Py.Ok a'.
Proof.
  induction a as [|x rest IH]; intros i v H; [simpl in H; lia|].
  destruct i as [|i]; cbn [GameState.set_item].
  - eexists. reflexivity.
  - destruct (IH i v) as [a' Ha']; [simpl in H; lia|].
    rewrite Ha'. eexists. reflexivity.
Qed.

Lemma set_item_out_of_range {A : Type} (a : list A) :
  forall i v, (List.length a <= i)%nat -> GameState.set_item a i v = Py.Err Py.IndexError.
Proof.
  induction a as [|x rest IH]; intros i v H; [reflexivity|].
  destruct i as [|i]; [simpl in H; lia|].
  cbn [GameState.set_item]. rewrite IH by (simpl in H; lia). reflexivity.
Qed.

Lemma item_in_range {A : Type} (a : list A) (i : nat) :
  (i < List.length a)%nat -> exists v, GameState.item a i = Py.Ok v.
Proof.
  intro H. unfold GameState.item.
  destruct (nth_error a i) as [v|] eqn:E; [eexists; reflexivity|].
  apply nth_error_None in E. lia.
Qed.

Lemma item_out_of_range {A : Type} (a : list A) (i : nat) :
  (List.length a <= i)%nat -> GameState.item a i = Py.Err Py.IndexError.
Proof.
  intro H. unfold GameState.item.
  rewrite (proj2 (nth_error_None a i) H). reflexivity.
Qed.

Lemma item_ok {A : Type} (a : list A) (i : nat) (v : A) :
  GameState.item a i = Py.Ok v -> nth_error a i = Some v.
Proof.
  unfold GameState.item. destruct (nth_error a i); [intros [= ->]; reflexivity | discriminate].
Qed.

(** *** [_decode_player] *)

(** The tracking arrays after a completed update of one player. *)
Lemma track_player_ok ticks air_time jumped air index e ticks1 air1 jumped1 :
  GameState.track_player ticks air_time jumped air index e
  = Py.Ok (ticks1, air1, jumped1) ->
  List.length ticks1 = List.length ticks
  /\ List.length air1 = List.length air_time
  /\ List.length jumped1 = List.length jumped
  /\ (air = AirState.OnGround \/
      exists t0, nth_error ticks index = Some t0
                 /\ nth_error ticks1 index = Some (t0 + inject_Z e))
  /\ (exists a1, nth_error air1 index = Some a1
       /\ match air with
          | AirState.OnGround | AirState.Jumping => a1 = 0
          | AirState.DoubleJumping | AirState.Dodging => a1 = 150
          | AirState.InAir =>
              exists a0, nth_error air_time index = Some a0
                         /\ a1 = a0 + inject_Z e
          end).
Proof.
  unfold GameState.track_player. intro H.
  destruct air; completed H; injection H as <- <- <-;
    repeat match goal with
           | E : GameState.set_item _ _ _ = Py.Ok _ |- _ =>
               apply set_item_ok in E; destruct E as (? & ? & ? & ?)
           | E : GameState.item _ _ = Py.Ok _ |- _ => apply item_ok in E
           end;
    repeat split; try congruence; eauto.
Qed.

Lemma decode_player_has_jump self p index e s1 pd :
  GameState._decode_player self p index e = Py.Ok (s1, pd) ->
  List.length (GameState.has_jumped s1) = List.length (GameState.has_jumped self)
  /\ (GameState.has_jumped self <> [] -> PlayerData.has_jump pd = false).
Proof.
  intro H. unfold GameState._decode_player in H.
  destruct (GameState.track_player _ _ _ _ index e) as [[[ticks1 air1] jumped1]|] eqn:Et;
    cbn [Py.bind] in H; [|discriminate H].
  destruct (track_player_ok _ _ _ _ _ _ _ _ _ Et) as (_ & _ & Hlen & _).
  completed H. injection H as <- <-.
  cbn [GameState.has_jumped PlayerData.has_jump]. split; [exact Hlen|].
  intro Hne. destruct jumped1 as [|b rest]; [|reflexivity].
  destruct (GameState.has_jumped self); [contradiction | discriminate Hlen].
Qed.

(** X28.  A completed [_decode_player] keeps the lengths of the three
    tracking arrays.  The player it returns is on the ground exactly when the
    sample reports [OnGround] or the ticks counted since it last did, with
    this call's added, are at most 6; it has its flip exactly when the
    sample reports [OnGround] or [Jumping], or reports [InAir] with the air
    time counted so far, with this call's ticks added, below 150; and its
    [has_jump] is false whenever the [has_jumped] list is not empty. *)
Theorem decode_player_flags self p index e s1 pd :
  GameState._decode_player self p index e = Py.Ok (s1, pd) ->
  let air := LegacyFlat.air_state p in
  (List.length (GameState._on_ground_ticks s1)
   = List.length (GameState._on_ground_ticks self)
   /\ List.length (GameState._air_time_since_jump s1)
      = List.length (GameState._air_time_since_jump self)
   /\ List.length (GameState.has_jumped s1)
      = List.length (GameState.has_jumped self))
  /\ (PlayerData.on_ground pd = true
      <-> air = AirState.OnGround
          \/ exists t0, nth_error (GameState._on_ground_ticks self) index = Some t0
                        /\ t0 + inject_Z e <= 6)
  /\ (PlayerData.has_flip pd = true
      <-> air = AirState.OnGround \/ air = AirState.Jumping
          \/ (air = AirState.InAir
              /\ exists a0, nth_error (GameState._air_time_since_jump self) index
                            = Some a0
                            /\ a0 + inject_Z e < 150))
  /\ (GameState.has_jumped self <> [] -> PlayerData.has_jump pd = false).
Proof.
  intros H air. unfold GameState._decode_player in H. fold air in H.
  destruct (GameState.track_player _ _ _ air index e) as [[[ticks1 air1] jumped1]|] eqn:Et;
    cbn [Py.bind] in H; [|discriminate H].
  destruct (track_player_ok _ _ _ _ _ _ _ _ _ Et)
    as (Hl1 & Hl2 & Hl3 & Hticks & (a1 & Ha1 & Hair)).
  completed H. injection H as <- <-.
  cbn [GameState._on_ground_ticks GameState._air_time_since_jump GameState.has_jumped
       PlayerData.on_ground PlayerData.has_flip PlayerData.has_jump].
  apply item_ok in E0. rewrite Ha1 in E0. injection E0 as <-.
  split; [repeat split; assumption|]. split; [|split].
  - destruct air eqn:Eair;
      [injection E as <-; split; [intros _; left; reflexivity | reflexivity]
      | | | | ];
      (destruct Hticks as [Hg | (t0 & Ht0 & Ht1)]; [discriminate Hg|];
       completed E; apply item_ok in E0; rewrite Ht1 in E0; injection E0 as <-;
       injection E as <-; rewrite Qle_bool_iff; split;
       [intro Hle; right; exists t0; split; assumption
       |intros [Hg | (t & Ht & Hle)]; [discriminate Hg | congruence]]).
  - rewrite Qlt_bool_true. destruct air eqn:Eair.
    + subst a1. split; [intros _; left; reflexivity | intros _; reflexivity].
    + subst a1. split; [intros _; right; left; reflexivity | intros _; reflexivity].
    + subst a1. split; [intro Hlt; exfalso; apply (Qlt_irrefl 150), Hlt|].
      intros [Hx | [Hx | [Hx _]]]; discriminate Hx.
    + subst a1. split; [intro Hlt; exfalso; apply (Qlt_irrefl 150), Hlt|].
      intros [Hx | [Hx | [Hx _]]]; discriminate Hx.
    + destruct Hair as (a0 & Ha0 & ->). split.
      * intro Hlt. right. right. split; [reflexivity|]. exists a0. split; assumption.
      * intros [Hx | [Hx | [_ (a2 & Ha2 & Hlt)]]]; try discriminate Hx. congruence.
  - intro Hne. destruct jumped1 as [|b rest]; [|reflexivity].
    destruct (GameState.has_jumped self); [contradiction | discriminate Hl3].
Qed.

Lemma track_player_in_range ticks air_time jumped air index e :
  (index < List.length ticks)%nat ->
  (index < List.length air_time)%nat ->
  (air = AirState.OnGround \/ air = AirState.Jumping ->
   (index < List.length jumped)%nat) ->
  exists r, GameState.track_player ticks air_time jumped air index e = Py.Ok r.
Proof.
  intros Ht Ha Hj. unfold GameState.track_player.
  destruct (item_in_range ticks index Ht) as [t0 Et0].
  destruct (item_in_range air_time index Ha) as [a0 Ea0].
  destruct air.
  - destruct (set_item_in_range ticks index 0 Ht) as [t1 ->].
    destruct (set_item_in_range air_time index 0 Ha) as [a1 ->].
    destruct (set_item_in_range jumped index false) as [j1 ->]; [auto|].
    eexists. reflexivity.
  - rewrite Et0. cbn [Py.bind].
    destruct (set_item_in_range ticks index (t0 + inject_Z e) Ht) as [t1 ->].
    destruct (set_item_in_range air_time index 0 Ha) as [a1 ->].
    destruct (set_item_in_range jumped index true) as [j1 ->]; [auto|].
    eexists. reflexivity.
  - rewrite Et0. cbn [Py.bind].
    destruct (set_item_in_range ticks index (t0 + inject_Z e) Ht) as [t1 ->].
    destruct (set_item_in_range air_time index 150 Ha) as [a1 ->].
    eexists. reflexivity.
  - rewrite Et0. cbn [Py.bind].
    destruct (set_item_in_range ticks index (t0 + inject_Z e) Ht) as [t1 ->].
    destruct (set_item_in_range air_time index 150 Ha) as [a1 ->].
    eexists. reflexivity.
  - rewrite Et0. cbn [Py.bind].
    destruct (set_item_in_range ticks index (t0 + inject_Z e) Ht) as [t1 ->].
    cbn [Py.bind]. rewrite Ea0. cbn [Py.bind].
    destruct (set_item_in_range air_time index (a0 + inject_Z e) Ha) as [a1 ->].
    eexists. reflexivity.
Qed.

Lemma decode_player_in_range self p index e :
  (index < List.length (GameState._on_ground_ticks self))%nat ->
  (index < List.length (GameState._air_time_since_jump self))%nat ->
  (LegacyFlat.air_state p = AirState.OnGround
   \/ LegacyFlat.air_state p = AirState.Jumping ->
   (index < List.length (GameState.has_jumped self))%nat) ->
  exists r, GameState._decode_player self p index e = Py.Ok r.
Proof.
  intros Ht Ha Hj. unfold GameState._decode_player.
  destruct (track_player_in_range _ _ _ _ _ e Ht Ha Hj) as [[[t1 a1] j1] Etrack].
  rewrite Etrack. cbn [Py.bind].
  destruct (track_player_ok _ _ _ _ _ _ _ _ _ Etrack) as (Hl1 & Hl2 & _).
  destruct (item_in_range t1 index) as [t Et]; [lia|].
  destruct (item_in_range a1 index) as [a Ea]; [lia|].
  rewrite Ea. destruct (LegacyFlat.air_state p); try rewrite Et; cbn [Py.bind];
    eexists; reflexivity.
Qed.

(** X29.  With the tracking arrays as [__init__] makes them (64, 64 and 10
    entries), [_decode_player] raises [IndexError] for a player index of 64
    or more, and for an index from 10 to 63 when the sample reports
    [OnGround] or [Jumping]; it completes for an index below 10, and for an
    index from 10 to 63 when the sample reports any other air state. *)
Theorem decode_player_index self p index e :
  List.length (GameState._on_ground_ticks self) = 64%nat ->
  List.length (GameState._air_time_since_jump self) = 64%nat ->
  List.length (GameState.has_jumped self) = 10%nat ->
  let air := LegacyFlat.air_state p in
  ((64 <= index)%nat ->
   GameState._decode_player self p index e = Py.Err Py.IndexError)
  /\ ((10 <= index < 64)%nat ->
      air = AirState.OnGround \/ air = AirState.Jumping ->
      GameState._decode_player self p index e = Py.Err Py.IndexError)
  /\ ((10 <= index < 64)%nat ->
      air <> AirState.OnGround -> air <> AirState.Jumping ->
      exists r, GameState._decode_player self p index e = Py.Ok r)
  /\ ((index < 10)%nat ->
      exists r, GameState._decode_player self p index e = Py.Ok r).
Proof.
  intros Ht Ha Hj air. repeat split.
  - intro Hbig. unfold GameState._decode_player, GameState.track_player.
    fold air. destruct air.
    + rewrite set_item_out_of_range by lia. reflexivity.
    + rewrite item_out_of_range by lia. reflexivity.
    + rewrite item_out_of_range by lia. reflexivity.
    + rewrite item_out_of_range by lia. reflexivity.
    + rewrite item_out_of_range by lia. reflexivity.
  - intros Hmid Hair. unfold GameState._decode_player, GameState.track_player.
    fold air. destruct Hair as [-> | ->].
    + destruct (set_item_in_range (GameState._on_ground_ticks self) index 0)
        as [t1 ->]; [lia|].
      destruct (set_item_in_range (GameState._air_time_since_jump self) index 0)
        as [a1 ->]; [lia|].
      cbn [Py.bind]. rewrite set_item_out_of_range by lia. reflexivity.
    + destruct (item_in_range (GameState._on_ground_ticks self) index)
        as [t0 ->]; [lia|].
      cbn [Py.bind].
      destruct (set_item_in_range (GameState._on_ground_ticks self) index
                  (t0 + inject_Z e)) as [t1 ->]; [lia|].
      destruct (set_item_in_range (GameState._air_time_since_jump self) index 0)
        as [a1 ->]; [lia|].
      cbn [Py.bind]. rewrite set_item_out_of_range by lia. reflexivity.
  - intros Hmid Hg Hjump. apply decode_player_in_range; try lia.
    fold air. tauto.
  - intro Hsmall. apply decode_player_in_range; try lia.
Qed.

(** *** [decode] *)

Lemma decode_pads_ok (states : list LegacyFlat.BoostPadState) :
  forall pads i pads',
    GameState.decode_pads pads i states = Py.Ok pads' ->
    List.length pads' = List.length pads
    /\ (forall j pad, nth_error states j = Some pad ->
                      nth_error pads' (i + j)
                      = Some (if LegacyFlat.is_active pad then 1 else 0))
    /\ (forall k, (k < i)%nat -> nth_error pads' k = nth_error pads k).
Proof.
  induction states as [|pad rest IH]; intros pads i pads' H.
  - injection H as <-. repeat split. intros [|j] pad0 Hj; discriminate Hj.
  - cbn [GameState.decode_pads] in H. completed H.
    destruct (set_item_ok _ _ _ _ E) as (Hlen & Hlt & Hnth & Hother).
    destruct (IH _ _ _ H) as (Hlen' & Hset & Hkeep).
    repeat split.
    + lia.
    + intros [|j] pad0 Hj; cbn in Hj.
      * injection Hj as <-. rewrite Nat.add_0_r, Hkeep by lia. exact Hnth.
      * rewrite <- (Hset j pad0 Hj). f_equal. lia.
    + intros k Hk. rewrite Hkeep by lia. apply Hother. lia.
Qed.

Lemma decode_pads_too_many (states : list LegacyFlat.BoostPadState) :
  forall pads i,
    (i <= List.length pads)%nat ->
    (List.length pads < i + List.length states)%nat ->
    GameState.decode_pads pads i states = Py.Err Py.IndexError.
Proof.
  induction states as [|pad rest IH]; intros pads i Hi H; [simpl in H; lia|].
  cbn [GameState.decode_pads].
  destruct (Nat.lt_ge_cases i (List.length pads)) as [Hin | Hout].
  - destruct (set_item_in_range pads i
                (if LegacyFlat.is_active pad then 1 else 0) Hin) as [pads1 E].
    rewrite E. cbn [Py.bind].
    destruct (set_item_ok _ _ _ _ E) as (Hlen & _).
    apply IH; cbn [List.length] in H; lia.
  - rewrite set_item_out_of_range by exact Hout. reflexivity.
Qed.

Lemma decode_players_count (cars : list LegacyFlat.PlayerInfo) :
  forall self touch seconds e ts i decoded s1 decoded',
    GameState.decode_players self touch seconds e ts i cars decoded
    = Py.Ok (s1, decoded') ->
    List.length decoded' = (List.length decoded + List.length cars)%nat.
Proof.
  induction cars as [|car rest IH];
    intros self touch seconds e ts i decoded s1 decoded' H.
  - injection H as <- <-. simpl. lia.
  - cbn [GameState.decode_players] in H. completed H.
    rewrite (IH _ _ _ _ _ _ _ _ _ H), length_app. simpl. lia.
Qed.

Lemma decode_players_has_jump (cars : list LegacyFlat.PlayerInfo) :
  forall self touch seconds e ts i decoded s1 decoded',
    GameState.decode_players self touch seconds e ts i cars decoded
    = Py.Ok (s1, decoded') ->
    GameState.has_jumped self <> [] ->
    Forall (fun pd => PlayerData.has_jump pd = false) decoded ->
    Forall (fun pd => PlayerData.has_jump pd = false) decoded'.
Proof.
  induction cars as [|car rest IH];
    intros self touch seconds e ts i decoded s1 decoded' H Hne Hall.
  - injection H as <- <-. exact Hall.
  - cbn [GameState.decode_players] in H. completed H.
    destruct a as [s2 pd]. cbn [fst snd] in H.
    destruct (decode_player_has_jump _ _ _ _ _ _ E) as [Hlen Hjump].
    apply (IH _ _ _ _ _ _ _ _ _ H).
    + intro Hnil. rewrite Hnil in Hlen.
      destruct (GameState.has_jumped self); [contradiction | discriminate Hlen].
    + apply Forall_app. split; [exact Hall|]. constructor; [|constructor].
      destruct (GameState.touched_in_window _ _ _ _); [cbn|]; apply Hjump, Hne.
Qed.

(** X30.  When [decode] completes from a state whose two boost pad arrays
    have the same length: the pad array keeps its length, entry [i] is 1 or 0
    as pad [i] of the packet is active or not, and the inverted array is the
    pad array reversed; there is one decoded player per packet player, none
    of them with [has_jump] set if the [has_jumped] list is not empty.  And
    [decode] raises [IndexError] when the packet has more pad states than the
    state has pads (with two teams in the packet). *)
Theorem decode_pads_and_players self packet e ts :
  List.length (GameState.boost_pads self)
  = List.length (GameState.inverted_boost_pads self) ->
  (forall s', GameState.decode self packet e ts = Py.Ok s' ->
     List.length (GameState.boost_pads s') = List.length (GameState.boost_pads self)
     /\ (forall i pad,
           nth_error (LegacyFlat.boost_pad_states packet) i = Some pad ->
           nth_error (GameState.boost_pads s') i
           = Some (if LegacyFlat.is_active pad then 1 else 0))
     /\ GameState.inverted_boost_pads s' = rev (GameState.boost_pads s')
     /\ List.length (GameState.players s')
        = List.length (LegacyFlat.players packet)
     /\ (GameState.has_jumped self <> [] ->
         Forall (fun pd => PlayerData.has_jump pd = false) (GameState.players s')))
  /\ ((2 <= List.length (LegacyFlat.teams packet))%nat ->
      (List.length (GameState.boost_pads self)
       < List.length (LegacyFlat.boost_pad_states packet))%nat ->
      GameState.decode self packet e ts = Py.Err Py.IndexError).
Proof.
  intro Hsame. split.
  - intros s' H. unfold GameState.decode in H. completed H.
    destruct a4 as [s1 decoded]. injection H as <-.
    cbn [GameState.boost_pads GameState.inverted_boost_pads GameState.players fst snd].
    destruct (decode_pads_ok _ _ _ _ E1) as (Hlen & Hset & _).
    split; [exact Hlen|]. split; [intros i pad Hi; apply (Hset i pad Hi)|].
    split.
    + unfold GameState.assign_all in E2.
      rewrite length_rev, Hlen, Hsame, Nat.eqb_refl in E2.
      injection E2 as <-. reflexivity.
    + split.
      * rewrite (decode_players_count _ _ _ _ _ _ _ _ _ _ E4). reflexivity.
      * intro Hne.
        apply (decode_players_has_jump _ _ _ _ _ _ _ _ _ _ E4 Hne (Forall_nil _)).
  - intros Hteams Hmany. unfold GameState.decode.
    destruct (getitem_in_range (LegacyFlat.teams packet) 0) as [blue ->]; [lia|].
    destruct (getitem_in_range (LegacyFlat.teams packet) 1) as [orange ->]; [lia|].
    cbn [Py.bind]. rewrite decode_pads_too_many by (simpl; lia). reflexivity.
Qed.

End LegacyProperties.

(** ** Concrete runs for the further properties *)

Section MoreRuns.
#[local] Existing Instance rl_values.
#[local] Existing Instance unit_physics.
#[local] Existing Instance example_utils.
#[local] Existing Instance unit_legacy.

Local Open Scope Q_scope.

(** Closes a goal on concrete data by evaluating it. *)
Ltac compute_it :=
  vm_compute;
  first [ reflexivity | discriminate | exact I
        | (let H := fresh in intro H; discriminate H) ].

Lemma on_ground_set_get_witness :
  Car.on_ground (Car.set_on_ground car0 false) = false
  /\ Car.wheels_with_contact car0 = (true, true, true, true)
  /\ Car.on_ground car0
     = (true && true && true) || (true && true && true) || (true && true && true)
       || (true && true && true).
Proof.
  destruct (on_ground_set_get car0 false) as [Hset Hget].
  split; [exact Hset|]. split; [reflexivity|].
  apply (Hget true true true true). reflexivity.
Defined.

Lemma is_flipping_set_get_witness :
  0 < FLIP_TORQUE_TIME
  /\ Car.is_flipping (Car.set_is_flipping car0 false) = false
  /\ Car.is_flipping (Car.set_is_flipping car0 true) = true
  /\ Car.set_is_flipping (Car.set_is_flipping car0 true) true
     = Car.set_is_flipping car0 true.
Proof.
  assert (Hpos : 0 < FLIP_TORQUE_TIME) by compute_it.
  destruct (is_flipping_set_get car0) as (Hoff & Hon & _).
  destruct (is_flipping_set_get (Car.set_is_flipping car0 true)) as (_ & _ & Hkeep).
  split; [exact Hpos|]. split; [exact Hoff|]. split; [apply Hon, Hpos|].
  apply Hkeep. reflexivity.
Defined.

Lemma inverted_physics_cached_witness :
  Car.reachable car0
  /\ fst (Car.inverted_physics car0) = physics_inverted (Car.physics car0)
  /\ Car._inverted_physics (snd (Car.inverted_physics car0))
     = Some (physics_inverted (Car.physics car0)).
Proof.
  assert (Hreach : Car.reachable car0)
    by exact (Car.reachable_attach packet0 0%Z 8%Z car0 eq_refl).
  destruct (inverted_physics_cached car0 Hreach) as (Hvalue & Hcache & _).
  split; [exact Hreach|]. split; [exact Hvalue | exact Hcache].
Defined.

Lemma created_car_team_witness :
  BLUE_TEAM <> ORANGE_TEAM
  /\ Car.create_compat_car packet0 0 8 = Returned car0
  /\ exists player_info,
       py_getitem (GamePacket.players packet0) 0 = Returned player_info
       /\ Car.is_blue car0 = (PlayerInfo.team player_info =? 0)%Z
       /\ Car.is_orange car0 = negb (PlayerInfo.team player_info =? 0)%Z.
Proof.
  assert (Hteams : BLUE_TEAM <> ORANGE_TEAM) by compute_it.
  split; [exact Hteams|]. split; [reflexivity|].
  exact (created_car_team packet0 0%Z 8%Z car0 Hteams eq_refl).
Defined.

Lemma create_compat_car_index_witness :
  (exists car, Car.create_compat_car two_player_packet (-2) 8 = Returned car)
  /\ Car.create_compat_car two_player_packet 2 8 = Raised IndexError
  /\ Car.create_compat_car two_player_packet (-3) 8 = Raised IndexError
  /\ Car.create_compat_car two_player_packet (1 - 2) 8
     = Car.create_compat_car two_player_packet 1 8.
Proof.
  destruct (create_compat_car_index two_player_packet (-2)%Z 8%Z) as (Hin & _ & _ & _).
  destruct (create_compat_car_index two_player_packet 2%Z 8%Z) as (_ & Hhigh & _ & _).
  destruct (create_compat_car_index two_player_packet (-3)%Z 8%Z) as (_ & Hlow & _ & _).
  destruct (create_compat_car_index two_player_packet 1%Z 8%Z) as (_ & _ & Hwrap & _).
  split; [apply Hin; split; compute_it|].
  split; [apply Hhigh; right; compute_it|].
  split; [apply Hlow; left; compute_it|].
  apply Hwrap. split; compute_it.
Defined.

Lemma created_car_state_witness :
  Car.create_compat_car packet0 0 8 = Returned car0
  /\ exists player_info,
       py_getitem (GamePacket.players packet0) 0 = Returned player_info
       /\ Car.ball_touches car0 = 0%Z
       /\ Car.had_car_contact car0 = false
       /\ Car.is_boosting car0 = false
       /\ Car.is_supersonic car0 = false
       /\ Car.is_demoed car0 = false
       /\ Car.is_jumping car0 = false
       /\ (Car.on_ground car0 = true
           <-> PlayerInfo.air_state player_info = AirState.OnGround)
       /\ Car._inverted_physics car0 = None
       /\ Car._cur_tick car0 = MatchInfo.frame_num (GamePacket.match_info packet0).
Proof.
  split; [reflexivity|].
  exact (created_car_state packet0 0%Z 8%Z car0 eq_refl).
Defined.

Lemma is_supersonic_tracks_flag_witness :
  0 < TICK_TIME
  /\ 0 <= Car.supersonic_time car0
  /\ Car.every_step
       (fun _ a c1 =>
          Car.is_supersonic c1 = PlayerInfo.is_supersonic (Car.call_sample a)
          /\ 0 <= Car.supersonic_time c1)
       car0 mixed_supersonic_calls.
Proof.
  assert (HT : 0 < TICK_TIME) by compute_it.
  assert (Hinit : 0 <= Car.supersonic_time car0) by compute_it.
  split; [exact HT|]. split; [exact Hinit|].
  apply (is_supersonic_tracks_flag car0 mixed_supersonic_calls HT Hinit).
  simpl. unfold Car.tick_advances. repeat split; compute_it.
Defined.

Lemma update_is_boosting_witness :
  0 < TICK_TIME
  /\ (Car._cur_tick car0 < 1201)%Z
  /\ 0 <= Car.boost_active_time car0
  /\ Car.is_boosting (Car.update car0 boost_sample 1201 None) = true
  /\ Car.is_boosting (Car.update car0 on_ground_sample 1201 None) = false
  /\ Car.is_boosting
       (Car.update (Car.update car0 boost_sample 1201 None) on_ground_sample
          1202 None) = true.
Proof.
  assert (HT : 0 < TICK_TIME) by compute_it.
  assert (Htick : (Car._cur_tick car0 < 1201)%Z) by compute_it.
  assert (Hinit : 0 <= Car.boost_active_time car0) by compute_it.
  destruct (update_is_boosting car0 boost_sample 1201%Z None HT Htick Hinit)
    as (Hnext & Hheld & _ & _).
  destruct (update_is_boosting car0 on_ground_sample 1201%Z None HT Htick Hinit)
    as (_ & _ & _ & Hidle).
  destruct (update_is_boosting (Car.update car0 boost_sample 1201 None)
              on_ground_sample 1202%Z None HT ltac:(compute_it) Hnext)
    as (_ & _ & Hmin & _).
  repeat (split; [assumption|]).
  split; [apply Hheld; reflexivity|].
  split; [apply Hidle; [reflexivity | left; reflexivity]|].
  apply Hmin; compute_it.
Defined.



Lemma grounded_cannot_flip_witness :
  PlayerInfo.air_state on_ground_sample = AirState.OnGround
  /\ Car.no_wheels_override (Some empty_extra)
  /\ Car.on_ground (Car.update car0 on_ground_sample 1201 (Some empty_extra)) = true
  /\ Car.is_jumping (Car.update car0 on_ground_sample 1201 (Some empty_extra)) = false
  /\ Car.can_flip (Car.update car0 on_ground_sample 1201 (Some empty_extra)) = false.
Proof.
  split; [reflexivity|]. split; [reflexivity|].
  exact (grounded_cannot_flip car0 on_ground_sample 1201%Z (Some empty_extra)
           eq_refl eq_refl).
Defined.

Lemma update_has_flip_witness :
  PlayerInfo.air_state falling_sample <> AirState.OnGround
  /\ ~ PlayerInfo.dodge_timeout falling_sample == -1
  /\ Car.has_flip (Car.update car0 falling_sample 1201 None)
     = negb false && negb false && Qlt_bool 0 0.5
  /\ Car.has_flip (Car.update car0 on_ground_sample 1201 None)
     = negb false && negb false && Qlt_bool 0 DOUBLEJUMP_MAX_DELAY.
Proof.
  assert (Hair : PlayerInfo.air_state falling_sample <> AirState.OnGround)
    by compute_it.
  assert (Htimeout : ~ PlayerInfo.dodge_timeout falling_sample == -1) by compute_it.
  destruct (update_has_flip car0 falling_sample 1201%Z None) as [Hrunning _].
  destruct (update_has_flip car0 on_ground_sample 1201%Z None) as [_ Hreset].
  split; [exact Hair|]. split; [exact Htimeout|].
  split; [apply Hrunning; assumption|].
  apply Hreset. left. reflexivity.
Defined.

Lemma handbrake_saturates_witness :
  Car.no_handbrake_override None
  /\ Car.handbrake (Car.update car0 handbrake_sample 1261 None) = 1
  /\ Car.handbrake (Car.update car0 on_ground_sample 1201 None) = 0
  /\ Car.handbrake (Car.update car0 handbrake_sample 1212 None)
     = Car.handbrake car0
       + POWERSLIDE_RISE_RATE
         * (TICK_TIME * inject_Z (1212 - Car._cur_tick car0)).
Proof.
  destruct (handbrake_saturates car0 handbrake_sample 1261%Z None I) as (Hfull & _ & _).
  destruct (handbrake_saturates car0 on_ground_sample 1201%Z None I) as (_ & Hnone & _).
  destruct (handbrake_saturates car0 handbrake_sample 1212%Z None I) as (_ & _ & Hpart).
  split; [exact I|].
  split; [apply Hfull; compute_it|].
  split; [apply Hnone; compute_it|].
  apply Hpart. split; compute_it.
Defined.

Lemma reset_then_update_witness :
  let c1 := Car.update car0 (touch_sample touch_at_1201) 1201 None in
  Car.no_touches_override None
  /\ Car.ball_touches c1 = 1%Z
  /\ Car.reset_ball_touches (Car.update (Car.reset_ball_touches c1) on_ground_sample 1202 None)
     = Car.reset_ball_touches (Car.update c1 on_ground_sample 1202 None)
  /\ Car.ball_touches
       (Car.update (Car.reset_ball_touches c1) (touch_sample touch_at_1202) 1202 None)
     = (if Car.touch_in_interval c1 (touch_sample touch_at_1202) 1202 then 1 else 0)%Z.
Proof.
  intro c1.
  destruct (reset_then_update c1 on_ground_sample 1202%Z None) as (Hsame & _ & _).
  destruct (reset_then_update c1 (touch_sample touch_at_1202) 1202%Z None)
    as (_ & Hcount & _).
  split; [exact I|]. split; [reflexivity|]. split; [exact Hsame|].
  apply Hcount. exact I.
Defined.

Lemma flip_torque_quarter_turn_witness :
  Car.reachable car0
  /\ snd (Car.flip_torque car0) = 0
  /\ Car.flip_torque (Car.update car0 falling_sample 1201 None)
     = (- Vector2.y (PlayerInfo.dodge_dir falling_sample),
        Vector2.x (PlayerInfo.dodge_dir falling_sample), 0).
Proof.
  assert (Hreach : Car.reachable car0)
    by exact (Car.reachable_attach packet0 0%Z 8%Z car0 eq_refl).
  destruct (flip_torque_quarter_turn car0 falling_sample 1201%Z None Hreach)
    as (Hthird & Hturn & _).
  split; [exact Hreach|]. split; [exact Hthird | exact Hturn].
Defined.

Lemma created_car_hitbox_witness :
  Car.create_compat_car packet0 0 8 = Returned car0
  /\ In (Car.hitbox_type car0) [OCTANE; DOMINUS; PLANK; BREAKOUT; HYBRID; MERC].
Proof.
  split; [reflexivity|].
  exact (created_car_hitbox packet0 0%Z 8%Z car0 eq_refl).
Defined.

Lemma run_without_override_witness :
  Car.every_step (fun _ a _ => Car.no_override a) car0 idle_calls
  /\ Car.bump_victim_id (Car.run car0 idle_calls) = Car.bump_victim_id car0
  /\ Car.had_car_contact (Car.run car0 idle_calls) = Car.had_car_contact car0
  /\ Car.is_autoflipping (Car.run car0 idle_calls) = Car.is_autoflipping car0
  /\ Car.autoflip_timer (Car.run car0 idle_calls) = Car.autoflip_timer car0
  /\ Car.autoflip_direction (Car.run car0 idle_calls) = Car.autoflip_direction car0.
Proof.
  assert (H : Car.every_step (fun _ a _ => Car.no_override a) car0 idle_calls)
    by (simpl; repeat split).
  split; [exact H|]. exact (run_without_override car0 idle_calls H).
Defined.

(** *** [v1_game_state.py] *)

Example v1_update_completes :
  V1GameState.update v1_state0 example_packet example_cars = Py.Ok v1_state1.
Proof. reflexivity. Qed.

Lemma example_cars_distinct : NoDup (map fst cars_with_stranger).
Proof.
  repeat constructor; cbn; intuition discriminate.
Defined.

Lemma example_players_distinct :
  NoDup (map PlayerEntry.player_id (MatchPacket.players example_packet)).
Proof.
  repeat constructor; cbn; intuition discriminate.
Defined.

Lemma example_cars_keys : NoDup (map fst example_cars).
Proof.
  repeat constructor; cbn; intuition discriminate.
Defined.

Lemma spectator_ids_assigned_witness :
  NoDup (map fst cars_with_stranger)
  /\ BLUE_TEAM <> ORANGE_TEAM
  /\ PyDict.get (V1GameState.spectator_id_map cars_with_stranger) 7 = Some (1 + 0)%Z
  /\ PyDict.get (V1GameState.spectator_id_map cars_with_stranger) 9 = Some (1 + 1)%Z
  /\ PyDict.get (V1GameState.spectator_id_map cars_with_stranger) 3
     = Some (Z.max 5 (1 + 2) + 0)%Z
  /\ PyDict.get (V1GameState.spectator_id_map cars_with_stranger) 5 = None.
Proof.
  assert (Hteams : BLUE_TEAM <> ORANGE_TEAM) by compute_it.
  destruct (spectator_ids_assigned cars_with_stranger example_cars_distinct Hteams)
    as (Hblue & Horange & Hnone).
  split; [exact example_cars_distinct|]. split; [exact Hteams|].
  split; [exact (Hblue 0%nat 7%Z eq_refl)|].
  split; [exact (Hblue 1%nat 9%Z eq_refl)|].
  split; [exact (Horange 0%nat 3%Z eq_refl)|].
  apply Hnone; cbn; intuition discriminate.
Defined.

Lemma spectator_ids_distinct_witness :
  NoDup (map fst cars_with_stranger)
  /\ BLUE_TEAM <> ORANGE_TEAM
  /\ PyDict.get (V1GameState.spectator_id_map cars_with_stranger) 3 = Some 5%Z
  /\ (3 = 3 /\ 1 <= 5)%Z.
Proof.
  assert (Hteams : BLUE_TEAM <> ORANGE_TEAM) by compute_it.
  split; [exact example_cars_distinct|]. split; [exact Hteams|].
  split; [reflexivity|].
  exact (spectator_ids_distinct cars_with_stranger 3%Z 3%Z 5%Z
           example_cars_distinct Hteams eq_refl eq_refl).
Defined.

Lemma update_from_v2_args_team_witness :
  NoDup (map fst cars_with_stranger)
  /\ BLUE_TEAM <> ORANGE_TEAM
  /\ V1GameState.update_from_v2_args v1_state1 cars_with_stranger 5
     = Py.Err Py.KeyError
  /\ exists id,
       V1GameState.update_from_v2_args v1_state1 cars_with_stranger 7
       = Py.Ok (example_car 0 0.3, id, 1%Z, false)
       /\ (1 <= id)%Z.
Proof.
  assert (Hteams : BLUE_TEAM <> ORANGE_TEAM) by compute_it.
  destruct (update_from_v2_args_team v1_state1 cars_with_stranger 5%Z (example_car 2 0)
              example_cars_distinct Hteams eq_refl) as [Hstranger _].
  destruct (update_from_v2_args_team v1_state1 cars_with_stranger 7%Z (example_car 0 0.3)
              example_cars_distinct Hteams eq_refl) as [_ Hblue].
  split; [exact example_cars_distinct|]. split; [exact Hteams|].
  split; [apply Hstranger; compute_it|].
  apply (Hblue (or_introl eq_refl) 1%Z false); reflexivity.
Defined.


Lemma update_last_touch_witness :
  V1GameState.update v1_state0 example_packet example_cars = Py.Ok v1_state1
  /\ (forall q tq, In q (MatchPacket.players example_packet) ->
                   PlayerEntry.latest_touch q = Some tq ->
                   -1 < Touch.game_seconds tq)
  /\ (V1GameState.last_touch v1_state1 = (-1)%Z
      <-> forall q, In q (MatchPacket.players example_packet) ->
                    PlayerEntry.latest_touch q = None).
Proof.
  assert (Hlate : forall q tq, In q (MatchPacket.players example_packet) ->
                    PlayerEntry.latest_touch q = Some tq ->
                    -1 < Touch.game_seconds tq).
  { intros q tq [<- | [<- | [<- | []]]] Htq; cbn in Htq;
      first [discriminate Htq | injection Htq as <-; compute_it]. }
  destruct (update_last_touch v1_state0 example_packet example_cars v1_state1
              v1_update_completes)
    as [_ Hiff].
  split; [exact v1_update_completes|]. split; [exact Hlate|]. exact (Hiff Hlate).
Defined.

Lemma update_ball_touched_witness :
  V1GameState.update v1_state0 example_packet example_cars = Py.Ok v1_state1
  /\ V1GameState.touched_recently example_packet (V1GameState._tick_skip v1_state0)
       (PlayerEntry.mk 3 50 (Some (Touch.mk 9.95))) = true
  /\ PyDict.get (V1GameState._car_ball_touched v1_state1) 3 = Some true.
Proof.
  destruct (update_ball_touched v1_state0 example_packet example_cars v1_state1
              v1_update_completes)
    as (_ & _ & Hrecent & _).
  split; [exact v1_update_completes|]. split; [reflexivity|].
  apply (Hrecent (PlayerEntry.mk 3 50 (Some (Touch.mk 9.95)))).
  - right. left. reflexivity.
  - reflexivity.
Defined.

Lemma update_boost_pickups_witness :
  V1GameState.update v1_state0 example_packet example_cars = Py.Ok v1_state1
  /\ NoDup (map fst example_cars)
  /\ NoDup (map PlayerEntry.player_id (MatchPacket.players example_packet))
  /\ PyDict.get (V1GameState._boost_pickups v1_state1) 7
     = Some (0 + if V1GameState.picked_up example_packet example_cars
                      (PlayerEntry.mk 7 80 None) then 1 else 0)%Z
  /\ PyDict.get (V1GameState._boost_pickups v1_state1) 4 = Some 0%Z.
Proof.
  destruct (update_boost_pickups v1_state0 example_packet example_cars v1_state1
              v1_update_completes)
    as (_ & _ & Hexact).
  destruct (Hexact example_cars_keys example_players_distinct
              (PlayerEntry.mk 7 80 None) (or_introl eq_refl)) as [Hseven _].
  destruct (Hexact example_cars_keys example_players_distinct
              (PlayerEntry.mk 4 20 (Some (Touch.mk 5)))
              (or_intror (or_intror (or_introl eq_refl)))) as [_ Hfour].
  split; [exact v1_update_completes|]. split; [exact example_cars_keys|].
  split; [exact example_players_distinct|].
  split; [exact Hseven|]. apply Hfour. reflexivity.
Defined.

(** *** [game_state.py] *)

Lemma decode_player_flags_witness :
  match GameState._decode_player legacy_state0 (legacy_sample AirState.InAir) 0 1 with
  | Py.Ok (s1, pd) =>
      List.length (GameState.has_jumped s1) = List.length (GameState.has_jumped legacy_state0)
      /\ PlayerData.on_ground pd = true
      /\ PlayerData.has_flip pd = true
      /\ PlayerData.has_jump pd = false
  | Py.Err _ => False
  end.
Proof.
  destruct (GameState._decode_player legacy_state0 (legacy_sample AirState.InAir) 0 1)
    as [[s1 pd]|err] eqn:E; [|vm_compute in E; discriminate E].
  destruct (decode_player_flags _ _ _ _ _ _ E)
    as ((_ & _ & Hlen) & Hground & Hflip & Hjump).
  split; [exact Hlen|].
  split; [apply Hground; right; exists 0; split; [reflexivity | compute_it]|].
  split; [apply Hflip; right; right; split; [reflexivity|];
          exists 0; split; [reflexivity | compute_it]|].
  apply Hjump. discriminate.
Defined.

Lemma decode_player_index_witness :
  (List.length (GameState._on_ground_ticks legacy_state0) = 64%nat
   /\ List.length (GameState._air_time_since_jump legacy_state0) = 64%nat
   /\ List.length (GameState.has_jumped legacy_state0) = 10%nat)
  /\ GameState._decode_player legacy_state0 (legacy_sample AirState.InAir) 64 1
     = Py.Err Py.IndexError
  /\ GameState._decode_player legacy_state0 (legacy_sample AirState.OnGround) 10 1
     = Py.Err Py.IndexError
  /\ (exists r, GameState._decode_player legacy_state0
                  (legacy_sample AirState.InAir) 10 1 = Py.Ok r)
  /\ (exists r, GameState._decode_player legacy_state0
                  (legacy_sample AirState.OnGround) 9 1 = Py.Ok r).
Proof.
  destruct (decode_player_index legacy_state0 (legacy_sample AirState.InAir) 64 1
              eq_refl eq_refl eq_refl) as (Hbig & _ & _ & _).
  destruct (decode_player_index legacy_state0 (legacy_sample AirState.OnGround) 10 1
              eq_refl eq_refl eq_refl) as (_ & Hmid & _ & _).
  destruct (decode_player_index legacy_state0 (legacy_sample AirState.InAir) 10 1
              eq_refl eq_refl eq_refl) as (_ & _ & Hair & _).
  destruct (decode_player_index legacy_state0 (legacy_sample AirState.OnGround) 9 1
              eq_refl eq_refl eq_refl) as (_ & _ & _ & Hsmall).
  split; [repeat split|].
  split; [apply Hbig; lia|].
  split; [apply Hmid; [lia | left; reflexivity]|].
  split; [apply Hair; [lia | discriminate | discriminate]|].
  apply Hsmall. lia.
Defined.

Lemma decode_pads_and_players_witness :
  List.length (GameState.boost_pads legacy_state0)
  = List.length (GameState.inverted_boost_pads legacy_state0)
  /\ match GameState.decode legacy_state0 legacy_packet 1 8 with
     | Py.Ok s' =>
         nth_error (GameState.boost_pads s') 0 = Some 1%Q
         /\ GameState.inverted_boost_pads s' = rev (GameState.boost_pads s')
         /\ List.length (GameState.players s') = 2%nat
         /\ Forall (fun pd => PlayerData.has_jump pd = false) (GameState.players s')
     | Py.Err _ => False
     end
  /\ GameState.decode legacy_state0 crowded_pads_packet 1 8 = Py.Err Py.IndexError.
Proof.
  destruct (decode_pads_and_players legacy_state0 legacy_packet 1 8 eq_refl)
    as [Hok _].
  destruct (decode_pads_and_players legacy_state0 crowded_pads_packet 1 8 eq_refl)
    as [_ Herr].
  split; [reflexivity|]. split.
  - destruct (GameState.decode legacy_state0 legacy_packet 1 8) as [s'|err] eqn:E;
      [|vm_compute in E; discriminate E].
    destruct (Hok s' eq_refl) as (_ & Hpads & Hrev & Hcount & Hjump).
    split; [exact (Hpads 0%nat (LegacyFlat.mkBoostPadState true) eq_refl)|].
    split; [exact Hrev|]. split; [exact Hcount|].
    apply Hjump. discriminate.
  - apply Herr; simpl; lia.
Defined.

End MoreRuns.
